(** * mesheryctl perf apply: the performance-test submission workflow

    A shallow embedding of [mesheryctl/internal/cli/root/perf/apply.go]
    (the [RunE] body of [applyCmd] and [createPerformanceProfile]) and the
    properties of it that the specification states.

    Go strings are byte sequences, so they are [string]s of 8-bit [ascii].
    Go's [int], [int32] and [int64] values are [Z].  The package-level
    variables of [apply.go] are one record, [Vars], threaded through a small
    state, error and trace monad; a run-time panic of Go (an index out of
    range, a nil dereference) is an outcome of its own, distinct from a
    returned [error]. *)

From Stdlib Require Import Ascii DecimalString DecimalPos.
From stdpp Require Import gmap strings list.

Open Scope string_scope.
Open Scope Z_scope.

(** ** Go strings *)

Module GoString.

(** [len(s)] *)
Definition len (s : string) : Z := Z.of_nat (String.length s).

(** [s[i]]: [None] is the run-time panic "index out of range". *)
Definition index (s : string) (i : Z) : option ascii :=
  if bool_decide (0 ≤ i < len s) then String.get (Z.to_nat i) s else None.

(** [s[:j]]: [None] is the run-time panic "slice bounds out of range". *)
Definition slice_to (s : string) (j : Z) : option string :=
  if bool_decide (0 ≤ j ≤ len s)
  then Some (String.substring 0 (Z.to_nat j) s) else None.

Definition byte_val (b : ascii) : Z := Z.of_N (N_of_ascii b).
Definition byte_of (n : Z) : ascii := ascii_of_N (Z.to_N n).

(** [string(b)] for [b] of type [byte]: the conversion of an integer to a
    string, which yields the UTF-8 encoding of the code point [b].  Code
    points below 0x80 are one byte, the others up to 0xFF are two. *)
Definition of_byte (b : ascii) : string :=
  let r := byte_val b in
  if r <? 128 then String b ""
  else String (byte_of (Z.lor 192 (Z.shiftr r 6)))
         (String (byte_of (Z.lor 128 (Z.land r 63))) "").

(** [strings.ReplaceAll(s, " ", "%20")] *)
Fixpoint ReplaceAll_space (s : string) : string :=
  match s with
  | "" => ""
  | String c s' =>
      if Ascii.eqb c " "%char then "%20" ++ ReplaceAll_space s'
      else String c (ReplaceAll_space s')
  end.

(** [strings.Join(elems, sep)] *)
Definition Join (elems : list string) (sep : string) : string :=
  String.concat sep elems.

End GoString.

(** ** strconv *)

Module strconv.

Definition minInt : Z := - 2 ^ 63.
Definition maxInt : Z := 2 ^ 63 - 1.

(** [strconv.Itoa(i)] and [strconv.FormatInt(i, 10)]: the decimal
    numeral, with a leading minus sign for a negative number. *)
Definition Itoa (i : Z) : string := NilZero.string_of_int (Z.to_int i).
Definition FormatInt10 (i : Z) : string := Itoa i.

Definition digit (c : ascii) : option Z :=
  let n := GoString.byte_val c in
  if bool_decide (48 ≤ n ≤ 57) then Some (n - 48) else None.

Fixpoint digits (s : string) (acc : Z) : option Z :=
  match s with
  | "" => Some acc
  | String c s' =>
      match digit c with
      | Some d => digits s' (acc * 10 + d)
      | None => None
      end
  end.

(** [strconv.Atoi(s)]: an optional sign, then one or more decimal digits,
    and the value must fit [int] (64 bits); [None] is the error. *)
Definition Atoi (s : string) : option Z :=
  match s with
  | "" => None
  | String c rest =>
      let neg := Ascii.eqb c "-"%char in
      let body := if neg || Ascii.eqb c "+"%char then rest else s in
      match body with
      | "" => None
      | _ =>
          match digits body 0 with
          | Some n =>
              let i := if neg then - n else n in
              if bool_decide (minInt ≤ i ≤ maxInt) then Some i else None
          | None => None
          end
      end
  end.

End strconv.

(** ** Data model *)

(** The test-configuration file of the service-mesh-performance schema. *)
Module SMP.

Record PerformanceTestConfig_Client := {
  EndpointUrls : list string;
  Rps : Z;
  Connections : Z;
  LoadGenerator : string;
}.

Record PerformanceTestConfig := {
  Name : string;
  Duration : string;
  Clients : list PerformanceTestConfig_Client;
}.

Record ServiceMesh := {
  Type_ : Z;
}.

End SMP.

Module models.

(** The two top-level keys are pointers in Go: [None] is [nil]. *)
Record PerformanceTestConfigFile := {
  Config : option SMP.PerformanceTestConfig;
  ServiceMesh_ : option SMP.ServiceMesh;
}.

(** A stored profile; [ID] stands for [ID.String()]. *)
Record PerformanceProfile := {
  ID : string;
  Name : string;
  Endpoints : list string;
  LoadGenerators : list string;
  ConcurrentRequest : Z;
  QPS : Z;
  Duration : string;
  ServiceMesh : string;
}.

End models.

(** The error kinds of the command. *)
Inductive Error : Type :=
| ErrMesheryConfig
| ErrReadFilepath
| ErrFailUnmarshalFile
| ErrInvalidTestConfigFile
| ErrNoProfileName
| ErrNoProfileFound
| ErrNoTestURL
| ErrNotValidURL
| ErrFailRequest
| ErrFailTestRun
| ErrFailReqStatus (code : Z)
| ErrFailUnmarshal
| ErrReadBody
| ErrConvConcurrentRequest
| ErrConvQPS
| ErrCollaborator (msg : string).

(** A value of the [map[string]interface{}] that becomes the JSON body of
    the creation request. *)
Inductive JSON : Type :=
| JInt (i : Z)
| JString (s : string)
| JStrings (l : list string).

(** An outbound request: the POST of profile creation with the [values]
    map that [json.Marshal] turns into its body (the bytes on the wire are
    the encoding of that map, which replaces bytes that are not valid
    UTF-8), the GET of the test run with the URL given to
    [utils.NewRequest] and the [url.Values] that are encoded into its
    query. *)
Inductive Request : Type :=
| POST (url : string) (values : gmap string JSON)
| GET (url : string) (q : gmap string (list string)).

Record Response := {
  StatusCode : Z;
  ContentType : string;
  Body : option string;   (* [io.ReadAll(resp.Body)]; [None]: the read fails *)
}.

(** What a run does that the outside can observe. *)
Inductive Event : Type :=
| Fetched (name : string)
| AskedConfirmation (msg : string)
| AskedIndex
| Sent (r : Request).

(** The package-level variables of [apply.go]. *)
Record Vars := {
  profileName : string;
  testURL : string;
  testName : string;
  testMesh : string;
  qps : string;
  concurrentRequests : string;
  testDuration : string;
  loadGenerator : string;
  filePath : string;
  profileID : string;
}.

Definition set_profileName (s : string) (v : Vars) : Vars :=
  {| profileName := s; testURL := testURL v; testName := testName v;
     testMesh := testMesh v; qps := qps v;
     concurrentRequests := concurrentRequests v;
     testDuration := testDuration v; loadGenerator := loadGenerator v;
     filePath := filePath v; profileID := profileID v |}.

Definition set_testURL (s : string) (v : Vars) : Vars :=
  {| profileName := profileName v; testURL := s; testName := testName v;
     testMesh := testMesh v; qps := qps v;
     concurrentRequests := concurrentRequests v;
     testDuration := testDuration v; loadGenerator := loadGenerator v;
     filePath := filePath v; profileID := profileID v |}.

Definition set_testName (s : string) (v : Vars) : Vars :=
  {| profileName := profileName v; testURL := testURL v; testName := s;
     testMesh := testMesh v; qps := qps v;
     concurrentRequests := concurrentRequests v;
     testDuration := testDuration v; loadGenerator := loadGenerator v;
     filePath := filePath v; profileID := profileID v |}.

Definition set_testMesh (s : string) (v : Vars) : Vars :=
  {| profileName := profileName v; testURL := testURL v;
     testName := testName v; testMesh := s; qps := qps v;
     concurrentRequests := concurrentRequests v;
     testDuration := testDuration v; loadGenerator := loadGenerator v;
     filePath := filePath v; profileID := profileID v |}.

Definition set_qps (s : string) (v : Vars) : Vars :=
  {| profileName := profileName v; testURL := testURL v;
     testName := testName v; testMesh := testMesh v; qps := s;
     concurrentRequests := concurrentRequests v;
     testDuration := testDuration v; loadGenerator := loadGenerator v;
     filePath := filePath v; profileID := profileID v |}.

Definition set_concurrentRequests (s : string) (v : Vars) : Vars :=
  {| profileName := profileName v; testURL := testURL v;
     testName := testName v; testMesh := testMesh v; qps := qps v;
     concurrentRequests := s;
     testDuration := testDuration v; loadGenerator := loadGenerator v;
     filePath := filePath v; profileID := profileID v |}.

Definition set_testDuration (s : string) (v : Vars) : Vars :=
  {| profileName := profileName v; testURL := testURL v;
     testName := testName v; testMesh := testMesh v; qps := qps v;
     concurrentRequests := concurrentRequests v;
     testDuration := s; loadGenerator := loadGenerator v;
     filePath := filePath v; profileID := profileID v |}.

Definition set_loadGenerator (s : string) (v : Vars) : Vars :=
  {| profileName := profileName v; testURL := testURL v;
     testName := testName v; testMesh := testMesh v; qps := qps v;
     concurrentRequests := concurrentRequests v;
     testDuration := testDuration v; loadGenerator := s;
     filePath := filePath v; profileID := profileID v |}.

Definition set_profileID (s : string) (v : Vars) : Vars :=
  {| profileName := profileName v; testURL := testURL v;
     testName := testName v; testMesh := testMesh v; qps := qps v;
     concurrentRequests := concurrentRequests v;
     testDuration := testDuration v; loadGenerator := loadGenerator v;
     filePath := filePath v; profileID := s |}.

(** ** Collaborators

    The pure library functions the command calls, and the surroundings of
    one invocation: file system, registry, user and transport. *)

Class Libraries := {
  (** [govalidator.IsURL] *)
  IsURL : string → bool;
  (** [utils.ContentTypeIsHTML] *)
  ContentTypeIsHTML : Response → bool;
  (** [SMP.ServiceMesh_Type_name[t]]: the display name of a mesh type, the
      empty string for a key the map does not have. *)
  ServiceMesh_Type_name : Z → string;
  (** [yaml.Unmarshal] into a [models.PerformanceTestConfigFile]. *)
  yaml_Unmarshal : string → option models.PerformanceTestConfigFile;
  (** [json.Unmarshal] into a [*models.PerformanceProfile]: [None] is the
      decoding error, [Some None] leaves the pointer [nil] (the body
      [null]). *)
  json_Unmarshal : string → option (option models.PerformanceProfile);
  (** [req.URL.Query()] of the request that [utils.NewRequest] makes for
      a URL: the parameters that [net/url] parses from the query of that
      URL. *)
  URL_Query : string → gmap string (list string);
}.

Record World := {
  (** [config.GetMesheryCtl] followed by [GetBaseMesheryURL]. *)
  GetMesheryCtl : option string;
  (** [os.ReadFile] *)
  ReadFile : string → option string;
  (** [utils.StringWithCharset(8)] *)
  StringWithCharset : string;
  pageSize : Z;
  pageNumber : Z;
  (** [fetchPerformanceProfiles(baseURL, name, pageSize, pageNumber)] *)
  fetchPerformanceProfiles :
    string → string → Z → Z → Error + list models.PerformanceProfile;
  (** [utils.SilentFlag] *)
  SilentFlag : bool;
  (** [utils.AskForConfirmation] *)
  AskForConfirmation : string → bool;
  (** [userPrompt] over the rows of [profilesToStringArrays(profiles)] *)
  userPrompt : list models.PerformanceProfile → Error + Z;
  (** [utils.NewRequest(method, url, body)]: [Some e] is its error. *)
  NewRequest : string → string → option Error;
  (** [client.Do(req)]: [None] is the transport failure. *)
  Do : Request → option Response;
}.

(** ** The monad of the command: state, error, panic and trace *)

Inductive Outcome (A : Type) : Type :=
| Done (a : A) (v : Vars)
| Failed (e : Error)
| Panicked.
Arguments Done {A} a v.
Arguments Failed {A} e.
Arguments Panicked {A}.

Definition M (A : Type) : Type := Vars → Outcome A * list Event.

Definition ret {A} (a : A) : M A := λ v, (Done a v, []).

Definition bind {A B} (m : M A) (k : A → M B) : M B :=
  λ v,
    match m v with
    | (Done a v', t) => let '(o, t') := k a v' in (o, (t ++ t')%list)
    | (Failed e, t) => (Failed e, t)
    | (Panicked, t) => (Panicked, t)
    end.

Definition fail {A} (e : Error) : M A := λ _, (Failed e, []).
Definition panic {A} : M A := λ _, (Panicked, []).
Definition get : M Vars := λ v, (Done v v, []).
Definition modify (f : Vars → Vars) : M unit := λ v, (Done tt (f v), []).
Definition emit (ev : Event) : M unit := λ v, (Done tt v, [ev]).

Declare Scope go_scope.
Delimit Scope go_scope with go.
Notation "x <- c1 ;; c2" := (bind c1 (λ x, c2))
  (at level 100, c1 at next level, right associativity) : go_scope.
Notation "c1 ;; c2" := (bind c1 (λ _, c2))
  (at level 100, right associativity) : go_scope.
Open Scope go_scope.

(** A result whose absence is the error [e]. *)
Definition orFail {A} (o : option A) (e : Error) : M A :=
  match o with Some a => ret a | None => fail e end.

(** An indexing or dereference whose failure is a panic. *)
Definition orPanic {A} (o : option A) : M A :=
  match o with Some a => ret a | None => panic end.

(** A collaborator's [(value, err)]: the error is returned as it is. *)
Definition orReturn {A} (r : Error + A) : M A :=
  match r with inr a => ret a | inl e => fail e end.

(** [if x == "" { ... }] on a package-level variable. *)
Definition whenEmpty (x : Vars → string) (m : M unit) : M unit :=
  v <- get ;; if String.eqb (x v) "" then m else ret tt.

(** [l[i]] on a slice with an [int] index. *)
Definition at_index {A} (l : list A) (i : Z) : option A :=
  if bool_decide (0 ≤ i) then l !! Z.to_nat i else None.

Definition outcome {A} (r : Outcome A * list Event) : Outcome A := fst r.
Definition trace {A} (r : Outcome A * list Event) : list Event := snd r.

(** ** net/url: the query of a request *)

Module Values.

(** [q.Add(key, value)]: appends to the values of [key]. *)
Definition Add (key value : string) (q : gmap string (list string))
  : gmap string (list string) :=
  <[key := (default [] (q !! key) ++ [value])%list]> q.

End Values.

(** ** The command *)

Section Command.

Context `{Libraries} (w : World).

(** The body of the creation request, lines 321-333. *)
Definition creationValues (convReq convQPS : Z) (v : Vars)
  : gmap string JSON :=
  <["concurrent_request" := JInt convReq]>
  (<["duration" := JString (testDuration v)]>
  (<["endpoints" := JStrings [testURL v]]>
  (<["load_generators" := JStrings [loadGenerator v]]>
  (<["name" := JString (profileName v)]>
  (<["qps" := JInt convQPS]>
  (<["service_mesh" := JString (testMesh v)]>
  (<["request_body" := JString ""]>
  (<["request_cookies" := JString ""]>
  (<["request_headers" := JString ""]>
  (<["content_type" := JString ""]> ∅)))))))))).

(** Lines 293-311: the defaults of the variables that are still empty. *)
Definition applyDefaults : M unit :=
  whenEmpty testMesh (modify (set_testMesh "None")) ;;
  whenEmpty qps (modify (set_qps "0")) ;;
  whenEmpty concurrentRequests (modify (set_concurrentRequests "1")) ;;
  whenEmpty testDuration (modify (set_testDuration "30s")) ;;
  whenEmpty loadGenerator (modify (set_loadGenerator "fortio")).

(** [createPerformanceProfile], lines 276-368.  [json.Marshal] of a map
    of strings, integers and string slices has no failing case. *)
Definition createPerformanceProfile (baseURL : string)
  : M (string * string) :=
  v <- get ;;
  if String.eqb (profileName v) "" then fail ErrNoProfileName else
  if String.eqb (testURL v) "" then fail ErrNoTestURL else
  if negb (IsURL (testURL v)) then fail ErrNotValidURL else
  applyDefaults ;;
  v <- get ;;
  convReq <- orFail (strconv.Atoi (concurrentRequests v))
               ErrConvConcurrentRequest ;;
  convQPS <- orFail (strconv.Atoi (qps v)) ErrConvQPS ;;
  let values := creationValues convReq convQPS v in
  let url := baseURL ++ "/api/user/performance/profiles" in
  match NewRequest w "POST" url with
  | Some e => fail e
  | None =>
      let req := POST url values in
      emit (Sent req) ;;
      resp <- orFail (Do w req) ErrFailRequest ;;
      if negb (StatusCode resp =? 200)
      then fail (ErrFailReqStatus (StatusCode resp))
      else
        body <- orFail (Body resp) ErrReadBody ;;
        decoded <- orFail (json_Unmarshal body) ErrFailUnmarshal ;;
        response <- orPanic decoded ;;
        modify (set_profileID (models.ID response)) ;;
        modify (set_profileName (models.Name response)) ;;
        v <- get ;;
        ret (profileID v, profileName v)
  end.

(** Lines 73-76: the base URL of the registry. *)
Definition loadConfig : M string :=
  orFail (GetMesheryCtl w) ErrMesheryConfig.

(** Lines 80-128: the test-configuration file fills the variables that
    no flag has set. *)
Definition importFile : M unit :=
  v <- get ;;
  if String.eqb (filePath v) "" then ret tt else
  smpConfig <- orFail (ReadFile w (filePath v)) ErrReadFilepath ;;
  testConfig <- orFail (yaml_Unmarshal smpConfig) ErrFailUnmarshalFile ;;
  match models.Config testConfig, models.ServiceMesh_ testConfig with
  | Some config, Some mesh =>
      testClient <- orPanic (at_index (SMP.Clients config) 0) ;;
      whenEmpty testName (modify (set_testName (SMP.Name config))) ;;
      whenEmpty testURL
        (u <- orPanic (at_index (SMP.EndpointUrls testClient) 0) ;;
         modify (set_testURL u)) ;;
      whenEmpty testMesh
        (modify (set_testMesh (ServiceMesh_Type_name (SMP.Type_ mesh)))) ;;
      whenEmpty qps
        (modify (set_qps (strconv.FormatInt10 (SMP.Rps testClient)))) ;;
      whenEmpty concurrentRequests
        (modify (set_concurrentRequests
                   (strconv.Itoa (SMP.Connections testClient)))) ;;
      whenEmpty testDuration
        (modify (set_testDuration (SMP.Duration config))) ;;
      whenEmpty loadGenerator
        (modify (set_loadGenerator (SMP.LoadGenerator testClient)))
  | _, _ => fail ErrInvalidTestConfigFile
  end.

(** Lines 131-135: a random test name when none was given. *)
Definition nameTest : M unit :=
  whenEmpty testName (modify (set_testName (StringWithCharset w))).

(** Lines 138-147: the profile name from the positional arguments. *)
Definition nameProfile (args : list string) : M unit :=
  if bool_decide (length args = 0%nat) then fail ErrNoProfileName
  else
    modify (set_profileName
              (GoString.Join (map GoString.ReplaceAll_space args) "%20")).

(** Lines 73-147: everything before the registry is consulted. *)
Definition prepare (args : list string) : M string :=
  baseURL <- loadConfig ;;
  importFile ;;
  nameTest ;;
  nameProfile args ;;
  ret baseURL.

(** Lines 160-166: the confirmation, skipped in silent mode. *)
Definition confirmCreation : M bool :=
  v <- get ;;
  if SilentFlag w then ret true
  else
    let msg := "Profile with name '" ++ profileName v
               ++ "' does not exist. Do you want to create a new one" in
    emit (AskedConfirmation msg) ;;
    ret (AskForConfirmation w msg).

(** Lines 169-172: the new profile's identifier and name become the
    variables'. *)
Definition createAndAdopt (baseURL : string) : M unit :=
  r <- createPerformanceProfile baseURL ;;
  modify (set_profileID (fst r)) ;;
  modify (set_profileName (snd r)).

(** Lines 177-186: the index of the profile to use. *)
Definition chooseProfile (profiles : list models.PerformanceProfile)
  : M Z :=
  if bool_decide (length profiles = 1%nat) then
    p <- orPanic (at_index profiles 0) ;;
    modify (set_profileID (models.ID p)) ;;
    ret 0
  else
    emit AskedIndex ;;
    index <- orReturn (userPrompt w profiles) ;;
    p <- orPanic (at_index profiles index) ;;
    modify (set_profileID (models.ID p)) ;;
    ret index.

(** Lines 195-202: the profile replaces the variables when no file was
    given. *)
Definition pullFromProfile (p : models.PerformanceProfile) : M unit :=
  modify (set_profileName (models.Name p)) ;;
  lg <- orPanic (at_index (models.LoadGenerators p) 0) ;;
  modify (set_loadGenerator lg) ;;
  modify (set_concurrentRequests
            (strconv.Itoa (models.ConcurrentRequest p))) ;;
  modify (set_qps (strconv.Itoa (models.QPS p))) ;;
  modify (set_testDuration (models.Duration p)) ;;
  modify (set_testMesh (models.ServiceMesh p)).

(** Lines 151-203: profile resolution. *)
Definition resolveProfile (baseURL : string) : M unit :=
  v <- get ;;
  emit (Fetched (profileName v)) ;;
  profiles <- orReturn (fetchPerformanceProfiles w baseURL (profileName v)
                          (pageSize w) (pageNumber w - 1)) ;;
  if bool_decide (length profiles = 0%nat) then
    userResponse <- confirmCreation ;;
    if userResponse : bool then createAndAdopt baseURL
    else fail ErrNoProfileFound
  else
    index <- chooseProfile profiles ;;
    whenEmpty testURL
      (p <- orPanic (at_index profiles index) ;;
       u <- orPanic (at_index (models.Endpoints p) 0) ;;
       modify (set_testURL u)) ;;
    whenEmpty filePath
      (p <- orPanic (at_index profiles index) ;;
       pullFromProfile p).

(** Lines 205-215: the test URL must be there and be a URL. *)
Definition checkURL : M unit :=
  v <- get ;;
  if String.eqb (testURL v) "" then fail ErrNoTestURL else
  if negb (IsURL (testURL v)) then fail ErrNotValidURL else
  ret tt.

(** Lines 222-237: the query of the run request, built on [q0], the query
    [req.URL.Query()] that the URL of the request already has. *)
Definition buildQuery (q0 : gmap string (list string)) (v : Vars)
  : option (gmap string (list string)) :=
  let q := q0 in
  let q := Values.Add "name" (testName v) q in
  let q := Values.Add "loadGenerator" (loadGenerator v) q in
  let q := Values.Add "c" (concurrentRequests v) q in
  let q := Values.Add "url" (testURL v) q in
  let q := Values.Add "qps" (qps v) q in
  let durLen := GoString.len (testDuration v) in
  match GoString.index (testDuration v) (durLen - 1) with
  | None => None
  | Some b =>
      let q := Values.Add "dur" (GoString.of_byte b) q in
      match GoString.slice_to (testDuration v) (durLen - 1) with
      | None => None
      | Some t =>
          let q := Values.Add "t" t q in
          Some (if String.eqb (testMesh v) "" then q
                else Values.Add "mesh" (testMesh v) q)
      end
  end.

(** Lines 217-238: the run request.  The parameters are added to the
    query that the URL of the request already has (line 222), whatever
    the base URL brings; the request carries the [url.Values] that
    [q.Encode()] serialises into its [RawQuery]. *)
Definition buildRequest (baseURL : string) : M Request :=
  v <- get ;;
  let url := baseURL ++ "/api/user/performance/profiles/"
             ++ profileID v ++ "/run" in
  match NewRequest w "GET" url with
  | Some e => fail e
  | None =>
      q <- orPanic (buildQuery (URL_Query url) v) ;;
      ret (GET url q)
  end.

(** Lines 242-261: the request is sent and the response classified. *)
Definition execute (req : Request) : M unit :=
  emit (Sent req) ;;
  resp <- orFail (Do w req) ErrFailRequest ;;
  if ContentTypeIsHTML resp then fail ErrFailTestRun else
  if negb (StatusCode resp =? 200) then fail ErrFailTestRun else
  data <- orFail (Body resp) ErrReadBody ;;
  ret tt.

(** Lines 205-261: everything after profile resolution. *)
Definition submit (baseURL : string) : M unit :=
  checkURL ;;
  req <- buildRequest baseURL ;;
  execute req.

(** [applyCmd.RunE]: the variables hold the flags when it starts. *)
Definition RunE (args : list string) : M unit :=
  baseURL <- prepare args ;;
  resolveProfile baseURL ;;
  submit baseURL.

End Command.


(** ** Sample collaborators and invocations

    Concrete libraries, registries and flag settings on which the command
    can be run by computation. *)

Module Sample.

Definition client : SMP.PerformanceTestConfig_Client :=
  {| SMP.EndpointUrls := ["http://svc.local/productpage"];
     SMP.Rps := 7; SMP.Connections := 3; SMP.LoadGenerator := "wrk2" |}.

Definition config (duration : string)
  (clients : list SMP.PerformanceTestConfig_Client)
  : models.PerformanceTestConfigFile :=
  {| models.Config :=
       Some {| SMP.Name := "smp-test"; SMP.Duration := duration;
               SMP.Clients := clients |};
     models.ServiceMesh_ := Some {| SMP.Type_ := 3 |} |}.

(** The decoder knows four documents, named by their text. *)
Definition decode (text : string)
  : option models.PerformanceTestConfigFile :=
  if String.eqb text "duration: 2m" then Some (config "2m" [client])
  else if String.eqb text "duration absent" then Some (config "" [client])
  else if String.eqb text "clients: []" then Some (config "2m" [])
  else if String.eqb text "mesh absent" then
    Some {| models.Config := models.Config (config "2m" [client]);
            models.ServiceMesh_ := None |}
  else None.

Definition created (body : string) : models.PerformanceProfile :=
  {| models.ID := "7c9e6679"; models.Name := body;
     models.Endpoints := []; models.LoadGenerators := [];
     models.ConcurrentRequest := 0; models.QPS := 0;
     models.Duration := ""; models.ServiceMesh := "" |}.

(** The part of [s] after the first [c], if there is one. *)
Fixpoint after (c : ascii) (s : string) : option string :=
  match s with
  | "" => None
  | String a s' => if Ascii.eqb a c then Some s' else after c s'
  end.

(** The part of [s] before the first [c], all of [s] if there is none. *)
Fixpoint before (c : ascii) (s : string) : string :=
  match s with
  | "" => ""
  | String a s' => if Ascii.eqb a c then "" else String a (before c s')
  end.

(** The query of a URL that has at most one parameter, written without
    escapes: nothing for a URL without [?], and [key] with the value
    [value] for [...?key=value]. *)
Definition query (url : string) : gmap string (list string) :=
  match after "?" url with
  | None => ∅
  | Some raw =>
      match after "=" raw with
      | None => {[ raw := [""] ]}
      | Some value => {[ before "=" raw := [value] ]}
      end
  end.

Definition libraries : Libraries :=
  {| IsURL := λ s, String.prefix "http://" s || String.prefix "https://" s;
     ContentTypeIsHTML := λ r, String.prefix "text/html" (ContentType r);
     ServiceMesh_Type_name := λ t, if t =? 3 then "ISTIO" else "";
     yaml_Unmarshal := decode;
     json_Unmarshal := λ body, Some (Some (created body));
     URL_Query := query |}.

Definition stored : models.PerformanceProfile :=
  {| models.ID := "1b4e28ba"; models.Name := "nightly";
     models.Endpoints := ["http://stored.local/"];
     models.LoadGenerators := ["fortio"];
     models.ConcurrentRequest := 4; models.QPS := 9;
     models.Duration := "10s"; models.ServiceMesh := "linkerd" |}.

Definition ok : Response :=
  {| StatusCode := 200; ContentType := "application/json";
     Body := Some "{}" |}.

Definition loginPage : Response :=
  {| StatusCode := 200; ContentType := "text/html; charset=utf-8";
     Body := Some "<html>" |}.

(** A registry holding [profiles], a user who answers [answer], and a
    transport that answers every request with [resp]; a file's text is its
    path. *)
Definition world (profiles : list models.PerformanceProfile)
  (silent answer : bool) (resp : Response) : World :=
  {| GetMesheryCtl := Some "http://localhost:9081";
     ReadFile := λ path, Some path;
     StringWithCharset := "qwertyui";
     pageSize := 25;
     pageNumber := 1;
     fetchPerformanceProfiles := λ _ _ _ _, inr profiles;
     SilentFlag := silent;
     AskForConfirmation := λ _, answer;
     userPrompt := λ _, inr 1;
     NewRequest := λ _ _, None;
     Do := λ _, Some resp |}.

(** The same surroundings behind a base URL that has a query, as a
    gateway that routes on a parameter gives it. *)
Definition behind (baseURL : string) (w : World) : World :=
  {| GetMesheryCtl := Some baseURL;
     ReadFile := ReadFile w;
     StringWithCharset := StringWithCharset w;
     pageSize := pageSize w;
     pageNumber := pageNumber w;
     fetchPerformanceProfiles := fetchPerformanceProfiles w;
     SilentFlag := SilentFlag w;
     AskForConfirmation := AskForConfirmation w;
     userPrompt := userPrompt w;
     NewRequest := NewRequest w;
     Do := Do w |}.

(** No flag set. *)
Definition noFlags : Vars :=
  {| profileName := ""; testURL := ""; testName := ""; testMesh := "";
     qps := ""; concurrentRequests := ""; testDuration := "";
     loadGenerator := ""; filePath := ""; profileID := "" |}.

(** [--file path] and nothing else. *)
Definition fileOnly (path : string) : Vars :=
  {| profileName := ""; testURL := ""; testName := ""; testMesh := "";
     qps := ""; concurrentRequests := ""; testDuration := "";
     loadGenerator := ""; filePath := path; profileID := "" |}.

(** Every flag set, against the stored profile and against the file. *)
Definition allFlags (path : string) : Vars :=
  {| profileName := ""; testURL := "https://flag.example/";
     testName := "by-flag"; testMesh := "consul"; qps := "100";
     concurrentRequests := "8"; testDuration := "5m";
     loadGenerator := "wrk2"; filePath := path; profileID := "" |}.

(** The two bytes of U+00E9 after a digit: a duration whose last byte is
    not ASCII. *)
Definition nonAscii : string :=
  String "1" (String (GoString.byte_of 195) (String (GoString.byte_of 169) "")).

End Sample.


(** ** The vocabulary of the properties *)

(** [keeps I T m]: started in a state of [I], the computation [m] emits
    only events of [T] and, when it completes, ends in a state of [I]. *)

Definition keeps {A} (I : Vars → Prop) (T : Event → Prop) (m : M A) : Prop :=
  ∀ v, I v →
    Forall T (trace (m v)) ∧ ∀ a v', outcome (m v) = Done a v' → I v'.

(** An event that is not the run request. *)
Definition notRun (ev : Event) : Prop :=
  match ev with Sent (GET _ _) => False | _ => True end.

(** An event that is no request at all. *)
Definition notSent (ev : Event) : Prop :=
  match ev with Sent _ => False | _ => True end.

(** [merged] is the flag when the flag is set, the file's value when it is
    not. *)
Definition flagWins (flag file merged : string) : Prop :=
  (flag ≠ "" → merged = flag) ∧ (flag = "" → merged = file).

(** The value a variable is submitted with: its default when it is still
    empty. *)
Definition orDefault (x d : string) : string :=
  if String.eqb x "" then d else x.

(** The variables after the five defaults. *)
Definition withDefaults (v : Vars) : Vars :=
  {| profileName := profileName v; testURL := testURL v;
     testName := testName v;
     testMesh := orDefault (testMesh v) "None";
     qps := orDefault (qps v) "0";
     concurrentRequests := orDefault (concurrentRequests v) "1";
     testDuration := orDefault (testDuration v) "30s";
     loadGenerator := orDefault (loadGenerator v) "fortio";
     filePath := filePath v; profileID := profileID v |}.

(** The question put to the user when no profile matches. *)
Definition question (v : Vars) : string :=
  "Profile with name '" ++ profileName v
  ++ "' does not exist. Do you want to create a new one".

(** The values that the query [q0] of the request URL has for [key]. *)
Definition valuesOf (q0 : gmap string (list string)) (key : string)
  : list string :=
  default [] (q0 !! key).

(** The command has added [value] to [key]: in [q] the key has the values
    it has in [q0], followed by [value]. *)
Definition added (q0 q : gmap string (list string)) (key value : string)
  : Prop :=
  q !! key = Some (valuesOf q0 key ++ [value])%list.

(** The URL of the run request. *)
Definition runURL (baseURL : string) (v : Vars) : string :=
  baseURL ++ "/api/user/performance/profiles/" ++ profileID v ++ "/run".

(** The same surroundings with silent mode off and a user who says yes. *)
Definition confirming (w : World) : World :=
  {| GetMesheryCtl := GetMesheryCtl w;
     ReadFile := ReadFile w;
     StringWithCharset := StringWithCharset w;
     pageSize := pageSize w;
     pageNumber := pageNumber w;
     fetchPerformanceProfiles := fetchPerformanceProfiles w;
     SilentFlag := false;
     AskForConfirmation := λ _, true;
     userPrompt := userPrompt w;
     NewRequest := NewRequest w;
     Do := Do w |}.

(** An event that is not the confirmation question. *)
Definition notAsked (ev : Event) : Prop :=
  match ev with AskedConfirmation _ => False | _ => True end.


(** The variables after a resolution that selected the profile [p]: its
    identifier, its first endpoint where no URL is set, and all of its
    test configuration where no file was given.  [None] is the panic of an
    index into an empty list. *)
Definition afterMatch (p : models.PerformanceProfile) (v : Vars)
  : option Vars :=
  let v1 := set_profileID (models.ID p) v in
  let withURL :=
    if String.eqb (testURL v) "" then
      match models.Endpoints p with
      | u :: _ => Some (set_testURL u v1)
      | [] => None
      end
    else Some v1 in
  match withURL with
  | None => None
  | Some v2 =>
      if String.eqb (filePath v) "" then
        match models.LoadGenerators p with
        | lg :: _ =>
            Some (set_testMesh (models.ServiceMesh p)
                    (set_testDuration (models.Duration p)
                       (set_qps (strconv.Itoa (models.QPS p))
                          (set_concurrentRequests
                             (strconv.Itoa (models.ConcurrentRequest p))
                             (set_loadGenerator lg
                                (set_profileName (models.Name p) v2))))))
        | [] => None
        end
      else Some v2
  end.

(** The URL of the creation request. *)
Definition createURL (baseURL : string) : string :=
  baseURL ++ "/api/user/performance/profiles".

(** A string with a space in it. *)
Fixpoint hasSpace (s : string) : bool :=
  match s with
  | "" => false
  | String c s' => Ascii.eqb c " "%char || hasSpace s'
  end.

(** The kinds of events. *)
Definition isQuestion (ev : Event) : Prop :=
  match ev with AskedConfirmation _ | AskedIndex => True | _ => False end.

Definition isCreation (ev : Event) : Prop :=
  match ev with Sent (POST _ _) => True | _ => False end.

Definition isRun (ev : Event) : Prop :=
  match ev with Sent (GET _ _) => True | _ => False end.

(** A trace in the order of the command: the fetch, then at most one
    question, at most one creation request and at most one run request. *)
Definition orderly (t : list Event) : Prop :=
  ∃ name questions creations runs,
    t = (Fetched name :: questions ++ creations ++ runs)%list
    ∧ (length questions ≤ 1)%nat ∧ Forall isQuestion questions
    ∧ (length creations ≤ 1)%nat ∧ Forall isCreation creations
    ∧ (length runs ≤ 1)%nat ∧ Forall isRun runs.

(** The keys of the query of every run request. *)
Definition runKeys : gset string :=
  {["name"; "loadGenerator"; "c"; "url"; "qps"; "dur"; "t"]}.

(** The creation request as it is sent for the variables [v]. *)
Definition sentCreation `{Libraries} (w : World) (baseURL : string)
    (v : Vars) (req : Request) : Prop :=
  ∃ convReq convQPS,
    profileName v ≠ "" ∧ testURL v ≠ "" ∧ IsURL (testURL v) = true
    ∧ strconv.Atoi (orDefault (concurrentRequests v) "1") = Some convReq
    ∧ strconv.Atoi (orDefault (qps v) "0") = Some convQPS
    ∧ NewRequest w "POST" (createURL baseURL) = None
    ∧ req = POST (createURL baseURL)
              (creationValues convReq convQPS (withDefaults v)).

(** A creation that completes got a 200 response whose body decodes. *)
Definition created `{Libraries} (w : World) (req : Request)
    (response : models.PerformanceProfile) : Prop :=
  ∃ resp body,
    Do w req = Some resp ∧ StatusCode resp = 200
    ∧ Body resp = Some body ∧ json_Unmarshal body = Some (Some response).

(** The value of the digits of [d] read after the value [acc]. *)
Fixpoint horner (d : Decimal.uint) (acc : Z) : Z :=
  match d with
  | Decimal.Nil => acc
  | Decimal.D0 d => horner d (acc * 10 + 0)
  | Decimal.D1 d => horner d (acc * 10 + 1)
  | Decimal.D2 d => horner d (acc * 10 + 2)
  | Decimal.D3 d => horner d (acc * 10 + 3)
  | Decimal.D4 d => horner d (acc * 10 + 4)
  | Decimal.D5 d => horner d (acc * 10 + 5)
  | Decimal.D6 d => horner d (acc * 10 + 6)
  | Decimal.D7 d => horner d (acc * 10 + 7)
  | Decimal.D8 d => horner d (acc * 10 + 8)
  | Decimal.D9 d => horner d (acc * 10 + 9)
  end.


(** ** Go strings: splitting off the last byte *)

Lemma length_snoc (pre : string) (c : ascii) :
  String.length (pre ++ String c "") = S (String.length pre).
Proof. induction pre as [|a pre IH]; simpl; [done | by rewrite IH]. Qed.

Lemma get_snoc (pre : string) (c : ascii) :
  String.get (String.length pre) (pre ++ String c "") = Some c.
Proof. induction pre as [|a pre IH]; simpl; done. Qed.

Lemma substring_snoc (pre : string) (c : ascii) :
  String.substring 0 (String.length pre) (pre ++ String c "") = pre.
Proof. induction pre as [|a pre IH]; simpl; [done | by rewrite IH]. Qed.

Lemma index_last (pre : string) (c : ascii) :
  let D := pre ++ String c "" in
  GoString.index D (GoString.len D - 1) = Some c.
Proof.
  cbv zeta. unfold GoString.index, GoString.len.
  rewrite length_snoc, bool_decide_eq_true_2 by lia.
  replace (Z.to_nat (Z.of_nat (S (String.length pre)) - 1))
    with (String.length pre) by lia.
  apply get_snoc.
Qed.

Lemma slice_to_last (pre : string) (c : ascii) :
  let D := pre ++ String c "" in
  GoString.slice_to D (GoString.len D - 1) = Some pre.
Proof.
  cbv zeta. unfold GoString.slice_to, GoString.len.
  rewrite length_snoc, bool_decide_eq_true_2 by lia.
  replace (Z.to_nat (Z.of_nat (S (String.length pre)) - 1))
    with (String.length pre) by lia.
  by rewrite substring_snoc.
Qed.

Lemma index_empty (i : Z) : GoString.index "" i = None.
Proof.
  unfold GoString.index, GoString.len. simpl.
  by rewrite bool_decide_eq_false_2 by lia.
Qed.

(** Every non-empty string ends in a last byte. *)
Lemma snoc_inv (D : string) : D ≠ "" → ∃ pre c, D = pre ++ String c "".
Proof.
  induction D as [|a D IH]; [done | intros _].
  destruct D as [|b D'].
  - by exists "", a.
  - destruct IH as (pre & c & ->); [done |]. by exists (String a pre), c.
Qed.

Lemma of_byte_ascii (c : ascii) :
  GoString.byte_val c < 128 → GoString.of_byte c = String c "".
Proof.
  intros Hc. unfold GoString.of_byte.
  by destruct (Z.ltb_spec (GoString.byte_val c) 128); [| lia].
Qed.

(** Lookups in a query built by [Values.Add] over distinct literal keys. *)
Ltac query_lookup :=
  unfold Values.Add, valuesOf;
  repeat first
    [ rewrite lookup_insert_eq
    | rewrite lookup_insert_ne by done
    | rewrite lookup_empty ];
  simpl.

(** An empty duration makes the construction of the query panic. *)
Lemma buildQuery_empty_duration (q0 : gmap string (list string)) (v : Vars) :
  testDuration v = "" → buildQuery q0 v = None.
Proof. intros Hd. unfold buildQuery. by rewrite Hd, index_empty. Qed.

(** And only an empty duration does: the query is built whatever the bytes
    of a non-empty duration are. *)
Lemma buildQuery_panics_iff (q0 : gmap string (list string)) (v : Vars) :
  buildQuery q0 v = None ↔ testDuration v = "".
Proof.
  split; [| apply buildQuery_empty_duration].
  destruct (decide (testDuration v = "")) as [|Hd]; [done |].
  apply snoc_inv in Hd as (pre & c & Hd). unfold buildQuery.
  by rewrite Hd, index_last, slice_to_last.
Qed.

(** C3, as the specification states it, for the values that the command
    adds to the query [q0] of the request URL, refuted where that query is
    empty and the last byte of the duration is not ASCII: the byte 0xA9
    becomes the two bytes of the UTF-8 encoding of U+00A9 in [dur], so
    [dur] is not the last byte of the duration. *)
Lemma C3_non_ascii_unit_not_kept :
  ¬ (∀ (q0 : gmap string (list string)) (v : Vars)
       (pre : string) (c : ascii),
       testDuration v = pre ++ String c "" →
       ∃ q, buildQuery q0 v = Some q
            ∧ q !! "t" = Some (valuesOf q0 "t" ++ [pre])%list
            ∧ q !! "dur" = Some (valuesOf q0 "dur" ++ [String c ""])%list).
Proof.
  intros Hclaim.
  destruct (Hclaim ∅ (set_testDuration Sample.nonAscii Sample.noFlags)
              (String "1" (String (GoString.byte_of 195) ""))
              (GoString.byte_of 169) eq_refl)
    as (q & Hq & _ & Hdur).
  vm_compute in Hq. injection Hq as <-.
  vm_compute in Hdur. discriminate Hdur.
Qed.

(** The query at that duration: [t] keeps the first byte of the two-byte
    character, [dur] is the two bytes of U+00A9; neither is the last
    character U+00E9 nor the digit before it. *)
Example non_ascii_duration_query :
  ∃ q, buildQuery ∅ (set_testDuration Sample.nonAscii Sample.noFlags) = Some q
       ∧ q !! "t" = Some [String "1" (String (GoString.byte_of 195) "")]
       ∧ q !! "dur" = Some [String (GoString.byte_of 194)
                             (String (GoString.byte_of 169) "")].
Proof. eexists. split; [vm_compute; reflexivity | by split]. Qed.

(** C3 (amended): for every non-empty duration whose last byte is ASCII,
    whatever query [q0] the request URL has, the query of the run request
    is built, and the command adds to it, after the values that [q0] has
    for these keys, the duration without its last byte under [t] and that
    byte under [dur]: with no such parameter in the URL, [t] and [dur] are
    exactly these.  The byte is not validated, any ASCII byte is taken as
    the unit. *)
Theorem C3_duration_split (q0 : gmap string (list string)) (v : Vars)
    (pre : string) (c : ascii) :
  testDuration v = pre ++ String c "" →
  GoString.byte_val c < 128 →
  ∃ q, buildQuery q0 v = Some q
       ∧ q !! "t" = Some (valuesOf q0 "t" ++ [pre])%list
       ∧ q !! "dur" = Some (valuesOf q0 "dur" ++ [String c ""])%list
       ∧ (q0 !! "t" = None → q !! "t" = Some [pre])
       ∧ (q0 !! "dur" = None → q !! "dur" = Some [String c ""]).
Proof.
  intros Hd Hc. unfold buildQuery.
  rewrite Hd, index_last, slice_to_last, of_byte_ascii by done.
  eexists; split; [done |].
  destruct (String.eqb (testMesh v) "");
    (split; [by query_lookup |]); (split; [by query_lookup |]);
    split; intros Hnone; query_lookup; by rewrite Hnone.
Qed.

Lemma C3_duration_split_witness :
  ∃ q, buildQuery ∅ (set_testDuration "30s" Sample.noFlags) = Some q
       ∧ q !! "t" = Some ["30"]
       ∧ q !! "dur" = Some ["s"].
Proof.
  destruct (C3_duration_split ∅ (set_testDuration "30s" Sample.noFlags)
              "30" "s")
    as (q & Hq & _ & _ & Ht & Hdur);
    [reflexivity | vm_compute; reflexivity |].
  exists q. split; [exact Hq |].
  split; [apply Ht | apply Hdur]; apply lookup_empty.
Defined.


(** ** Invariants of a computation: the rules *)

Section Keeps.

Context {I : Vars → Prop} {T : Event → Prop}.

Lemma keeps_ret {A} (a : A) : keeps I T (ret a).
Proof. intros v Hv. split; [constructor | by intros ? ? [= _ <-]]. Qed.

Lemma keeps_fail {A} (e : Error) : keeps I T (@fail A e).
Proof. intros v Hv. split; [constructor | done]. Qed.

Lemma keeps_panic {A} : keeps I T (@panic A).
Proof. intros v Hv. split; [constructor | done]. Qed.

Lemma keeps_get : keeps I T get.
Proof. intros v Hv. split; [constructor | by intros ? ? [= _ <-]]. Qed.

Lemma keeps_modify (f : Vars → Vars) :
  (∀ v, I v → I (f v)) → keeps I T (modify f).
Proof.
  intros Hf v Hv. split; [constructor | intros ? ? [= _ <-]; auto].
Qed.

Lemma keeps_emit (ev : Event) : T ev → keeps I T (emit ev).
Proof.
  intros Hev v Hv. split; [by repeat constructor | by intros ? ? [= _ <-]].
Qed.

Lemma keeps_bind {A B} (m : M A) (k : A → M B) :
  keeps I T m → (∀ a, keeps I T (k a)) → keeps I T (bind m k).
Proof.
  intros Hm Hk v Hv. destruct (Hm v Hv) as [Ht Hd].
  unfold bind, trace, outcome in *.
  destruct (m v) as [[a v'|e|] t]; simpl in *; [| done | done].
  destruct (Hk a v' (Hd a v' eq_refl)) as [Ht' Hd'].
  unfold trace, outcome in *.
  destruct (k a v') as [o t']; simpl in *.
  split; [by apply Forall_app | done].
Qed.

Lemma keeps_orFail {A} (o : option A) (e : Error) : keeps I T (orFail o e).
Proof. destruct o; [apply keeps_ret | apply keeps_fail]. Qed.

Lemma keeps_orPanic {A} (o : option A) : keeps I T (orPanic o).
Proof. destruct o; [apply keeps_ret | apply keeps_panic]. Qed.

Lemma keeps_orReturn {A} (r : Error + A) : keeps I T (orReturn r).
Proof. destruct r; [apply keeps_fail | apply keeps_ret]. Qed.

Lemma keeps_whenEmpty (x : Vars → string) (m : M unit) :
  keeps I T m → keeps I T (whenEmpty x m).
Proof.
  intros Hm. apply keeps_bind; [apply keeps_get |].
  intros v. destruct (String.eqb (x v) ""); [done | apply keeps_ret].
Qed.

End Keeps.

(** One step of a proof of [keeps]: the rule of the head construct, a case
    split where the code branches. *)
Ltac keeps_step :=
  lazymatch goal with
  | |- keeps _ _ (bind _ _) => apply keeps_bind; [| intros ?]
  | |- keeps _ _ (ret _) => apply keeps_ret
  | |- keeps _ _ (fail _) => apply keeps_fail
  | |- keeps _ _ panic => apply keeps_panic
  | |- keeps _ _ get => apply keeps_get
  | |- keeps _ _ (orFail _ _) => apply keeps_orFail
  | |- keeps _ _ (orPanic _) => apply keeps_orPanic
  | |- keeps _ _ (orReturn _) => apply keeps_orReturn
  | |- keeps _ _ (whenEmpty _ _) => apply keeps_whenEmpty
  | |- keeps _ _ (modify _) => apply keeps_modify; intros ? ?; simpl; auto
  | |- keeps _ _ (emit _) => apply keeps_emit; try done
  | |- keeps _ _ (if ?c then _ else _) => destruct c
  | |- keeps _ _ (match ?o with _ => _ end) => destruct o
  end.

Ltac keeps_auto := repeat keeps_step.

Section Frames.

Context `{Libraries} (w : World).

(** Before the registry is consulted nothing is emitted. *)
Lemma prepare_silent (args : list string) :
  keeps (λ _, True) (λ _, False) (prepare w args).
Proof. unfold prepare, loadConfig, importFile, nameTest, nameProfile. keeps_auto. Qed.

Lemma prepare_trace (args : list string) (v : Vars) :
  trace (prepare w args v) = [].
Proof.
  destruct (prepare_silent args v I) as [Ht _].
  destruct (trace (prepare w args v)) as [|ev t]; [done |].
  by apply Forall_cons in Ht as [[] _].
Qed.

(** Profile creation leaves the test name alone and sends no run
    request. *)
Lemma createPerformanceProfile_testName (baseURL n : string) :
  keeps (λ v, testName v = n) notRun (createPerformanceProfile w baseURL).
Proof. unfold createPerformanceProfile, applyDefaults. keeps_auto. Qed.

(** So does the whole of profile resolution. *)
Lemma resolveProfile_testName (baseURL n : string) :
  keeps (λ v, testName v = n) notRun (resolveProfile w baseURL).
Proof.
  unfold resolveProfile, createAndAdopt, confirmCreation, chooseProfile,
    pullFromProfile.
  keeps_auto; apply createPerformanceProfile_testName.
Qed.

End Frames.


(** ** Running a sequence *)

Lemma bind_Done {A B} (m : M A) (k : A → M B) v a v' t :
  m v = (Done a v', t) →
  bind m k v = (outcome (k a v'), (t ++ trace (k a v'))%list).
Proof. intros Hm. unfold bind. rewrite Hm. by destruct (k a v'). Qed.

Lemma bind_Failed {A B} (m : M A) (k : A → M B) v e t :
  m v = (Failed e, t) → bind m k v = (Failed e, t).
Proof. intros Hm. unfold bind. by rewrite Hm. Qed.

Lemma bind_run {A B} (m : M A) (k : A → M B) (v : Vars) :
  bind m k v
  = match m v with
    | (Done a v', t) => (outcome (k a v'), (t ++ trace (k a v'))%list)
    | (Failed e, t) => (Failed e, t)
    | (Panicked, t) => (Panicked, t)
    end.
Proof.
  unfold bind. destruct (m v) as [[a v'|e|] t]; [| done..].
  by destruct (k a v').
Qed.

Lemma trace_bind {A B} (m : M A) (k : A → M B) (v : Vars) :
  trace (bind m k v)
  = (trace (m v)
     ++ match outcome (m v) with
        | Done a v' => trace (k a v')
        | _ => []
        end)%list.
Proof.
  unfold bind, trace, outcome.
  destruct (m v) as [[a v'|e|] t]; simpl; [| by rewrite app_nil_r..].
  by destruct (k a v').
Qed.

(** A sequence that completes has completed both of its parts. *)
Lemma bind_Done_inv {A B} (m : M A) (k : A → M B) v b v2 :
  outcome (bind m k v) = Done b v2 →
  ∃ a v1, outcome (m v) = Done a v1 ∧ outcome (k a v1) = Done b v2.
Proof.
  unfold bind, outcome. destruct (m v) as [[a v1|e|] t]; simpl; [| done..].
  destruct (k a v1) as [o t'] eqn:Hk. simpl. intros ->.
  exists a, v1. by rewrite Hk.
Qed.

(** ** Profile resolution with one match *)

(** C1: when exactly one profile matches and no file was given, profile
    resolution, whenever it completes, leaves the profile name, load
    generator, concurrent-requests, QPS, duration and service-mesh name of
    the matched profile in the variables (the first load generator, the two
    numbers in decimal), whatever the flags had set them to; and it does
    complete when the profile has a load generator and, if no URL was
    given, an endpoint. *)
Theorem C1_single_match_overwrites_flags `{Libraries} (w : World)
    (baseURL : string) (v : Vars) (p : models.PerformanceProfile) :
  fetchPerformanceProfiles w baseURL (profileName v) (pageSize w)
    (pageNumber w - 1) = inr [p] →
  filePath v = "" →
  (∀ v' t,
     resolveProfile w baseURL v = (Done tt v', t) →
     profileID v' = models.ID p
     ∧ profileName v' = models.Name p
     ∧ head (models.LoadGenerators p) = Some (loadGenerator v')
     ∧ concurrentRequests v' = strconv.Itoa (models.ConcurrentRequest p)
     ∧ qps v' = strconv.Itoa (models.QPS p)
     ∧ testDuration v' = models.Duration p
     ∧ testMesh v' = models.ServiceMesh p)
  ∧ (models.LoadGenerators p ≠ [] →
     (testURL v = "" → models.Endpoints p ≠ []) →
     ∃ v', resolveProfile w baseURL v
           = (Done tt v', [Fetched (profileName v)])).
Proof.
  intros Hfetch Hfile.
  unfold resolveProfile, chooseProfile, pullFromProfile, whenEmpty, bind,
    get, emit, modify, ret.
  rewrite Hfetch. simpl.
  destruct (String.eqb_spec (testURL v) "") as [He|Hne]; simpl.
  - destruct (models.Endpoints p) as [|u us]; simpl.
    { split; [done | intros _ Hends; by destruct Hends]. }
    rewrite Hfile. simpl.
    destruct (models.LoadGenerators p) as [|lg lgs]; simpl; [by split |].
    split; [by intros v' t [= <- <-] | eauto].
  - rewrite Hfile. simpl.
    destruct (models.LoadGenerators p) as [|lg lgs]; simpl; [by split |].
    split; [by intros v' t [= <- <-] | eauto].
Qed.

Lemma C1_single_match_overwrites_flags_witness :
  ∃ v',
    resolveProfile (H := Sample.libraries)
      (Sample.world [Sample.stored] false false Sample.ok)
      "http://localhost:9081"
      (set_profileName "nightly" (Sample.allFlags ""))
    = (Done tt v', [Fetched "nightly"])
    ∧ profileID v' = "1b4e28ba"
    ∧ profileName v' = "nightly"
    ∧ Some "fortio" = Some (loadGenerator v')
    ∧ concurrentRequests v' = "4"
    ∧ qps v' = "9"
    ∧ testDuration v' = "10s"
    ∧ testMesh v' = "linkerd".
Proof.
  destruct (C1_single_match_overwrites_flags (H := Sample.libraries)
              (Sample.world [Sample.stored] false false Sample.ok)
              "http://localhost:9081"
              (set_profileName "nightly" (Sample.allFlags ""))
              Sample.stored)
    as [Hfields Htotal]; [reflexivity | reflexivity |].
  destruct Htotal as [v' Hrun]; [discriminate | intros _; discriminate |].
  exists v'. split; [exact Hrun | exact (Hfields v' _ Hrun)].
Defined.


(** ** The test-configuration file *)

Lemma flagWins_flag (flag file : string) : flag ≠ "" → flagWins flag file flag.
Proof. by split. Qed.

Lemma flagWins_file (flag file : string) : flag = "" → flagWins flag file file.
Proof. by split. Qed.

#[local] Hint Resolve flagWins_flag flagWins_file : core.

(** Case split on the next [x == ""] test of a variable of [v]. *)
Ltac split_empty v :=
  match goal with
  | |- context [String.eqb (?x v) ""] =>
      destruct (String.eqb_spec (x v) ""); simpl
  end.

(** Splits a conjunction of field equations without unfolding them. *)
Ltac split_fields :=
  repeat match goal with |- _ ∧ _ => split end; auto.

Section ImportFile.

Context `{Libraries} (w : World).

Variables (v : Vars) (text : string) (config : SMP.PerformanceTestConfig)
  (mesh : SMP.ServiceMesh).

Hypothesis Hpath : filePath v ≠ "".
Hypothesis Hread : ReadFile w (filePath v) = Some text.
Hypothesis Hparse :
  yaml_Unmarshal text
  = Some {| models.Config := Some config; models.ServiceMesh_ := Some mesh |}.

(** With a first client, and a first endpoint URL where one is needed,
    the merge completes, and flag by flag. *)
Lemma importFile_merges (testClient : SMP.PerformanceTestConfig_Client)
    (rest : list SMP.PerformanceTestConfig_Client)
    (u : string) (us : list string) :
  SMP.Clients config = testClient :: rest →
  (testURL v = "" → SMP.EndpointUrls testClient = u :: us) →
  ∃ v', importFile w v = (Done tt v', [])
    ∧ flagWins (testName v) (SMP.Name config) (testName v')
    ∧ flagWins (testURL v) u (testURL v')
    ∧ flagWins (testMesh v) (ServiceMesh_Type_name (SMP.Type_ mesh))
        (testMesh v')
    ∧ flagWins (qps v) (strconv.FormatInt10 (SMP.Rps testClient)) (qps v')
    ∧ flagWins (concurrentRequests v)
        (strconv.Itoa (SMP.Connections testClient)) (concurrentRequests v')
    ∧ flagWins (testDuration v) (SMP.Duration config) (testDuration v')
    ∧ flagWins (loadGenerator v) (SMP.LoadGenerator testClient)
        (loadGenerator v').
Proof.
  intros Hclients Hurl.
  apply String.eqb_neq in Hpath as Hpath'.
  unfold importFile, whenEmpty, bind, get, modify, ret.
  rewrite Hpath', Hread. simpl. rewrite Hparse. simpl.
  rewrite Hclients. simpl.
  split_empty v.
  - split_empty v.
    + rewrite Hurl by done. simpl.
      repeat split_empty v; eexists; (split; [done |]); simpl;
        split_fields.
    + repeat split_empty v; eexists; (split; [done |]); simpl;
        split_fields.
  - split_empty v.
    + rewrite Hurl by done. simpl.
      repeat split_empty v; eexists; (split; [done |]); simpl;
        split_fields.
    + repeat split_empty v; eexists; (split; [done |]); simpl;
        split_fields.
Qed.

(** Without a client the indexing of the first one panics. *)
Lemma importFile_no_client :
  SMP.Clients config = [] → importFile w v = (Panicked, []).
Proof.
  intros Hclients.
  apply String.eqb_neq in Hpath as Hpath'.
  unfold importFile, bind, get.
  rewrite Hpath', Hread. simpl. rewrite Hparse. simpl.
  by rewrite Hclients.
Qed.

(** Without a flag for the URL and without an endpoint URL in the first
    client, the indexing of the first endpoint panics. *)
Lemma importFile_no_endpoint (testClient : SMP.PerformanceTestConfig_Client)
    (rest : list SMP.PerformanceTestConfig_Client) :
  SMP.Clients config = testClient :: rest →
  testURL v = "" →
  SMP.EndpointUrls testClient = [] →
  importFile w v = (Panicked, []).
Proof.
  intros Hclients Hurl Hends.
  apply String.eqb_neq in Hpath as Hpath'.
  unfold importFile, whenEmpty, bind, get, modify, ret.
  rewrite Hpath', Hread. simpl. rewrite Hparse. simpl.
  rewrite Hclients. simpl.
  split_empty v; rewrite Hurl; simpl; by rewrite Hends.
Qed.

End ImportFile.

(** C2: with a configuration file, whenever the merge completes, each of
    test name, test URL, service-mesh name, QPS, concurrent-requests,
    duration and load generator is the flag's value when the flag is set
    and the file's value otherwise: the name and duration of the file, the
    first endpoint URL, requests-per-second, connection count and load
    generator of the first client (the numbers in decimal), the display
    name of the mesh type.  The merge does complete when the file has a
    first client and, if no URL was given, a first endpoint URL in it. *)
Theorem C2_flags_win_over_file `{Libraries} (w : World) (v : Vars)
    (text : string) (config : SMP.PerformanceTestConfig)
    (mesh : SMP.ServiceMesh) :
  filePath v ≠ "" →
  ReadFile w (filePath v) = Some text →
  yaml_Unmarshal text
  = Some {| models.Config := Some config;
            models.ServiceMesh_ := Some mesh |} →
  (∀ v' t,
     importFile w v = (Done tt v', t) →
     ∃ testClient rest,
       SMP.Clients config = testClient :: rest
       ∧ flagWins (testName v) (SMP.Name config) (testName v')
       ∧ (testURL v ≠ "" → testURL v' = testURL v)
       ∧ (testURL v = "" →
          head (SMP.EndpointUrls testClient) = Some (testURL v'))
       ∧ flagWins (testMesh v) (ServiceMesh_Type_name (SMP.Type_ mesh))
           (testMesh v')
       ∧ flagWins (qps v) (strconv.FormatInt10 (SMP.Rps testClient)) (qps v')
       ∧ flagWins (concurrentRequests v)
           (strconv.Itoa (SMP.Connections testClient))
           (concurrentRequests v')
       ∧ flagWins (testDuration v) (SMP.Duration config) (testDuration v')
       ∧ flagWins (loadGenerator v) (SMP.LoadGenerator testClient)
           (loadGenerator v'))
  ∧ (∀ testClient rest,
       SMP.Clients config = testClient :: rest →
       (testURL v = "" → SMP.EndpointUrls testClient ≠ []) →
       ∃ v', importFile w v = (Done tt v', [])).
Proof.
  intros Hpath Hread Hparse.
  pose proof (importFile_no_client w v text config mesh Hpath Hread Hparse)
    as Hnone.
  pose proof (importFile_no_endpoint w v text config mesh Hpath Hread Hparse)
    as Hnoend.
  pose proof (importFile_merges w v text config mesh Hpath Hread Hparse)
    as Hok.
  split.
  - intros v' t Hrun.
    destruct (SMP.Clients config) as [|c cs] eqn:Hc;
      [by rewrite Hnone in Hrun |].
    exists c, cs. split; [done |].
    destruct (decide (testURL v = "")) as [Hu|Hu].
    + destruct (SMP.EndpointUrls c) as [|u us] eqn:Hends;
        [by rewrite (Hnoend c cs) in Hrun |].
      destruct (Hok c cs u us eq_refl (λ _, Hends))
        as (v'' & Hrun' & ? & [_ Hfile] & ?).
      rewrite Hrun' in Hrun. injection Hrun as -> _.
      split; [done |]. split; [done |]. split; [| done].
      intros _. simpl. by rewrite Hfile.
    + destruct (Hok c cs "" [] eq_refl) as (v'' & Hrun' & ? & [Hflag _] & ?);
        [done |].
      rewrite Hrun' in Hrun. injection Hrun as -> _.
      split; [done |]. split; [done |]. by split.
  - intros c cs Hc Hends.
    destruct (decide (testURL v = "")) as [Hu|Hu].
    + destruct (SMP.EndpointUrls c) as [|u us] eqn:Hends';
        [by destruct Hends |].
      destruct (Hok c cs u us Hc (λ _, Hends')) as (v' & Hrun & _). eauto.
    + destruct (Hok c cs "" [] Hc) as (v' & Hrun & _); [done | eauto].
Qed.

Lemma C2_flags_win_over_file_witness :
  ∃ v',
    importFile (H := Sample.libraries)
      (Sample.world [] false false Sample.ok)
      (set_qps "100" (set_testName "by-flag"
                        (Sample.fileOnly "duration: 2m")))
    = (Done tt v', [])
    ∧ testName v' = "by-flag"
    ∧ testURL v' = "http://svc.local/productpage"
    ∧ testMesh v' = "ISTIO"
    ∧ qps v' = "100"
    ∧ concurrentRequests v' = "3"
    ∧ testDuration v' = "2m"
    ∧ loadGenerator v' = "wrk2".
Proof.
  destruct (C2_flags_win_over_file (H := Sample.libraries)
              (Sample.world [] false false Sample.ok)
              (set_qps "100" (set_testName "by-flag"
                                (Sample.fileOnly "duration: 2m")))
              "duration: 2m"
              {| SMP.Name := "smp-test"; SMP.Duration := "2m";
                 SMP.Clients := [Sample.client] |}
              {| SMP.Type_ := 3 |})
    as [Hfields Htotal]; [discriminate | reflexivity | reflexivity |].
  destruct (Htotal Sample.client [] eq_refl) as [v' Hrun];
    [intros _; discriminate |].
  destruct (Hfields v' [] Hrun)
    as (c & rest & Hc & Hname & _ & Hurl & Hmesh & Hqps & Hconc & Hdur & Hlg).
  injection Hc as <- <-.
  exists v'. split; [exact Hrun |].
  split; [apply Hname; discriminate |].
  split; [specialize (Hurl eq_refl); by injection Hurl |].
  split; [by apply Hmesh |].
  split; [apply Hqps; discriminate |].
  split; [by apply Hconc |].
  split; [by apply Hdur | by apply Hlg].
Defined.

(** C9: a file that parses and has both top-level keys is not checked any
    further.  With an empty clients sequence the merge panics on the first
    client, and with no flag for the URL and no endpoint URL in the first
    client it panics on the first endpoint; it completes exactly when there
    is a first client and, if the URL flag is not set, a first endpoint
    URL in it; and it never reports the file-validation error. *)
Theorem C9_first_client_unchecked `{Libraries} (w : World) (v : Vars)
    (text : string) (config : SMP.PerformanceTestConfig)
    (mesh : SMP.ServiceMesh) :
  filePath v ≠ "" →
  ReadFile w (filePath v) = Some text →
  yaml_Unmarshal text
  = Some {| models.Config := Some config;
            models.ServiceMesh_ := Some mesh |} →
  (SMP.Clients config = [] → importFile w v = (Panicked, []))
  ∧ (∀ testClient rest,
       SMP.Clients config = testClient :: rest →
       testURL v = "" →
       SMP.EndpointUrls testClient = [] →
       importFile w v = (Panicked, []))
  ∧ ((∃ v', importFile w v = (Done tt v', []))
     ↔ ∃ testClient rest,
         SMP.Clients config = testClient :: rest
         ∧ (testURL v = "" → SMP.EndpointUrls testClient ≠ []))
  ∧ outcome (importFile w v) ≠ Failed ErrInvalidTestConfigFile.
Proof.
  intros Hpath Hread Hparse.
  pose proof (importFile_no_client w v text config mesh Hpath Hread Hparse)
    as Hnone.
  pose proof (importFile_no_endpoint w v text config mesh Hpath Hread Hparse)
    as Hnoend.
  pose proof (importFile_merges w v text config mesh Hpath Hread Hparse)
    as Hok.
  assert (Hcases :
    importFile w v = (Panicked, []) ∨ ∃ v', importFile w v = (Done tt v', [])).
  { destruct (SMP.Clients config) as [|c cs] eqn:Hc; [left; auto |].
    destruct (decide (testURL v = "")) as [Hu|Hu].
    - destruct (SMP.EndpointUrls c) as [|u us] eqn:Hends; [left; eauto |].
      right. destruct (Hok c cs u us eq_refl) as (v' & Hrun & _); eauto.
    - right. destruct (Hok c cs "" [] eq_refl) as (v' & Hrun & _); eauto.
      by intros. }
  split; [done |]. split; [done |]. split.
  - split.
    + intros (v' & Hrun).
      destruct (SMP.Clients config) as [|c cs] eqn:Hc.
      { rewrite Hnone in Hrun; done. }
      exists c, cs. split; [done |]. intros Hu Hends.
      rewrite (Hnoend c cs eq_refl Hu Hends) in Hrun. done.
    + intros (c & cs & Hc & Hends).
      destruct (decide (testURL v = "")) as [Hu|Hu].
      * destruct (SMP.EndpointUrls c) as [|u us] eqn:Hu'; [by destruct Hends |].
        destruct (Hok c cs u us Hc) as (v' & Hrun & _); eauto.
      * destruct (Hok c cs "" [] Hc) as (v' & Hrun & _); eauto. by intros.
  - destruct Hcases as [Hrun | (v' & Hrun)]; by rewrite Hrun.
Qed.

Lemma C9_first_client_unchecked_witness :
  importFile (H := Sample.libraries) (Sample.world [] false false Sample.ok)
    (Sample.fileOnly "clients: []") = (Panicked, []).
Proof.
  apply (C9_first_client_unchecked (H := Sample.libraries)
           (Sample.world [] false false Sample.ok)
           (Sample.fileOnly "clients: []") "clients: []"
           {| SMP.Name := "smp-test"; SMP.Duration := "2m";
              SMP.Clients := [] |}
           {| SMP.Type_ := 3 |});
    [discriminate | reflexivity | reflexivity | reflexivity].
Defined.


(** ** Profile creation *)

Lemma applyDefaults_run (v : Vars) :
  applyDefaults v = (Done tt (withDefaults v), []).
Proof.
  destruct v.
  unfold applyDefaults, whenEmpty, bind, get, modify, ret, withDefaults,
    orDefault. simpl.
  repeat match goal with
         | |- context [String.eqb ?x ""] => destruct (String.eqb x ""); simpl
         end; reflexivity.
Qed.

Section Creation.

Context `{Libraries} (w : World).

(** Past its three checks, profile creation sends the creation request
    with the defaulted variables, provided the two numbers convert. *)
Lemma createPerformanceProfile_sends (baseURL : string) (v : Vars)
    (convReq convQPS : Z) :
  profileName v ≠ "" →
  testURL v ≠ "" →
  IsURL (testURL v) = true →
  NewRequest w "POST" (baseURL ++ "/api/user/performance/profiles") = None →
  strconv.Atoi (orDefault (concurrentRequests v) "1") = Some convReq →
  strconv.Atoi (orDefault (qps v) "0") = Some convQPS →
  ∃ rest,
    trace (createPerformanceProfile w baseURL v)
    = Sent (POST (baseURL ++ "/api/user/performance/profiles")
              (creationValues convReq convQPS (withDefaults v))) :: rest.
Proof.
  intros Hname%String.eqb_neq Hurl%String.eqb_neq Hvalid Hreq Hc Hq.
  unfold createPerformanceProfile.
  rewrite trace_bind. simpl. rewrite Hname, Hurl, Hvalid. simpl.
  rewrite trace_bind, applyDefaults_run. simpl.
  rewrite trace_bind. simpl. rewrite trace_bind, Hc. simpl.
  rewrite trace_bind, Hq. simpl. rewrite Hreq.
  rewrite trace_bind. simpl. eauto.
Qed.

(** The confirmation: silent mode answers yes without a question. *)
Lemma confirmCreation_run (v : Vars) :
  confirmCreation w v
  = if SilentFlag w then (Done true v, [])
    else (Done (AskForConfirmation w (question v)) v,
          [AskedConfirmation (question v)]).
Proof. unfold confirmCreation, bind, get, emit, ret. by destruct (SilentFlag w). Qed.

End Creation.

Lemma creationValues_lookup (convReq convQPS : Z) (v : Vars) :
  let body := creationValues convReq convQPS v in
  body !! "service_mesh" = Some (JString (testMesh v))
  ∧ body !! "qps" = Some (JInt convQPS)
  ∧ body !! "concurrent_request" = Some (JInt convReq)
  ∧ body !! "duration" = Some (JString (testDuration v))
  ∧ body !! "load_generators" = Some (JStrings [loadGenerator v])
  ∧ body !! "name" = Some (JString (profileName v))
  ∧ body !! "endpoints" = Some (JStrings [testURL v]).
Proof.
  cbv zeta. unfold creationValues.
  repeat split;
    repeat first
      [ rewrite lookup_insert_eq | rewrite lookup_insert_ne by done ]; done.
Qed.

(** C5: when no profile matches and creation is confirmed (silent mode, or
    the user's yes), the creation request is sent with every still-empty
    variable at its default: service mesh "None", QPS "0" sent as the
    integer 0, concurrent-requests "1" sent as the integer 1, duration
    "30s", load generator "fortio"; a variable that is set is sent as it
    is. *)
Theorem C5_creation_defaults `{Libraries} (w : World) (baseURL : string)
    (v : Vars) (convReq convQPS : Z) :
  fetchPerformanceProfiles w baseURL (profileName v) (pageSize w)
    (pageNumber w - 1) = inr [] →
  (SilentFlag w = false → AskForConfirmation w (question v) = true) →
  profileName v ≠ "" →
  testURL v ≠ "" →
  IsURL (testURL v) = true →
  NewRequest w "POST" (baseURL ++ "/api/user/performance/profiles") = None →
  strconv.Atoi (orDefault (concurrentRequests v) "1") = Some convReq →
  strconv.Atoi (orDefault (qps v) "0") = Some convQPS →
  ∃ body,
    Sent (POST (baseURL ++ "/api/user/performance/profiles") body)
      ∈ trace (resolveProfile w baseURL v)
    ∧ body !! "service_mesh" = Some (JString (orDefault (testMesh v) "None"))
    ∧ body !! "qps" = Some (JInt convQPS)
    ∧ body !! "concurrent_request" = Some (JInt convReq)
    ∧ body !! "duration" = Some (JString (orDefault (testDuration v) "30s"))
    ∧ body !! "load_generators"
      = Some (JStrings [orDefault (loadGenerator v) "fortio"])
    ∧ body !! "name" = Some (JString (profileName v))
    ∧ body !! "endpoints" = Some (JStrings [testURL v]).
Proof.
  intros Hfetch Hyes Hname Hurl Hvalid Hreq Hc Hq.
  destruct (createPerformanceProfile_sends w baseURL v convReq convQPS)
    as [rest Hsent]; try done.
  eexists. split; [| apply (creationValues_lookup _ _ (withDefaults v))].
  unfold resolveProfile.
  rewrite trace_bind. simpl. rewrite trace_bind. simpl.
  rewrite trace_bind, Hfetch. simpl.
  rewrite trace_bind, confirmCreation_run.
  destruct (SilentFlag w) eqn:Hsilent; simpl.
  - unfold createAndAdopt. rewrite trace_bind, Hsent. set_solver.
  - rewrite Hyes by done. unfold createAndAdopt.
    rewrite trace_bind, Hsent. set_solver.
Qed.

Lemma C5_creation_defaults_witness :
  let v := set_profileName "fresh" (set_testURL "https://example.org/"
                                      Sample.noFlags) in
  ∃ body,
    Sent (POST "http://localhost:9081/api/user/performance/profiles" body)
      ∈ trace (resolveProfile (H := Sample.libraries)
                 (Sample.world [] false true Sample.ok)
                 "http://localhost:9081" v)
    ∧ body !! "service_mesh" = Some (JString "None")
    ∧ body !! "qps" = Some (JInt 0)
    ∧ body !! "concurrent_request" = Some (JInt 1)
    ∧ body !! "duration" = Some (JString "30s")
    ∧ body !! "load_generators" = Some (JStrings ["fortio"])
    ∧ body !! "name" = Some (JString "fresh")
    ∧ body !! "endpoints" = Some (JStrings ["https://example.org/"]).
Proof.
  apply (C5_creation_defaults (H := Sample.libraries)
           (Sample.world [] false true Sample.ok) "http://localhost:9081"
           (set_profileName "fresh" (set_testURL "https://example.org/"
                                       Sample.noFlags)) 1 0);
    [reflexivity | reflexivity | discriminate | discriminate
    | reflexivity | reflexivity | reflexivity | reflexivity].
Defined.


(** ** After profile resolution *)

Lemma buildQuery_name (q0 : gmap string (list string)) (v : Vars)
    (q : gmap string (list string)) :
  buildQuery q0 v = Some q →
  q !! "name" = Some (valuesOf q0 "name" ++ [testName v])%list.
Proof.
  unfold buildQuery.
  destruct (GoString.index _ _); [| done].
  destruct (GoString.slice_to _ _); [| done].
  intros [= <-]. destruct (String.eqb (testMesh v) ""); by query_lookup.
Qed.

Section Submission.

Context `{Libraries} (w : World).

Lemma execute_run (req : Request) (v : Vars) :
  execute w req v
  = (match Do w req with
     | None => Failed ErrFailRequest
     | Some resp =>
         if ContentTypeIsHTML resp then Failed ErrFailTestRun
         else if negb (StatusCode resp =? 200) then Failed ErrFailTestRun
         else match Body resp with
              | Some _ => Done tt v
              | None => Failed ErrReadBody
              end
     end, [Sent req]).
Proof.
  unfold execute, bind, emit, orFail, ret, fail.
  destruct (Do w req) as [resp|]; [| done].
  destruct (ContentTypeIsHTML resp); [done |].
  destruct (negb (StatusCode resp =? 200)); [done |].
  by destruct (Body resp).
Qed.

Lemma submit_run (baseURL : string) (v : Vars) :
  submit w baseURL v
  = if String.eqb (testURL v) "" then (Failed ErrNoTestURL, [])
    else if negb (IsURL (testURL v)) then (Failed ErrNotValidURL, [])
    else match NewRequest w "GET" (runURL baseURL v) with
         | Some e => (Failed e, [])
         | None =>
             match buildQuery (URL_Query (runURL baseURL v)) v with
             | None => (Panicked, [])
             | Some q => execute w (GET (runURL baseURL v) q) v
             end
         end.
Proof.
  unfold submit, checkURL, buildRequest, runURL, bind, get, fail, ret.
  destruct (String.eqb (testURL v) ""); [done |].
  destruct (negb (IsURL (testURL v))); [done |].
  destruct (NewRequest w "GET" _); [done |].
  destruct (buildQuery _ v) as [q|]; [| done]. simpl.
  by destruct (execute w _ v).
Qed.

(** The only event after resolution is the run request, and it carries
    the query built from the resolved variables. *)
Lemma submit_trace (baseURL : string) (v : Vars) (ev : Event) :
  ev ∈ trace (submit w baseURL v) →
  ∃ q, buildQuery (URL_Query (runURL baseURL v)) v = Some q
       ∧ ev = Sent (GET (runURL baseURL v) q).
Proof.
  rewrite submit_run.
  destruct (String.eqb (testURL v) ""); [by intros ?%elem_of_nil |].
  destruct (negb (IsURL (testURL v))); [by intros ?%elem_of_nil |].
  destruct (NewRequest w "GET" _); [by intros ?%elem_of_nil |].
  destruct (buildQuery _ v) as [q|]; [| by intros ?%elem_of_nil].
  rewrite execute_run. simpl. intros ->%list_elem_of_singleton. eauto.
Qed.

(** The command, after a preparation and a resolution that complete. *)
Lemma RunE_resolved (args : list string) (v0 : Vars) (baseURL : string)
    (v1 : Vars) (t1 : list Event) (v2 : Vars) (t2 : list Event) :
  prepare w args v0 = (Done baseURL v1, t1) →
  resolveProfile w baseURL v1 = (Done tt v2, t2) →
  RunE w args v0
  = (outcome (submit w baseURL v2),
     (t1 ++ t2 ++ trace (submit w baseURL v2))%list).
Proof.
  intros Hprep Hres. unfold RunE.
  rewrite (bind_Done _ _ _ _ _ _ Hprep).
  by rewrite (bind_Done _ _ _ _ _ _ Hres).
Qed.

(** The command, after a preparation that completes and a resolution that
    fails. *)
Lemma RunE_unresolved (args : list string) (v0 : Vars) (baseURL : string)
    (v1 : Vars) (t1 : list Event) (e : Error) (t2 : list Event) :
  prepare w args v0 = (Done baseURL v1, t1) →
  resolveProfile w baseURL v1 = (Failed e, t2) →
  RunE w args v0 = (Failed e, (t1 ++ t2)%list).
Proof.
  intros Hprep Hres. unfold RunE.
  rewrite (bind_Done _ _ _ _ _ _ Hprep).
  by rewrite (bind_Failed _ _ _ _ _ Hres).
Qed.

End Submission.

(** C6: whatever the status code, a response whose content type is HTML
    makes the run fail with "failed test run", and so does every status
    code other than 200; the run request, and the command as a whole,
    complete only on a response with status 200 that is not HTML. *)
Theorem C6_run_response_classified `{Libraries} (w : World) :
  (∀ req v resp,
     Do w req = Some resp →
     ContentTypeIsHTML resp = true →
     execute w req v = (Failed ErrFailTestRun, [Sent req]))
  ∧ (∀ req v resp,
       Do w req = Some resp →
       StatusCode resp ≠ 200 →
       execute w req v = (Failed ErrFailTestRun, [Sent req]))
  ∧ (∀ req v v',
       outcome (execute w req v) = Done tt v' →
       ∃ resp, Do w req = Some resp
               ∧ StatusCode resp = 200 ∧ ContentTypeIsHTML resp = false)
  ∧ (∀ args v0 v',
       outcome (RunE w args v0) = Done tt v' →
       ∃ url q resp,
         Sent (GET url q) ∈ trace (RunE w args v0)
         ∧ Do w (GET url q) = Some resp
         ∧ StatusCode resp = 200 ∧ ContentTypeIsHTML resp = false).
Proof.
  assert (Hdone : ∀ req v v',
            outcome (execute w req v) = Done tt v' →
            ∃ resp, Do w req = Some resp
                    ∧ StatusCode resp = 200
                    ∧ ContentTypeIsHTML resp = false).
  { intros req v v'. rewrite execute_run. simpl.
    destruct (Do w req) as [resp|]; [| done].
    destruct (ContentTypeIsHTML resp) eqn:Hhtml; [done |].
    destruct (Z.eqb_spec (StatusCode resp) 200); [| done]. eauto. }
  split; [| split; [| split; [done |]]].
  - intros req v resp Hdo Hhtml. by rewrite execute_run, Hdo, Hhtml.
  - intros req v resp Hdo Hcode. rewrite execute_run, Hdo.
    destruct (ContentTypeIsHTML resp); [done |].
    by destruct (Z.eqb_spec (StatusCode resp) 200).
  - intros args v0 v' Hrun.
    pose proof Hrun as Hparts. unfold RunE in Hparts.
    apply bind_Done_inv in Hparts as (baseURL & v1 & Hprep & Hparts).
    apply bind_Done_inv in Hparts as ([] & v2 & Hres & Hsub).
    destruct (prepare w args v0) as [o1 t1] eqn:Hp. simpl in Hprep. subst o1.
    destruct (resolveProfile w baseURL v1) as [o2 t2] eqn:Hr.
    simpl in Hres. subst o2.
    rewrite (RunE_resolved w _ _ _ _ _ _ _ Hp Hr). simpl.
    rewrite submit_run in Hsub |- *.
    destruct (String.eqb (testURL v2) ""); [done |].
    destruct (negb (IsURL (testURL v2))); [done |].
    destruct (NewRequest w "GET" _); [done |].
    destruct (buildQuery _ v2) as [q|]; [| done].
    destruct (Hdone _ _ _ Hsub) as (resp & Hdo & Hcode & Hhtml).
    exists (runURL baseURL v2), q, resp. split; [| done].
    rewrite execute_run. simpl. set_solver.
Qed.

Lemma C6_run_response_classified_witness :
  execute (H := Sample.libraries)
    (Sample.world [Sample.stored] false false Sample.loginPage)
    (GET "http://localhost:9081/api/user/performance/profiles/1b4e28ba/run" ∅)
    Sample.noFlags
  = (Failed ErrFailTestRun,
     [Sent (GET "http://localhost:9081/api/user/performance/profiles/1b4e28ba/run" ∅)]).
Proof.
  apply (proj1 (C6_run_response_classified (H := Sample.libraries)
                  (Sample.world [Sample.stored] false false
                     Sample.loginPage))
           _ _ Sample.loginPage);
    reflexivity.
Defined.

(** C8: when the test URL is still empty after profile resolution the
    command fails with the "no test URL" error, and when it is not empty
    but is not a valid URL the command fails with the "not a valid URL"
    error; in both cases, and up to that point in every case, no run
    request has been sent. *)
Theorem C8_test_url_checked `{Libraries} (w : World) (args : list string)
    (v0 : Vars) (baseURL : string) (v1 : Vars) (t1 : list Event)
    (v2 : Vars) (t2 : list Event) :
  prepare w args v0 = (Done baseURL v1, t1) →
  resolveProfile w baseURL v1 = (Done tt v2, t2) →
  (testURL v2 = "" → RunE w args v0 = (Failed ErrNoTestURL, (t1 ++ t2)%list))
  ∧ (testURL v2 ≠ "" → IsURL (testURL v2) = false →
     RunE w args v0 = (Failed ErrNotValidURL, (t1 ++ t2)%list))
  ∧ Forall notRun (t1 ++ t2).
Proof.
  intros Hprep Hres.
  rewrite (RunE_resolved w _ _ _ _ _ _ _ Hprep Hres), submit_run.
  split; [| split].
  - intros ->. simpl. by rewrite app_nil_r.
  - intros Hne%String.eqb_neq Hinvalid. rewrite Hne, Hinvalid. simpl.
    by rewrite app_nil_r.
  - pose proof (prepare_trace w args v0) as Ht1.
    rewrite Hprep in Ht1. simpl in Ht1. subst t1. simpl.
    destruct (resolveProfile_testName w baseURL (testName v1) v1 eq_refl)
      as [Ht2 _].
    by rewrite Hres in Ht2.
Qed.

Lemma C8_test_url_checked_witness :
  RunE (H := Sample.libraries)
    (Sample.world [Sample.stored] false false Sample.ok) ["nightly"]
    (set_testURL "not a url" Sample.noFlags)
  = (Failed ErrNotValidURL, [Fetched "nightly"]).
Proof.
  refine (proj1 (proj2
    (C8_test_url_checked (H := Sample.libraries)
       (Sample.world [Sample.stored] false false Sample.ok) ["nightly"]
       (set_testURL "not a url" Sample.noFlags)
       "http://localhost:9081" _ [] _ [Fetched "nightly"] _ _)) _ _);
    [reflexivity | reflexivity | discriminate | reflexivity].
Defined.


(** ** No matching profile *)

Section NoMatch.

Context `{Libraries} (w : World).

(** Profile resolution when the registry has no profile of the name. *)
Lemma resolveProfile_none (baseURL : string) (v : Vars) :
  fetchPerformanceProfiles w baseURL (profileName v) (pageSize w)
    (pageNumber w - 1) = inr [] →
  resolveProfile w baseURL v
  = if SilentFlag w then
      (outcome (createAndAdopt w baseURL v),
       Fetched (profileName v) :: trace (createAndAdopt w baseURL v))
    else if AskForConfirmation w (question v) then
      (outcome (createAndAdopt w baseURL v),
       Fetched (profileName v) :: AskedConfirmation (question v)
         :: trace (createAndAdopt w baseURL v))
    else
      (Failed ErrNoProfileFound,
       [Fetched (profileName v); AskedConfirmation (question v)]).
Proof.
  intros Hfetch. unfold resolveProfile, bind, get, emit.
  rewrite Hfetch. simpl. rewrite confirmCreation_run.
  destruct (SilentFlag w); simpl.
  - by destruct (createAndAdopt w baseURL v).
  - destruct (AskForConfirmation w (question v)); [| done].
    by destruct (createAndAdopt w baseURL v).
Qed.

(** The command, after a preparation that completes. *)
Lemma RunE_prepared (args : list string) (v0 : Vars) (baseURL : string)
    (v1 : Vars) (t1 : list Event) :
  prepare w args v0 = (Done baseURL v1, t1) →
  RunE w args v0
  = (outcome ((resolveProfile w baseURL ;; submit w baseURL) v1),
     (t1 ++ trace ((resolveProfile w baseURL ;; submit w baseURL) v1))%list).
Proof. intros Hprep. unfold RunE. by rewrite (bind_Done _ _ _ _ _ _ Hprep). Qed.

(** Creation and submission put no question to the user. *)
Lemma creation_submission_notAsked (baseURL : string) :
  keeps (λ _, True) notAsked (createAndAdopt w baseURL ;; submit w baseURL).
Proof.
  unfold createAndAdopt, createPerformanceProfile, applyDefaults, submit,
    checkURL, buildRequest, execute.
  keeps_auto.
Qed.

End NoMatch.

(** C7: when no profile matches, silent mode is off and the user declines,
    the command fails with the no-profile-found error having sent no
    request at all, neither the creation request nor the run request; in
    silent mode the command does what it does for a user who confirms,
    only without the question. *)
Theorem C7_declined_or_silent `{Libraries} (w : World) (args : list string)
    (v0 : Vars) (baseURL : string) (v1 : Vars) (t1 : list Event) :
  prepare w args v0 = (Done baseURL v1, t1) →
  fetchPerformanceProfiles w baseURL (profileName v1) (pageSize w)
    (pageNumber w - 1) = inr [] →
  (SilentFlag w = false →
   AskForConfirmation w (question v1) = false →
   RunE w args v0
   = (Failed ErrNoProfileFound,
      [Fetched (profileName v1); AskedConfirmation (question v1)])
   ∧ Forall notSent (trace (RunE w args v0)))
  ∧ (SilentFlag w = true →
     ∃ o t,
       RunE w args v0 = (o, Fetched (profileName v1) :: t)
       ∧ RunE (confirming w) args v0
         = (o, Fetched (profileName v1)
                 :: AskedConfirmation (question v1) :: t)
       ∧ Forall notAsked t).
Proof.
  intros Hprep Hfetch.
  pose proof (prepare_trace w args v0) as Ht1.
  rewrite Hprep in Ht1. simpl in Ht1. subst t1.
  split.
  - intros Hsilent Hno.
    assert (Hrun : RunE w args v0
                   = (Failed ErrNoProfileFound,
                      [Fetched (profileName v1);
                       AskedConfirmation (question v1)])).
    { apply (RunE_unresolved w args v0 baseURL v1 [] ErrNoProfileFound
               [Fetched (profileName v1); AskedConfirmation (question v1)]
               Hprep).
      by rewrite resolveProfile_none, Hsilent, Hno. }
    split; [done |]. rewrite Hrun. simpl. by repeat constructor.
  - intros Hsilent.
    assert (Hprep' : prepare (confirming w) args v0 = (Done baseURL v1, []))
      by exact Hprep.
    rewrite (RunE_prepared w _ _ _ _ _ Hprep).
    rewrite (RunE_prepared (confirming w) _ _ _ _ _ Hprep').
    change (submit (confirming w) baseURL) with (submit w baseURL).
    assert (Hfetch' : fetchPerformanceProfiles (confirming w) baseURL
                        (profileName v1) (pageSize (confirming w))
                        (pageNumber (confirming w) - 1) = inr [])
      by exact Hfetch.
    destruct (creation_submission_notAsked w baseURL v1 I) as [Hquiet _].
    revert Hquiet. rewrite !bind_run.
    rewrite (resolveProfile_none w _ _ Hfetch), Hsilent.
    rewrite (resolveProfile_none (confirming w) _ _ Hfetch'). simpl.
    change (createAndAdopt (confirming w) baseURL)
      with (createAndAdopt w baseURL).
    unfold trace, outcome.
    destruct (createAndAdopt w baseURL v1) as [[[] v2|e|] t]; simpl;
      [destruct (submit w baseURL v2) as [o t']; simpl | |]; eauto.
Qed.

Lemma C7_declined_or_silent_witness :
  RunE (H := Sample.libraries)
    (Sample.world [] false false Sample.ok) ["fresh"]
    (set_testURL "https://example.org/" Sample.noFlags)
  = (Failed ErrNoProfileFound,
     [Fetched "fresh";
      AskedConfirmation
        "Profile with name 'fresh' does not exist. Do you want to create a new one"]).
Proof.
  refine (proj1 (proj1
    (C7_declined_or_silent (H := Sample.libraries)
       (Sample.world [] false false Sample.ok) ["fresh"]
       (set_testURL "https://example.org/" Sample.noFlags)
       "http://localhost:9081"
       (set_profileName "fresh"
          (set_testName "qwertyui"
             (set_testURL "https://example.org/" Sample.noFlags)))
       [] _ _) _ _));
    reflexivity.
Defined.


(** ** The test name *)

Section TestName.

Context `{Libraries} (w : World).

(** The file gives the test name only when the flag has not. *)
Lemma importFile_testName (v va : Vars) :
  outcome (importFile w v) = Done tt va →
  testName va = testName v
  ∨ testName v = "" ∧ filePath v ≠ ""
    ∧ ∃ text file config,
        ReadFile w (filePath v) = Some text
        ∧ yaml_Unmarshal text = Some file
        ∧ models.Config file = Some config
        ∧ testName va = SMP.Name config.
Proof.
  unfold importFile, whenEmpty, bind, get, modify, ret, orFail, orPanic,
    fail, panic, outcome.
  destruct (String.eqb_spec (filePath v) "") as [|Hpath]; simpl;
    [intros [= <-]; by left |].
  destruct (ReadFile w (filePath v)) as [text|] eqn:Hread; simpl; [| done].
  destruct (yaml_Unmarshal text) as [file|] eqn:Hparse; simpl; [| done].
  destruct (models.Config file) as [config|] eqn:Hconfig; simpl; [| done].
  destruct (models.ServiceMesh_ file) as [mesh|]; simpl; [| done].
  destruct (at_index (SMP.Clients config) 0) as [testClient|]; simpl;
    [| done].
  destruct (String.eqb_spec (testName v) "") as [Hname|Hname]; simpl.
  - split_empty v;
      [destruct (at_index (SMP.EndpointUrls testClient) 0); simpl; [| done] |];
      repeat split_empty v; intros [= <-]; simpl; right; eauto 10.
  - split_empty v;
      [destruct (at_index (SMP.EndpointUrls testClient) 0); simpl; [| done] |];
      repeat split_empty v; intros [= <-]; simpl; by left.
Qed.

(** The positional arguments do not touch the test name. *)
Lemma nameProfile_testName (args : list string) (n : string) :
  keeps (λ v, testName v = n) (λ _, True) (nameProfile args).
Proof. unfold nameProfile. keeps_auto. Qed.

(** After the preparation the test name is the flag, else the name in the
    file, else the random name. *)
Lemma prepare_testName (args : list string) (v0 : Vars) (baseURL : string)
    (v1 : Vars) :
  outcome (prepare w args v0) = Done baseURL v1 →
  (testName v0 ≠ "" → testName v1 = testName v0)
  ∧ (testName v0 ≠ "" ∧ testName v1 = testName v0
     ∨ (filePath v0 ≠ ""
        ∧ ∃ text file config,
            ReadFile w (filePath v0) = Some text
            ∧ yaml_Unmarshal text = Some file
            ∧ models.Config file = Some config
            ∧ testName v1 = SMP.Name config)
     ∨ testName v1 = StringWithCharset w).
Proof.
  unfold prepare. intros Hrun.
  apply bind_Done_inv in Hrun as (b & v0' & Hload & Hrun).
  assert (v0' = v0) as ->.
  { unfold loadConfig, outcome in Hload.
    destruct (GetMesheryCtl w); simpl in Hload; congruence. }
  apply bind_Done_inv in Hrun as ([] & va & Himport & Hrun).
  apply bind_Done_inv in Hrun as ([] & vb & Hname & Hrun).
  apply bind_Done_inv in Hrun as ([] & vc & Hprofile & Hrun).
  injection Hrun as <- <-.
  destruct (nameProfile_testName args (testName vb) vb eq_refl) as [_ Hvc].
  rewrite (Hvc _ _ Hprofile).
  assert (Hvb : testName vb = orDefault (testName va) (StringWithCharset w)).
  { revert Hname.
    unfold nameTest, whenEmpty, bind, get, modify, ret, outcome, orDefault.
    destruct (String.eqb (testName va) ""); simpl; by intros [= <-]. }
  rewrite Hvb. unfold orDefault.
  destruct (importFile_testName _ _ Himport)
    as [Hva | (Hempty & Hpath & text & file & config & ? & ? & ? & Hva)].
  - rewrite Hva.
    destruct (String.eqb_spec (testName v0) ""); split; auto; done.
  - split; [done |].
    destruct (String.eqb_spec (testName va) ""); [by right; right |].
    right; left. split; [done |]. eauto 10.
Qed.

End TestName.

(** The round trip of the specification: the file's duration "2m", with no
    flag for it, reaches the run request as [t=2] and [dur=m]. *)
Example file_duration_2m :
  ∃ url q,
    RunE (H := Sample.libraries)
      (Sample.world [Sample.stored] false false Sample.ok) ["nightly"]
      (Sample.fileOnly "duration: 2m")
    = (Done tt
         {| profileName := "nightly";
            testURL := "http://svc.local/productpage";
            testName := "smp-test"; testMesh := "ISTIO"; qps := "7";
            concurrentRequests := "3"; testDuration := "2m";
            loadGenerator := "wrk2"; filePath := "duration: 2m";
            profileID := "1b4e28ba" |},
       [Fetched "nightly"; Sent (GET url q)])
    ∧ q !! "t" = Some ["2"] ∧ q !! "dur" = Some ["m"].
Proof. eexists _, _. split; [vm_compute; reflexivity | by split]. Qed.

(** One match without a file: the flags for load generator, concurrency,
    QPS, duration and mesh are gone from the run request, the test name
    and the test URL of the flags are still there. *)
Example flags_overwritten_by_profile :
  ∃ url q,
    trace (RunE (H := Sample.libraries)
             (Sample.world [Sample.stored] false false Sample.ok)
             ["nightly"] (Sample.allFlags ""))
    = [Fetched "nightly"; Sent (GET url q)]
    ∧ q !! "name" = Some ["by-flag"]
    ∧ q !! "url" = Some ["https://flag.example/"]
    ∧ q !! "loadGenerator" = Some ["fortio"]
    ∧ q !! "c" = Some ["4"]
    ∧ q !! "qps" = Some ["9"]
    ∧ q !! "t" = Some ["10"] ∧ q !! "dur" = Some ["s"]
    ∧ q !! "mesh" = Some ["linkerd"].
Proof. eexists _, _. split; [vm_compute; reflexivity | by repeat split]. Qed.

(** The same run behind a base URL that has a [name] parameter of its
    own: the query of the request URL holds that parameter, with the path
    of the run request appended to its value, and the test name is added
    after it. *)
Example name_after_url_parameter :
  ∃ q,
    trace (RunE (H := Sample.libraries)
             (Sample.behind "http://localhost:9081/?name=x"
                (Sample.world [Sample.stored] false false Sample.ok))
             ["nightly"] (Sample.allFlags ""))
    = [Fetched "nightly";
       Sent (GET ("http://localhost:9081/?name=x"
                  ++ "/api/user/performance/profiles/1b4e28ba/run") q)]
    ∧ q !! "name"
      = Some ["x/api/user/performance/profiles/1b4e28ba/run"; "by-flag"].
Proof. eexists. split; [vm_compute; reflexivity | done]. Qed.

(** C10, as the specification states it, refuted in its weakest reading:
    that the [name] parameter of every run request has the test name as
    its first value, the one that a reader of the parameter gets.  Behind
    a base URL with a [name] parameter of its own, the first value is the
    one of the URL and the test name comes second. *)
Lemma C10_name_parameter_of_base_url :
  ¬ (∀ (L : Libraries) (w : World) (args : list string) (v0 : Vars)
       (baseURL : string) (v1 : Vars) (t1 : list Event),
       prepare w args v0 = (Done baseURL v1, t1) →
       ∀ url q,
         Sent (GET url q) ∈ trace (RunE w args v0) →
         ∃ rest, q !! "name" = Some (testName v1 :: rest)).
Proof.
  intros Hclaim.
  destruct name_after_url_parameter as (q & Htrace & Hname).
  destruct (Hclaim Sample.libraries
              (Sample.behind "http://localhost:9081/?name=x"
                 (Sample.world [Sample.stored] false false Sample.ok))
              ["nightly"] (Sample.allFlags "")
              "http://localhost:9081/?name=x"
              (set_profileName "nightly" (Sample.allFlags "")) [] eq_refl
              ("http://localhost:9081/?name=x"
               ++ "/api/user/performance/profiles/1b4e28ba/run") q)
    as [rest Hrest].
  - rewrite Htrace. apply list_elem_of_further, list_elem_of_here.
  - rewrite Hname in Hrest. by injection Hrest.
Qed.

(** C10 (amended): profile resolution never changes the test name.  The
    test name after the preparation is the flag's when the flag is set,
    and otherwise the name in the file or the random name; profile
    resolution, in the creation branch and in the match branch alike,
    completes with the same test name; and in every run request the
    command sends, the values of the [name] parameter are those that the
    query of the request URL already has, followed by that test name: the
    parameter is exactly the test name when the request URL has no [name]
    parameter. *)
Theorem C10_test_name_unchanged `{Libraries} (w : World)
    (args : list string) (v0 : Vars) (baseURL : string) (v1 : Vars)
    (t1 : list Event) :
  prepare w args v0 = (Done baseURL v1, t1) →
  (testName v0 ≠ "" → testName v1 = testName v0)
  ∧ (testName v0 ≠ "" ∧ testName v1 = testName v0
     ∨ (filePath v0 ≠ ""
        ∧ ∃ text file config,
            ReadFile w (filePath v0) = Some text
            ∧ yaml_Unmarshal text = Some file
            ∧ models.Config file = Some config
            ∧ testName v1 = SMP.Name config)
     ∨ testName v1 = StringWithCharset w)
  ∧ (∀ v2 t2,
       resolveProfile w baseURL v1 = (Done tt v2, t2) →
       testName v2 = testName v1)
  ∧ (∀ url q,
       Sent (GET url q) ∈ trace (RunE w args v0) →
       q !! "name"
       = Some (valuesOf (URL_Query url) "name" ++ [testName v1])%list
       ∧ (URL_Query url !! "name" = None →
          q !! "name" = Some [testName v1])).
Proof.
  intros Hprep.
  destruct (prepare_testName w args v0 baseURL v1) as [Hflag Hsource];
    [by rewrite Hprep |].
  destruct (resolveProfile_testName w baseURL (testName v1) v1 eq_refl)
    as [Hquiet Hkeep].
  split; [done |]. split; [done |]. split.
  - intros v2 t2 Hres. apply (Hkeep tt). by rewrite Hres.
  - intros url q.
    pose proof (prepare_trace w args v0) as Ht1.
    rewrite Hprep in Ht1. simpl in Ht1. subst t1.
    rewrite (RunE_prepared w _ _ _ _ _ Hprep). simpl.
    rewrite trace_bind. intros [Hin | Hin]%elem_of_app.
    + rewrite Forall_forall in Hquiet. by apply Hquiet in Hin.
    + destruct (outcome (resolveProfile w baseURL v1)) as [[] v2|e|] eqn:Hres;
        [| by apply elem_of_nil in Hin..].
      apply submit_trace in Hin as (q' & Hq & [= -> <-]).
      apply buildQuery_name in Hq.
      rewrite (Hkeep tt v2 eq_refl) in Hq.
      split; [done |]. intros Hnone. rewrite Hq. unfold valuesOf.
      by rewrite Hnone.
Qed.

Lemma C10_test_name_unchanged_witness :
  ∃ q,
    Sent (GET ("http://localhost:9081/?name=x"
               ++ "/api/user/performance/profiles/1b4e28ba/run") q)
      ∈ trace (RunE (H := Sample.libraries)
                 (Sample.behind "http://localhost:9081/?name=x"
                    (Sample.world [Sample.stored] false false Sample.ok))
                 ["nightly"] (Sample.allFlags ""))
    ∧ q !! "name"
      = Some (valuesOf
                (Sample.query
                   ("http://localhost:9081/?name=x"
                    ++ "/api/user/performance/profiles/1b4e28ba/run"))
                "name" ++ ["by-flag"])%list.
Proof.
  destruct name_after_url_parameter as (q & Htrace & _).
  assert (Hsent : Sent (GET ("http://localhost:9081/?name=x"
                             ++ "/api/user/performance/profiles/1b4e28ba/run")
                          q)
                    ∈ trace (RunE (H := Sample.libraries)
                               (Sample.behind "http://localhost:9081/?name=x"
                                  (Sample.world [Sample.stored] false false
                                     Sample.ok))
                               ["nightly"] (Sample.allFlags ""))).
  { rewrite Htrace. apply list_elem_of_further, list_elem_of_here. }
  exists q. split; [exact Hsent |].
  exact (proj1 (proj2 (proj2 (proj2
    (C10_test_name_unchanged (H := Sample.libraries)
       (Sample.behind "http://localhost:9081/?name=x"
          (Sample.world [Sample.stored] false false Sample.ok))
       ["nightly"] (Sample.allFlags "") "http://localhost:9081/?name=x"
       (set_profileName "nightly" (Sample.allFlags "")) [] eq_refl)))
    ("http://localhost:9081/?name=x"
     ++ "/api/user/performance/profiles/1b4e28ba/run") q Hsent)).
Defined.


(** ** The duration on the way to the run request *)

Section EmptyDuration.

Context `{Libraries} (w : World).

(** With a valid test URL and an empty duration, what follows profile
    resolution panics: no error is returned and no request is sent. *)
Lemma submit_empty_duration (baseURL : string) (v : Vars) :
  testURL v ≠ "" →
  IsURL (testURL v) = true →
  NewRequest w "GET" (runURL baseURL v) = None →
  testDuration v = "" →
  submit w baseURL v = (Panicked, []).
Proof.
  intros Hurl%String.eqb_neq Hvalid Hreq Hd.
  rewrite submit_run, Hurl, Hvalid, Hreq. simpl.
  by rewrite buildQuery_empty_duration.
Qed.

End EmptyDuration.

(** C4, at a reachable input: a configuration file without a duration, no
    duration flag and one matching profile.  The file is given, so the
    profile's duration is not taken; the duration reaches the construction
    of the run request empty, where indexing its last byte panics instead
    of returning an error. *)
Theorem C4_empty_duration_panics :
  RunE (H := Sample.libraries)
    (Sample.world [Sample.stored] false false Sample.ok) ["nightly"]
    (Sample.fileOnly "duration absent")
  = (Panicked, [Fetched "nightly"]).
Proof. vm_compute. reflexivity. Qed.


(** * Further properties of the command *)


(** ** Profile creation, in closed form *)

Section CreationRun.

Context `{Libraries} (w : World).

(** What [createPerformanceProfile] does with the response to its
    request. *)
Lemma createPerformanceProfile_run (baseURL : string) (v : Vars) :
  createPerformanceProfile w baseURL v
  = if String.eqb (profileName v) "" then (Failed ErrNoProfileName, [])
    else if String.eqb (testURL v) "" then (Failed ErrNoTestURL, [])
    else if negb (IsURL (testURL v)) then (Failed ErrNotValidURL, [])
    else
      let d := withDefaults v in
      match strconv.Atoi (concurrentRequests d) with
      | None => (Failed ErrConvConcurrentRequest, [])
      | Some convReq =>
      match strconv.Atoi (qps d) with
      | None => (Failed ErrConvQPS, [])
      | Some convQPS =>
      match NewRequest w "POST" (createURL baseURL) with
      | Some e => (Failed e, [])
      | None =>
          let req := POST (createURL baseURL)
                       (creationValues convReq convQPS d) in
          (match Do w req with
           | None => Failed ErrFailRequest
           | Some resp =>
               if negb (StatusCode resp =? 200)
               then Failed (ErrFailReqStatus (StatusCode resp))
               else
                 match Body resp with
                 | None => Failed ErrReadBody
                 | Some body =>
                     match json_Unmarshal body with
                     | None => Failed ErrFailUnmarshal
                     | Some None => Panicked
                     | Some (Some response) =>
                         Done (models.ID response, models.Name response)
                           (set_profileName (models.Name response)
                              (set_profileID (models.ID response) d))
                     end
                 end
           end, [Sent req])
      end end end.
Proof.
  unfold createPerformanceProfile, createURL.
  rewrite bind_run. simpl.
  destruct (String.eqb (profileName v) ""); [done |].
  destruct (String.eqb (testURL v) ""); [done |].
  destruct (negb (IsURL (testURL v))); [done |].
  rewrite bind_run, applyDefaults_run. simpl.
  rewrite bind_run. simpl. rewrite bind_run.
  destruct (strconv.Atoi (orDefault (concurrentRequests v) "1"))
    as [convReq|]; [| done]. simpl.
  rewrite bind_run.
  destruct (strconv.Atoi (orDefault (qps v) "0")) as [convQPS|]; [| done].
  simpl.
  destruct (NewRequest w "POST" _); [done |].
  unfold bind, emit, orFail, orPanic, modify, get, ret, fail, panic. simpl.
  destruct (Do w _) as [resp|]; [| done].
  destruct (negb (StatusCode resp =? 200)); [done |].
  destruct (Body resp) as [body|]; [| done]. simpl.
  by destruct (json_Unmarshal body) as [[response|]|].
Qed.

End CreationRun.


(** ** Profile resolution, in closed form *)

Section ResolutionRun.

Context `{Libraries} (w : World).

Lemma createAndAdopt_run (baseURL : string) (v : Vars) :
  createAndAdopt w baseURL v
  = (match outcome (createPerformanceProfile w baseURL v) with
     | Done r v' => Done tt (set_profileName (snd r) (set_profileID (fst r) v'))
     | Failed e => Failed e
     | Panicked => Panicked
     end, trace (createPerformanceProfile w baseURL v)).
Proof.
  unfold createAndAdopt, bind, modify, outcome, trace.
  destruct (createPerformanceProfile w baseURL v) as [[r v'|e|] t]; simpl;
    [| done..].
  by rewrite app_nil_r.
Qed.

(** One profile matches: no question is asked. *)
Lemma resolveProfile_single (baseURL : string) (v : Vars)
    (p : models.PerformanceProfile) :
  fetchPerformanceProfiles w baseURL (profileName v) (pageSize w)
    (pageNumber w - 1) = inr [p] →
  resolveProfile w baseURL v
  = (match afterMatch p v with
     | Some v' => Done tt v'
     | None => Panicked
     end, [Fetched (profileName v)]).
Proof.
  intros Hfetch.
  unfold resolveProfile, chooseProfile, pullFromProfile, whenEmpty, bind,
    get, emit, modify, ret, afterMatch.
  rewrite Hfetch. simpl.
  destruct (String.eqb (testURL v) ""); simpl.
  - destruct (models.Endpoints p) as [|u us]; simpl; [done |].
    destruct (String.eqb (filePath v) ""); simpl; [| done].
    by destruct (models.LoadGenerators p).
  - destruct (String.eqb (filePath v) ""); simpl; [| done].
    by destruct (models.LoadGenerators p).
Qed.

(** Several profiles match: the user is asked for an index. *)
Lemma resolveProfile_several (baseURL : string) (v : Vars)
    (profiles : list models.PerformanceProfile) :
  fetchPerformanceProfiles w baseURL (profileName v) (pageSize w)
    (pageNumber w - 1) = inr profiles →
  (2 ≤ length profiles)%nat →
  resolveProfile w baseURL v
  = (match userPrompt w profiles with
     | inl e => Failed e
     | inr index =>
         match at_index profiles index with
         | None => Panicked
         | Some p =>
             match afterMatch p v with
             | Some v' => Done tt v'
             | None => Panicked
             end
         end
     end, [Fetched (profileName v); AskedIndex]).
Proof.
  intros Hfetch Hlen.
  unfold resolveProfile, chooseProfile, pullFromProfile, whenEmpty, bind,
    get, emit, modify, ret, afterMatch.
  rewrite Hfetch. simpl.
  rewrite (bool_decide_eq_false_2 (length profiles = 0%nat)) by lia.
  rewrite (bool_decide_eq_false_2 (length profiles = 1%nat)) by lia.
  unfold orReturn, orPanic, ret, fail, panic. simpl.
  destruct (userPrompt w profiles) as [e|index]; simpl; [reflexivity |].
  destruct (at_index profiles index) as [p|] eqn:Hp; simpl; [| reflexivity].
  destruct (String.eqb (testURL v) ""); simpl; rewrite ?Hp; simpl.
  - destruct (models.Endpoints p) as [|u us]; simpl; [done |].
    destruct (String.eqb (filePath v) ""); simpl; rewrite ?Hp; simpl;
      [| done].
    by destruct (models.LoadGenerators p).
  - destruct (String.eqb (filePath v) ""); simpl; rewrite ?Hp; simpl;
      [| done].
    by destruct (models.LoadGenerators p).
Qed.

End ResolutionRun.


(** ** Summaries *)

Section Summaries.

Context `{Libraries} (w : World).

(** Profile creation either sends nothing and does not complete, or sends
    exactly the creation request; when it completes, the variables are the
    defaulted ones with the identifier and name of the response. *)
Lemma createPerformanceProfile_cases (baseURL : string) (v : Vars) :
  (trace (createPerformanceProfile w baseURL v) = []
   ∧ ∀ r v', outcome (createPerformanceProfile w baseURL v) ≠ Done r v')
  ∨ ∃ req,
      sentCreation w baseURL v req
      ∧ trace (createPerformanceProfile w baseURL v) = [Sent req]
      ∧ ∀ r v',
          outcome (createPerformanceProfile w baseURL v) = Done r v' →
          ∃ response,
            created w req response
            ∧ r = (models.ID response, models.Name response)
            ∧ v' = set_profileName (models.Name response)
                     (set_profileID (models.ID response) (withDefaults v)).
Proof.
  rewrite createPerformanceProfile_run.
  destruct (String.eqb_spec (profileName v) ""); [by left |].
  destruct (String.eqb_spec (testURL v) ""); [by left |].
  destruct (IsURL (testURL v)) eqn:Hvalid; simpl; [| by left].
  destruct (strconv.Atoi (orDefault (concurrentRequests v) "1"))
    as [convReq|] eqn:Hc; [| by left].
  destruct (strconv.Atoi (orDefault (qps v) "0")) as [convQPS|] eqn:Hq;
    [| by left].
  destruct (NewRequest w "POST" (createURL baseURL)) eqn:Hreq; [by left |].
  right. eexists. split; [by exists convReq, convQPS |].
  split; [done |]. intros r v'. unfold outcome. simpl.
  destruct (Do w _) as [resp|] eqn:Hdo; [| done].
  destruct (Z.eqb_spec (StatusCode resp) 200) as [Hcode|]; simpl; [| done].
  destruct (Body resp) as [body|] eqn:Hbody; [| done].
  destruct (json_Unmarshal body) as [[response|]|] eqn:Hjson; [| done..].
  intros [= <- <-]. exists response. split; [| done].
  by exists resp, body.
Qed.

(** Profile resolution, by what the registry answers. *)
Lemma resolveProfile_cases (baseURL : string) (v : Vars) :
  let r := resolveProfile w baseURL v in
  let fetched := fetchPerformanceProfiles w baseURL (profileName v)
                   (pageSize w) (pageNumber w - 1) in
  (∃ e, fetched = inl e ∧ r = (Failed e, [Fetched (profileName v)]))
  ∨ (fetched = inr []
     ∧ r = if SilentFlag w then
             (outcome (createAndAdopt w baseURL v),
              Fetched (profileName v) :: trace (createAndAdopt w baseURL v))
           else if AskForConfirmation w (question v) then
             (outcome (createAndAdopt w baseURL v),
              Fetched (profileName v) :: AskedConfirmation (question v)
                :: trace (createAndAdopt w baseURL v))
           else
             (Failed ErrNoProfileFound,
              [Fetched (profileName v); AskedConfirmation (question v)]))
  ∨ (∃ p, fetched = inr [p]
          ∧ r = (match afterMatch p v with
                 | Some v' => Done tt v'
                 | None => Panicked
                 end, [Fetched (profileName v)]))
  ∨ (∃ profiles,
       fetched = inr profiles ∧ (2 ≤ length profiles)%nat
       ∧ r = (match userPrompt w profiles with
              | inl e => Failed e
              | inr index =>
                  match at_index profiles index with
                  | None => Panicked
                  | Some p =>
                      match afterMatch p v with
                      | Some v' => Done tt v'
                      | None => Panicked
                      end
                  end
              end, [Fetched (profileName v); AskedIndex])).
Proof.
  cbv zeta.
  destruct (fetchPerformanceProfiles w baseURL (profileName v) (pageSize w)
              (pageNumber w - 1)) as [e|profiles] eqn:Hfetch.
  - left. exists e. split; [done |].
    unfold resolveProfile, bind, get, emit. by rewrite Hfetch.
  - destruct profiles as [|p [|p' rest]].
    + right; left. split; [done |]. by apply resolveProfile_none.
    + right; right; left. exists p. split; [done |].
      by apply resolveProfile_single.
    + right; right; right. eexists. split; [done |].
      split; [simpl; lia |]. apply resolveProfile_several; [done |].
      simpl; lia.
Qed.

(** The command: nothing happens unless the preparation completes, and
    then resolution and submission follow from the prepared variables. *)
Lemma RunE_cases (args : list string) (v0 : Vars) :
  (trace (RunE w args v0) = []
   ∧ (∀ v', outcome (RunE w args v0) ≠ Done tt v')
   ∧ outcome (RunE w args v0)
     = match outcome (prepare w args v0) with
       | Done _ _ => Panicked
       | Failed e => Failed e
       | Panicked => Panicked
       end
   ∧ ∀ baseURL v1, outcome (prepare w args v0) ≠ Done baseURL v1)
  ∨ ∃ baseURL v1,
      prepare w args v0 = (Done baseURL v1, [])
      ∧ RunE w args v0
        = (resolveProfile w baseURL ;; submit w baseURL) v1.
Proof.
  pose proof (prepare_trace w args v0) as Ht.
  destruct (prepare w args v0) as [[baseURL v1|e|] t] eqn:Hprep;
    simpl in Ht; subst t.
  - right. exists baseURL, v1. split; [done |].
    rewrite (RunE_prepared w _ _ _ _ _ Hprep). simpl.
    by destruct ((resolveProfile w baseURL;; submit w baseURL) v1).
  - left. unfold RunE. rewrite (bind_Failed _ _ _ _ _ Hprep). by simpl.
  - left. unfold RunE, bind. rewrite Hprep. by simpl.
Qed.

End Summaries.


(** ** What a match changes *)

Lemma afterMatch_total (p : models.PerformanceProfile) (v : Vars) :
  is_Some (afterMatch p v)
  ↔ (testURL v = "" → models.Endpoints p ≠ [])
    ∧ (filePath v = "" → models.LoadGenerators p ≠ []).
Proof.
  unfold afterMatch.
  destruct (String.eqb_spec (testURL v) "") as [Hu|Hu];
    destruct (String.eqb_spec (filePath v) "") as [Hf|Hf];
    destruct (models.Endpoints p) as [|u us];
    destruct (models.LoadGenerators p) as [|lg lgs];
    unfold is_Some; split;
    first [ by intros [? [=]] | by intros _; split
          | intros [Hu' Hf']; first [ by eauto | by destruct Hu'
                                    | by destruct Hf' ] ].
Qed.

Lemma afterMatch_fields (p : models.PerformanceProfile) (v v' : Vars) :
  afterMatch p v = Some v' →
  profileID v' = models.ID p
  ∧ testName v' = testName v
  ∧ filePath v' = filePath v
  ∧ (testURL v ≠ "" → testURL v' = testURL v)
  ∧ (testURL v = "" → head (models.Endpoints p) = Some (testURL v'))
  ∧ (filePath v = "" →
     profileName v' = models.Name p
     ∧ head (models.LoadGenerators p) = Some (loadGenerator v')
     ∧ concurrentRequests v' = strconv.Itoa (models.ConcurrentRequest p)
     ∧ qps v' = strconv.Itoa (models.QPS p)
     ∧ testDuration v' = models.Duration p
     ∧ testMesh v' = models.ServiceMesh p)
  ∧ (filePath v ≠ "" →
     profileName v' = profileName v
     ∧ loadGenerator v' = loadGenerator v
     ∧ concurrentRequests v' = concurrentRequests v
     ∧ qps v' = qps v
     ∧ testDuration v' = testDuration v
     ∧ testMesh v' = testMesh v).
Proof.
  unfold afterMatch.
  destruct (String.eqb_spec (testURL v) "") as [Hu|Hu];
    destruct (String.eqb_spec (filePath v) "") as [Hf|Hf];
    destruct (models.Endpoints p) as [|u us];
    destruct (models.LoadGenerators p) as [|lg lgs];
    intros [= <-]; simpl; repeat split; try done.
Qed.

(** X1: several matches.  The error of the index prompt is returned as it
    is, after the fetch and the question and nothing else.  With an index
    [i] chosen, every completed resolution has the identifier of
    [profiles[i]], its first endpoint as test URL where none was set, and,
    where no file was given, its test configuration; resolution completes
    when that profile has the endpoint and load generator it is asked
    for. *)
Theorem several_matches_use_chosen_profile `{Libraries} (w : World)
    (baseURL : string) (v : Vars)
    (profiles : list models.PerformanceProfile) :
  fetchPerformanceProfiles w baseURL (profileName v) (pageSize w)
    (pageNumber w - 1) = inr profiles →
  (2 ≤ length profiles)%nat →
  (∀ e, userPrompt w profiles = inl e →
        resolveProfile w baseURL v
        = (Failed e, [Fetched (profileName v); AskedIndex]))
  ∧ (∀ index p,
       userPrompt w profiles = inr index →
       at_index profiles index = Some p →
       (∀ v' t,
          resolveProfile w baseURL v = (Done tt v', t) →
          t = [Fetched (profileName v); AskedIndex]
          ∧ profileID v' = models.ID p
          ∧ (testURL v = "" →
             head (models.Endpoints p) = Some (testURL v'))
          ∧ (filePath v = "" →
             profileName v' = models.Name p
             ∧ head (models.LoadGenerators p) = Some (loadGenerator v')
             ∧ concurrentRequests v'
               = strconv.Itoa (models.ConcurrentRequest p)
             ∧ qps v' = strconv.Itoa (models.QPS p)
             ∧ testDuration v' = models.Duration p
             ∧ testMesh v' = models.ServiceMesh p))
       ∧ ((testURL v = "" → models.Endpoints p ≠ []) →
          (filePath v = "" → models.LoadGenerators p ≠ []) →
          ∃ v', resolveProfile w baseURL v
                = (Done tt v', [Fetched (profileName v); AskedIndex]))).
Proof.
  intros Hfetch Hlen.
  rewrite (resolveProfile_several w _ _ _ Hfetch Hlen).
  split; [by intros e -> |].
  intros index p -> ->. split.
  - intros v' t.
    destruct (afterMatch p v) as [v''|] eqn:Hafter; [| done].
    intros [= -> <-].
    destruct (afterMatch_fields _ _ _ Hafter)
      as (? & ? & ? & ? & ? & ? & ?).
    done.
  - intros Hends Hlg.
    destruct (proj2 (afterMatch_total p v) (conj Hends Hlg)) as [v' ->].
    eauto.
Qed.

Lemma several_matches_use_chosen_profile_witness :
  ∃ v',
    resolveProfile (H := Sample.libraries)
      (Sample.world [Sample.created "older"; Sample.stored] false false
         Sample.ok)
      "http://localhost:9081"
      (set_profileName "nightly" (Sample.allFlags ""))
    = (Done tt v', [Fetched "nightly"; AskedIndex])
    ∧ profileID v' = "1b4e28ba".
Proof.
  destruct (several_matches_use_chosen_profile (H := Sample.libraries)
              (Sample.world [Sample.created "older"; Sample.stored] false
                 false Sample.ok)
              "http://localhost:9081"
              (set_profileName "nightly" (Sample.allFlags ""))
              [Sample.created "older"; Sample.stored])
    as [_ Hchosen]; [reflexivity | simpl; lia |].
  destruct (Hchosen 1 Sample.stored eq_refl eq_refl) as [Hfields Htotal].
  destruct Htotal as [v' Hrun];
    [intros [=] | intros _; discriminate |].
  exists v'. split; [exact Hrun |].
  exact (proj1 (proj2 (Hfields v' _ Hrun))).
Defined.

(** X2: a match when a file was given.  Whatever the registry returns,
    as long as it is at least one profile, every completed resolution
    leaves the profile name, test name, load generator,
    concurrent-requests, QPS, duration, service-mesh name and file path as
    they were, and a test URL that was set as it was.  The profile, the
    only one returned or the one at the index the user chose, gives its
    identifier and, only when no test URL was set, its first endpoint as
    the test URL. *)
Theorem match_with_file_keeps_configuration `{Libraries} (w : World)
    (baseURL : string) (v : Vars)
    (profiles : list models.PerformanceProfile) :
  fetchPerformanceProfiles w baseURL (profileName v) (pageSize w)
    (pageNumber w - 1) = inr profiles →
  profiles ≠ [] →
  filePath v ≠ "" →
  ∀ v' t,
    resolveProfile w baseURL v = (Done tt v', t) →
    profileName v' = profileName v
    ∧ testName v' = testName v
    ∧ loadGenerator v' = loadGenerator v
    ∧ concurrentRequests v' = concurrentRequests v
    ∧ qps v' = qps v
    ∧ testDuration v' = testDuration v
    ∧ testMesh v' = testMesh v
    ∧ filePath v' = filePath v
    ∧ (testURL v ≠ "" → testURL v' = testURL v)
    ∧ ∃ p, p ∈ profiles
           ∧ (∀ only, profiles = [only] → p = only)
           ∧ (∀ index, userPrompt w profiles = inr index →
                (2 ≤ length profiles)%nat →
                at_index profiles index = Some p)
           ∧ profileID v' = models.ID p
           ∧ (testURL v = "" →
              head (models.Endpoints p) = Some (testURL v')).
Proof.
  intros Hfetch Hne Hfile v' t Hrun.
  assert (Hafter : ∃ p, p ∈ profiles
                        ∧ (∀ only, profiles = [only] → p = only)
                        ∧ (∀ index, userPrompt w profiles = inr index →
                             (2 ≤ length profiles)%nat →
                             at_index profiles index = Some p)
                        ∧ afterMatch p v = Some v').
  { destruct (resolveProfile_cases w baseURL v)
      as [(e & He & _) | [[Hnone _] | [(p & Hone & Hr)
                                      | (ps & Hps & Hlen & Hr)]]];
      rewrite Hfetch in *; try done.
    - congruence.
    - injection Hone as ->. rewrite Hrun in Hr. exists p.
      split; [set_solver |]. split; [by intros only [= ->] |].
      split; [simpl; lia |].
      destruct (afterMatch p v) as [v''|]; [| done].
      by injection Hr as -> ->.
    - injection Hps as <-. rewrite Hrun in Hr.
      destruct (userPrompt w profiles) as [e|index]; [done |].
      destruct (at_index profiles index) as [p|] eqn:Hp; [| done].
      exists p. split; [| split; [| split]].
      + unfold at_index in Hp. destruct (bool_decide (0 ≤ index)); [| done].
        by apply list_elem_of_lookup_2 in Hp.
      + intros only ->. simpl in Hlen. lia.
      + by intros index' [= <-] _.
      + destruct (afterMatch p v) as [v''|]; [| done].
        by injection Hr as -> ->. }
  destruct Hafter as (p & Hin & Honly & Hindex & Hafter).
  destruct (afterMatch_fields _ _ _ Hafter)
    as (Hid & Hname & Hpath & Hurl & Hend & _ & Hkeep).
  destruct (Hkeep Hfile) as (? & ? & ? & ? & ? & ?).
  split_fields; try done. by exists p.
Qed.

Lemma match_with_file_keeps_configuration_witness :
  ∃ v',
    resolveProfile (H := Sample.libraries)
      (Sample.world [Sample.stored] false false Sample.ok)
      "http://localhost:9081"
      (set_profileName "nightly" (Sample.fileOnly "duration: 2m"))
    = (Done tt v', [Fetched "nightly"])
    ∧ testDuration v' = "" ∧ profileID v' = "1b4e28ba"
    ∧ testURL v' = "http://stored.local/".
Proof.
  assert (Hrun : ∃ v',
            resolveProfile (H := Sample.libraries)
              (Sample.world [Sample.stored] false false Sample.ok)
              "http://localhost:9081"
              (set_profileName "nightly" (Sample.fileOnly "duration: 2m"))
            = (Done tt v', [Fetched "nightly"]))
    by (eexists; reflexivity).
  destruct Hrun as [v' Hrun]. exists v'. split; [exact Hrun |].
  destruct (match_with_file_keeps_configuration (H := Sample.libraries)
              (Sample.world [Sample.stored] false false Sample.ok)
              "http://localhost:9081"
              (set_profileName "nightly" (Sample.fileOnly "duration: 2m"))
              [Sample.stored] eq_refl ltac:(discriminate)
              ltac:(discriminate) v' _ Hrun)
    as (_ & _ & _ & _ & _ & Hdur & _ & _ & _
        & p & _ & Honly & _ & Hid & Hend).
  rewrite (Honly Sample.stored eq_refl) in Hid, Hend.
  split; [exact Hdur |]. split; [exact Hid |].
  specialize (Hend eq_refl). by injection Hend as <-.
Defined.


(** ** What profile resolution emits and where it ends *)

Section ResolutionSummary.

Context `{Libraries} (w : World).

(** The trace of profile resolution: the fetch, then at most one question
    and at most one creation request, each only in its branch. *)
Lemma resolveProfile_trace (baseURL : string) (v : Vars) :
  let fetched := fetchPerformanceProfiles w baseURL (profileName v)
                   (pageSize w) (pageNumber w - 1) in
  ∃ questions creations,
    trace (resolveProfile w baseURL v)
    = (Fetched (profileName v) :: questions ++ creations)%list
    ∧ (questions = []
       ∨ questions = [AskedConfirmation (question v)]
         ∧ SilentFlag w = false ∧ fetched = inr []
       ∨ questions = [AskedIndex] ∧ creations = []
         ∧ ∃ profiles, fetched = inr profiles ∧ (2 ≤ length profiles)%nat)
    ∧ (creations = []
       ∨ ∃ req, creations = [Sent req] ∧ sentCreation w baseURL v req
                ∧ fetched = inr []
                ∧ (SilentFlag w = true
                   ∨ AskForConfirmation w (question v) = true)).
Proof.
  cbv zeta.
  assert (Hcreate :
    trace (createAndAdopt w baseURL v) = []
    ∨ ∃ req, trace (createAndAdopt w baseURL v) = [Sent req]
             ∧ sentCreation w baseURL v req).
  { rewrite createAndAdopt_run. simpl.
    destruct (createPerformanceProfile_cases w baseURL v)
      as [[-> _] | (req & Hsent & -> & _)]; eauto. }
  destruct (resolveProfile_cases w baseURL v)
    as [(e & He & ->) | [[Hnone ->] | [(p & Hone & ->)
                                     | (ps & Hps & Hlen & ->)]]].
  - exists [], []. simpl. eauto.
  - destruct (SilentFlag w) eqn:Hsilent.
    + exists [], (trace (createAndAdopt w baseURL v)). simpl.
      split; [done |]. split; [by left |].
      destruct Hcreate as [-> | (req & -> & Hsent)]; [by left |].
      right. exists req. eauto.
    + destruct (AskForConfirmation w (question v)) eqn:Hyes.
      * exists [AskedConfirmation (question v)],
          (trace (createAndAdopt w baseURL v)). simpl.
        split; [done |]. split; [right; left; done |].
        destruct Hcreate as [-> | (req & -> & Hsent)]; [by left |].
        right. exists req. eauto.
      * exists [AskedConfirmation (question v)], []. simpl.
        split; [done |]. split; [right; left; done | by left].
  - exists [], []. simpl. eauto.
  - exists [AskedIndex], []. simpl. split; [done |].
    split; [| by left]. right; right. eauto.
Qed.

(** Where a completed resolution ends: at a profile of the registry's
    answer, or at the profile just created. *)
Lemma resolveProfile_done (baseURL : string) (v v2 : Vars) :
  outcome (resolveProfile w baseURL v) = Done tt v2 →
  (∃ profiles p,
     fetchPerformanceProfiles w baseURL (profileName v) (pageSize w)
       (pageNumber w - 1) = inr profiles
     ∧ p ∈ profiles ∧ afterMatch p v = Some v2
     ∧ Forall notSent (trace (resolveProfile w baseURL v)))
  ∨ (∃ req response,
       fetchPerformanceProfiles w baseURL (profileName v) (pageSize w)
         (pageNumber w - 1) = inr []
       ∧ sentCreation w baseURL v req
       ∧ created w req response
       ∧ Sent req ∈ trace (resolveProfile w baseURL v)
       ∧ v2 = set_profileName (models.Name response)
                (set_profileID (models.ID response) (withDefaults v))).
Proof.
  assert (Hcreate : ∀ t,
    outcome (createAndAdopt w baseURL v) = Done tt v2 →
    ∃ req response,
      sentCreation w baseURL v req ∧ created w req response
      ∧ Sent req ∈ (t ++ trace (createAndAdopt w baseURL v))%list
      ∧ v2 = set_profileName (models.Name response)
               (set_profileID (models.ID response) (withDefaults v))).
  { intros t. rewrite createAndAdopt_run. simpl.
    destruct (createPerformanceProfile_cases w baseURL v)
      as [[_ Hnot] | (req & Hsent & -> & Hdone)].
    - destruct (outcome (createPerformanceProfile w baseURL v)) as [r v'|e|];
        [by destruct (Hnot r v') | done..].
    - destruct (outcome (createPerformanceProfile w baseURL v))
        as [r v'|e|]; [| done..].
      destruct (Hdone r v' eq_refl) as (response & Hcreated & -> & ->).
      simpl. intros [= <-]. exists req, response.
      repeat split; [done.. | set_solver]. }
  destruct (resolveProfile_cases w baseURL v)
    as [(e & He & ->) | [[Hnone ->] | [(p & Hone & ->)
                                     | (ps & Hps & Hlen & ->)]]];
    simpl; [done | | |].
  - intros Hdone. right.
    destruct (SilentFlag w).
    + destruct (Hcreate [Fetched (profileName v)] Hdone)
        as (req & response & ? & ? & ? & ?).
      by exists req, response.
    + destruct (AskForConfirmation w (question v)); [| done].
      destruct (Hcreate [Fetched (profileName v);
                         AskedConfirmation (question v)] Hdone)
        as (req & response & ? & ? & ? & ?).
      by exists req, response.
  - destruct (afterMatch p v) as [v'|] eqn:Hafter; [| done].
    intros [= <-]. left. exists [p], p.
    repeat split; [done | set_solver | done | by repeat constructor].
  - destruct (userPrompt w ps) as [e|index]; [done |].
    destruct (at_index ps index) as [p|] eqn:Hp; [| done].
    destruct (afterMatch p v) as [v'|] eqn:Hafter; [| done].
    intros [= <-]. left. exists ps, p.
    repeat split; [done | | done | by repeat constructor].
    unfold at_index in Hp. destruct (bool_decide (0 ≤ index)); [| done].
    by apply list_elem_of_lookup_2 in Hp.
Qed.

End ResolutionSummary.


(** ** The trace of the command *)

Section CommandTrace.

Context `{Libraries} (w : World).

(** Submission sends nothing and does not complete, or sends exactly the
    run request, to the resolved profile and with a test URL that is there
    and valid. *)
Lemma submit_cases (baseURL : string) (v : Vars) :
  (trace (submit w baseURL v) = []
   ∧ ∀ v', outcome (submit w baseURL v) ≠ Done tt v')
  ∨ ∃ q, trace (submit w baseURL v) = [Sent (GET (runURL baseURL v) q)]
         ∧ buildQuery (URL_Query (runURL baseURL v)) v = Some q
         ∧ testURL v ≠ "" ∧ IsURL (testURL v) = true.
Proof.
  rewrite submit_run.
  destruct (String.eqb_spec (testURL v) ""); [by left |].
  destruct (IsURL (testURL v)) eqn:Hvalid; simpl; [| by left].
  destruct (NewRequest w "GET" _); [by left |].
  destruct (buildQuery _ v) as [q|]; [| by left].
  right. exists q. by rewrite execute_run.
Qed.

(** The trace of the command after a completed preparation: that of the
    resolution, then at most the run request. *)
Lemma RunE_trace (args : list string) (v0 : Vars) (baseURL : string)
    (v1 : Vars) (t1 : list Event) :
  prepare w args v0 = (Done baseURL v1, t1) →
  ∃ runs,
    trace (RunE w args v0)
    = (trace (resolveProfile w baseURL v1) ++ runs)%list
    ∧ (runs = []
       ∨ ∃ v2 q,
           outcome (resolveProfile w baseURL v1) = Done tt v2
           ∧ runs = [Sent (GET (runURL baseURL v2) q)]
           ∧ buildQuery (URL_Query (runURL baseURL v2)) v2 = Some q
           ∧ testURL v2 ≠ "" ∧ IsURL (testURL v2) = true)
    ∧ (∀ v', outcome (RunE w args v0) = Done tt v' → runs ≠ []).
Proof.
  intros Hprep.
  pose proof (prepare_trace w args v0) as Ht1.
  rewrite Hprep in Ht1. simpl in Ht1. subst t1.
  rewrite (RunE_prepared w _ _ _ _ _ Hprep). simpl.
  rewrite trace_bind.
  destruct (outcome (resolveProfile w baseURL v1)) as [[] v2|e|] eqn:Hres.
  - destruct (submit_cases baseURL v2)
      as [[Hnil Hnot] | (q & Hq & ? & ? & ?)].
    + exists []. split; [by rewrite Hnil |]. split; [by left |].
      intros v' Hdone.
      apply bind_Done_inv in Hdone as ([] & v2' & Hres' & Hsub).
      rewrite Hres in Hres'. injection Hres' as <-. by destruct (Hnot v').
    + eexists. split; [by rewrite Hq |].
      split; [right; by exists v2, q | done].
  - exists []. split; [done |]. split; [by left |].
    intros v' Hdone.
    apply bind_Done_inv in Hdone as ([] & v2' & Hres' & _). congruence.
  - exists []. split; [done |]. split; [by left |].
    intros v' Hdone.
    apply bind_Done_inv in Hdone as ([] & v2' & Hres' & _). congruence.
Qed.

End CommandTrace.

(** X3: the order of the command.  Whatever the surroundings answer, the
    command emits nothing at all, or one fetch of the profiles followed by
    at most one question to the user, at most one creation request and at
    most one run request, in this order; and when it completes, the run
    request is the last thing it did. *)
Theorem command_trace_is_orderly `{Libraries} (w : World)
    (args : list string) (v0 : Vars) :
  (trace (RunE w args v0) = [] ∨ orderly (trace (RunE w args v0)))
  ∧ (∀ v', outcome (RunE w args v0) = Done tt v' →
           ∃ t url q,
             trace (RunE w args v0) = (t ++ [Sent (GET url q)])%list).
Proof.
  destruct (RunE_cases w args v0)
    as [(Hnil & Hnot & _) | (baseURL & v1 & Hprep & _)].
  { split; [by left |]. intros v' Hdone. by destruct (Hnot v'). }
  destruct (RunE_trace w args v0 baseURL v1 [] Hprep)
    as (runs & Htrace & Hruns & Hdone).
  destruct (resolveProfile_trace w baseURL v1)
    as (questions & creations & Hres & Hq & Hc).
  split.
  - right. exists (profileName v1), questions, creations, runs.
    rewrite Htrace, Hres. split; [simpl; by rewrite <- app_assoc |].
    split; [| split; [| split; [| split; [| split]]]].
    + destruct Hq as [-> | [(-> & _) | (-> & _)]]; simpl; lia.
    + destruct Hq as [-> | [(-> & _) | (-> & _)]]; by repeat constructor.
    + destruct Hc as [-> | (req & -> & _)]; simpl; lia.
    + destruct Hc as [-> | (req & -> & (c & q & _ & _ & _ & _ & _ & _ & ->)
                                   & _)]; by repeat constructor.
    + destruct Hruns as [-> | (v2 & q & _ & -> & _)]; simpl; lia.
    + destruct Hruns as [-> | (v2 & q & _ & -> & _)]; by repeat constructor.
  - intros v' Hv'. specialize (Hdone v' Hv').
    destruct Hruns as [-> | (v2 & q & _ & -> & _)]; [done |].
    rewrite Htrace. eauto.
Qed.

Lemma command_trace_is_orderly_witness :
  ∃ t url q,
    trace (RunE (H := Sample.libraries)
             (Sample.world [] true false Sample.ok) ["fresh"]
             (set_testURL "https://example.org/" Sample.noFlags))
    = (t ++ [Sent (GET url q)])%list.
Proof.
  assert (Hdone : ∃ v',
            outcome (RunE (H := Sample.libraries)
                       (Sample.world [] true false Sample.ok) ["fresh"]
                       (set_testURL "https://example.org/" Sample.noFlags))
            = Done tt v')
    by (eexists; vm_compute; reflexivity).
  destruct Hdone as [v' Hdone].
  exact (proj2
    (command_trace_is_orderly (H := Sample.libraries)
       (Sample.world [] true false Sample.ok) ["fresh"]
       (set_testURL "https://example.org/" Sample.noFlags)) v' Hdone).
Defined.

(** X4: questions and creation stay in their branch.  After a completed
    preparation, the confirmation question is put only when the registry
    has no profile of the name and silent mode is off; the index is asked
    for only when it has at least two; and a creation request is sent only
    when it has none and silent mode or the user said yes. *)
Theorem questions_and_creation_only_in_branch `{Libraries} (w : World)
    (args : list string) (v0 : Vars) (baseURL : string) (v1 : Vars)
    (t1 : list Event) :
  prepare w args v0 = (Done baseURL v1, t1) →
  let fetched := fetchPerformanceProfiles w baseURL (profileName v1)
                   (pageSize w) (pageNumber w - 1) in
  (∀ m, AskedConfirmation m ∈ trace (RunE w args v0) →
        m = question v1 ∧ fetched = inr [] ∧ SilentFlag w = false)
  ∧ (AskedIndex ∈ trace (RunE w args v0) →
     ∃ profiles, fetched = inr profiles ∧ (2 ≤ length profiles)%nat)
  ∧ (∀ url body, Sent (POST url body) ∈ trace (RunE w args v0) →
        fetched = inr []
        ∧ (SilentFlag w = true
           ∨ AskForConfirmation w (question v1) = true)).
Proof.
  intros Hprep. cbv zeta.
  destruct (RunE_trace w args v0 baseURL v1 t1 Hprep)
    as (runs & -> & Hruns & _).
  destruct (resolveProfile_trace w baseURL v1)
    as (questions & creations & -> & Hq & Hc).
  assert (Hrun : ∀ ev, ev ∈ runs → ∃ url q, ev = Sent (GET url q)).
  { intros ev. destruct Hruns as [-> | (v2 & q & _ & -> & _)];
      [by intros ?%elem_of_nil |].
    intros ->%list_elem_of_singleton. eauto. }
  assert (Hcr : ∀ ev, ev ∈ creations →
            ∃ url body, ev = Sent (POST url body)).
  { intros ev. destruct Hc as [-> | (req & -> & Hsent & _)];
      [by intros ?%elem_of_nil |].
    intros ->%list_elem_of_singleton.
    destruct Hsent as (c & q & _ & _ & _ & _ & _ & _ & ->). eauto. }
  assert (Hsplit : ∀ ev,
            ev ∈ ((Fetched (profileName v1) :: questions ++ creations)
                    ++ runs)%list →
            ev = Fetched (profileName v1) ∨ ev ∈ questions
            ∨ ev ∈ creations ∨ ev ∈ runs).
  { intros ev. rewrite elem_of_app, elem_of_cons, elem_of_app. tauto. }
  split; [| split].
  - intros m [Heq | [Hin | [Hin | Hin]]]%Hsplit; [done | | |].
    + destruct Hq as [-> | [(-> & ? & ?) | (-> & _)]];
        [by apply elem_of_nil in Hin | |].
      * by apply list_elem_of_singleton in Hin as [= ->].
      * by apply list_elem_of_singleton in Hin.
    + by apply Hcr in Hin as (? & ? & ?).
    + by apply Hrun in Hin as (? & ? & ?).
  - intros [Heq | [Hin | [Hin | Hin]]]%Hsplit; [done | | |].
    + destruct Hq as [-> | [(-> & ? & ?) | (-> & _ & Hps)]];
        [by apply elem_of_nil in Hin | | done].
      by apply list_elem_of_singleton in Hin.
    + by apply Hcr in Hin as (? & ? & ?).
    + by apply Hrun in Hin as (? & ? & ?).
  - intros url body [Heq | [Hin | [Hin | Hin]]]%Hsplit; [done | | |].
    + destruct Hq as [-> | [(-> & ? & ?) | (-> & _)]];
        [by apply elem_of_nil in Hin | |];
        by apply list_elem_of_singleton in Hin.
    + destruct Hc as [-> | (req & -> & _ & ? & ?)];
        [by apply elem_of_nil in Hin | done].
    + by apply Hrun in Hin as (? & ? & ?).
Qed.

Lemma questions_and_creation_only_in_branch_witness :
  fetchPerformanceProfiles
    (Sample.world [] false true Sample.ok) "http://localhost:9081"
    "fresh" 25 (1 - 1) = inr []
  ∧ (SilentFlag (Sample.world [] false true Sample.ok) = true
     ∨ AskForConfirmation (Sample.world [] false true Sample.ok)
         (question (set_profileName "fresh"
                      (set_testName "qwertyui"
                         (set_testURL "https://example.org/"
                            Sample.noFlags)))) = true).
Proof.
  refine (proj2 (proj2
    (questions_and_creation_only_in_branch (H := Sample.libraries)
       (Sample.world [] false true Sample.ok)
       ["fresh"] (set_testURL "https://example.org/" Sample.noFlags)
       "http://localhost:9081"
       (set_profileName "fresh"
          (set_testName "qwertyui"
             (set_testURL "https://example.org/" Sample.noFlags)))
       [] eq_refl))
    "http://localhost:9081/api/user/performance/profiles"
    (creationValues 1 0
       (withDefaults
          (set_profileName "fresh"
             (set_testName "qwertyui"
                (set_testURL "https://example.org/" Sample.noFlags)))))
    _).
  vm_compute. apply list_elem_of_further, list_elem_of_further,
    list_elem_of_here.
Defined.


(** ** The query of the run request *)

(** The run request of one match: its URL has no query of its own. *)
Example matched_run_request :
  ∃ q,
    trace (RunE (H := Sample.libraries)
             (Sample.world [Sample.stored] false false Sample.ok)
             ["nightly"] (Sample.allFlags ""))
    = [Fetched "nightly";
       Sent (GET "http://localhost:9081/api/user/performance/profiles/1b4e28ba/run"
               q)].
Proof. eexists. vm_compute. reflexivity. Qed.

(** A value added to a key that the request URL does not have is the only
    value of the key. *)
Lemma added_alone (q0 q : gmap string (list string)) (key value : string) :
  added q0 q key value → q0 !! key = None → q !! key = Some [value].
Proof. unfold added, valuesOf. by intros -> ->. Qed.

(** The value that the command added is the last of the key. *)
Lemma added_last (q0 q : gmap string (list string)) (key value : string) :
  added q0 q key value → ∃ values, q !! key = Some values
                                   ∧ last values = Some value.
Proof. intros Hq. eexists. split; [exact Hq |]. apply last_snoc. Qed.

Lemma buildQuery_fields (q0 : gmap string (list string)) (v : Vars)
    (q : gmap string (list string)) :
  buildQuery q0 v = Some q →
  added q0 q "name" (testName v)
  ∧ added q0 q "loadGenerator" (loadGenerator v)
  ∧ added q0 q "c" (concurrentRequests v)
  ∧ added q0 q "url" (testURL v)
  ∧ added q0 q "qps" (qps v)
  ∧ (∃ pre ch,
       testDuration v = pre ++ String ch ""
       ∧ added q0 q "t" pre ∧ added q0 q "dur" (GoString.of_byte ch))
  ∧ (if String.eqb (testMesh v) "" then q !! "mesh" = q0 !! "mesh"
     else added q0 q "mesh" (testMesh v))
  ∧ dom q = dom q0 ∪ runKeys ∪ (if String.eqb (testMesh v) "" then ∅
                                 else {["mesh"]})
  ∧ (∀ key, key ∉ runKeys → key ≠ "mesh" → q !! key = q0 !! key).
Proof.
  destruct (decide (testDuration v = "")) as [Hd|Hd];
    [by rewrite buildQuery_empty_duration |].
  apply snoc_inv in Hd as (pre & ch & Hd). unfold buildQuery.
  rewrite Hd, index_last, slice_to_last. intros [= <-].
  destruct (String.eqb (testMesh v) "");
    split_fields;
    first [ by (unfold added; query_lookup)
          | by (exists pre, ch; unfold added; query_lookup)
          | (unfold Values.Add, runKeys;
             rewrite !dom_insert_L; set_unfold; intros key; tauto)
          | (intros key Hkey Hmesh; unfold Values.Add;
             repeat (rewrite lookup_insert_ne;
                     [| intros <-;
                        first [ done
                              | apply Hkey; unfold runKeys;
                                set_unfold; tauto ]]);
             done) ].
Qed.

(** X5: the shape of the query.  A query that is built has the parameters
    of the query of the request URL and name, loadGenerator, c, url, qps,
    dur and t, and mesh when the service-mesh name is not empty.  To each
    of its parameters the command adds one value after those that the URL
    has for it, the variable it is named after, t and dur being the
    duration without its last byte and the conversion of that byte; every
    other parameter is as the URL has it.  When the URL has no query, the
    parameters are exactly those of the command, each with one value. *)
Theorem run_query_shape (q0 : gmap string (list string)) (v : Vars)
    (q : gmap string (list string)) :
  buildQuery q0 v = Some q →
  dom q = dom q0 ∪ runKeys ∪ (if String.eqb (testMesh v) "" then ∅
                               else {["mesh"]})
  ∧ (∀ key, key ∉ runKeys → (key = "mesh" → testMesh v = "") →
            q !! key = q0 !! key)
  ∧ added q0 q "name" (testName v)
  ∧ added q0 q "loadGenerator" (loadGenerator v)
  ∧ added q0 q "c" (concurrentRequests v)
  ∧ added q0 q "url" (testURL v)
  ∧ added q0 q "qps" (qps v)
  ∧ (testMesh v ≠ "" → added q0 q "mesh" (testMesh v))
  ∧ (∃ pre ch,
       testDuration v = pre ++ String ch ""
       ∧ added q0 q "t" pre ∧ added q0 q "dur" (GoString.of_byte ch))
  ∧ (q0 = ∅ →
     dom q = runKeys ∪ (if String.eqb (testMesh v) "" then ∅
                        else {["mesh"]})
     ∧ ∀ key values, q !! key = Some values → length values = 1%nat).
Proof.
  intros Hq.
  destruct (buildQuery_fields q0 v q Hq)
    as (Hname & Hlg & Hc & Hurl & Hqps & (pre & ch & Hd & Ht & Hdur)
        & Hmesh & Hdom & Hother).
  split; [done |]. split.
  { intros key Hkey Hm. destruct (decide (key = "mesh")) as [->|Hne].
    - apply String.eqb_eq in Hm; [| done]. by rewrite Hm in Hmesh.
    - by apply Hother. }
  split_fields; try done.
  - intros Hm%String.eqb_neq. by rewrite Hm in Hmesh.
  - by exists pre, ch.
  - intros ->. rewrite dom_empty_L, (left_id_L ∅ (∪)) in Hdom.
    split; [done |].
    intros key values Hkey.
    assert (Hin : key ∈ dom q) by (apply elem_of_dom; eauto).
    rewrite Hdom in Hin. unfold runKeys in Hin.
    assert (Hcases : key = "name" ∨ key = "loadGenerator" ∨ key = "c"
                     ∨ key = "url" ∨ key = "qps" ∨ key = "dur"
                     ∨ key = "t" ∨ (key = "mesh" ∧ testMesh v ≠ "")).
    { destruct (String.eqb_spec (testMesh v) ""); set_unfold in Hin; tauto. }
    unfold added, valuesOf in *. rewrite !lookup_empty in *. simpl in *.
    destruct Hcases as [-> | [-> | [-> | [-> | [-> | [-> | [-> | [-> Hm]]]]]]]];
      try (by simplify_eq).
    apply String.eqb_neq in Hm. rewrite Hm in Hmesh. by simplify_eq.
Qed.

Lemma run_query_shape_witness :
  ∃ q, buildQuery (Sample.query "http://localhost:9081/?ctx=a")
         (Sample.allFlags "") = Some q
       ∧ dom q = dom (Sample.query "http://localhost:9081/?ctx=a")
                 ∪ runKeys ∪ {["mesh"]}
       ∧ added (Sample.query "http://localhost:9081/?ctx=a") q "mesh"
           "consul".
Proof.
  assert (Hq : ∃ q, buildQuery (Sample.query "http://localhost:9081/?ctx=a")
                      (Sample.allFlags "") = Some q)
    by (eexists; reflexivity).
  destruct Hq as [q Hq]. exists q. split; [exact Hq |].
  destruct (run_query_shape _ (Sample.allFlags "") q Hq)
    as (Hdom & _ & _ & _ & _ & _ & _ & Hmesh & _).
  split; [exact Hdom | apply Hmesh; discriminate].
Defined.


(** ** The requests of the command *)

Section Requests.

Context `{Libraries} (w : World).

(** Every event of the command, after a completed preparation. *)
Lemma RunE_event (args : list string) (v0 : Vars) (baseURL : string)
    (v1 : Vars) (t1 : list Event) (ev : Event) :
  prepare w args v0 = (Done baseURL v1, t1) →
  ev ∈ trace (RunE w args v0) →
  ev = Fetched (profileName v1)
  ∨ ev = AskedConfirmation (question v1)
  ∨ ev = AskedIndex
  ∨ (∃ req, ev = Sent req ∧ sentCreation w baseURL v1 req
            ∧ Sent req ∈ trace (resolveProfile w baseURL v1))
  ∨ (∃ v2 q,
       outcome (resolveProfile w baseURL v1) = Done tt v2
       ∧ ev = Sent (GET (runURL baseURL v2) q)
       ∧ buildQuery (URL_Query (runURL baseURL v2)) v2 = Some q
       ∧ testURL v2 ≠ "" ∧ IsURL (testURL v2) = true).
Proof.
  intros Hprep.
  destruct (RunE_trace w args v0 baseURL v1 t1 Hprep)
    as (runs & -> & Hruns & _).
  destruct (resolveProfile_trace w baseURL v1)
    as (questions & creations & Hres & Hq & Hc).
  rewrite Hres, elem_of_app, elem_of_cons, elem_of_app.
  intros [[-> | [Hin | Hin]] | Hin].
  - by left.
  - destruct Hq as [-> | [(-> & _) | (-> & _)]];
      [by apply elem_of_nil in Hin | |];
      apply list_elem_of_singleton in Hin as ->; tauto.
  - destruct Hc as [-> | (req & -> & Hsent & _)];
      [by apply elem_of_nil in Hin |].
    apply list_elem_of_singleton in Hin as ->.
    right; right; right; left. exists req. repeat split; [done |].
    rewrite elem_of_cons, elem_of_app, list_elem_of_singleton. tauto.
  - destruct Hruns as [-> | (v2 & q & ? & -> & ? & ? & ?)];
      [by apply elem_of_nil in Hin |].
    apply list_elem_of_singleton in Hin as ->.
    right; right; right; right. by exists v2, q.
Qed.

End Requests.

Lemma sentCreation_endpoints `{Libraries} (w : World) (baseURL : string)
    (v : Vars) (url : string) (body : gmap string JSON) :
  sentCreation w baseURL v (POST url body) →
  url = createURL baseURL
  ∧ testURL v ≠ "" ∧ IsURL (testURL v) = true
  ∧ body !! "endpoints" = Some (JStrings [testURL v]).
Proof.
  intros (c & q & _ & Hurl & Hvalid & _ & _ & _ & [= -> ->]).
  split; [done |]. split; [done |]. split; [done |].
  pose proof (creationValues_lookup c q (withDefaults v)) as Hlookup.
  cbv zeta in Hlookup. by destruct Hlookup as (_ & _ & _ & _ & _ & _ & ?).
Qed.

(** X6: no request without a valid test URL.  Every request the command
    sends carries a test URL that is not empty and that the URL check
    accepts: the creation request as its endpoints, the run request as
    the value that the command adds to the url parameter, after the
    values that the query of the request URL has for it. *)
Theorem every_request_carries_valid_url `{Libraries} (w : World)
    (args : list string) (v0 : Vars) (req : Request) :
  Sent req ∈ trace (RunE w args v0) →
  ∃ u, u ≠ "" ∧ IsURL u = true
       ∧ match req with
         | POST _ body => body !! "endpoints" = Some (JStrings [u])
         | GET url q => added (URL_Query url) q "url" u
         end.
Proof.
  intros Hin.
  destruct (RunE_cases w args v0)
    as [(Hnil & _) | (baseURL & v1 & Hprep & _)];
    [rewrite Hnil in Hin; by apply elem_of_nil in Hin |].
  destruct (RunE_event w args v0 baseURL v1 [] _ Hprep Hin)
    as [[=] | [[=] | [[=] | [(req' & [= <-] & Hsent & _)
                            | (v2 & q & _ & [= ->] & Hq & Hu & Hvalid)]]]].
  - destruct req as [url body|url q].
    + destruct (sentCreation_endpoints _ _ _ _ _ Hsent) as (_ & ? & ? & ?).
      by exists (testURL v1).
    + by destruct Hsent as (? & ? & _ & _ & _ & _ & _ & _ & [=]).
  - exists (testURL v2). repeat split; [done.. |].
    by destruct (buildQuery_fields _ v2 q Hq) as (_ & _ & _ & ? & _).
Qed.

Lemma every_request_carries_valid_url_witness :
  ∃ u, u ≠ "" ∧ IsURL (Libraries := Sample.libraries) u = true
       ∧ creationValues 1 0
           (withDefaults
              (set_profileName "fresh"
                 (set_testName "qwertyui"
                    (set_testURL "https://example.org/" Sample.noFlags))))
         !! "endpoints" = Some (JStrings [u]).
Proof.
  refine (every_request_carries_valid_url (H := Sample.libraries)
            (Sample.world [] false true Sample.ok) ["fresh"]
            (set_testURL "https://example.org/" Sample.noFlags)
            (POST "http://localhost:9081/api/user/performance/profiles"
               (creationValues 1 0
                  (withDefaults
                     (set_profileName "fresh"
                        (set_testName "qwertyui"
                           (set_testURL "https://example.org/"
                              Sample.noFlags))))))
            _).
  vm_compute. apply list_elem_of_further, list_elem_of_further,
    list_elem_of_here.
Defined.

(** X7: the run request goes to the resolved profile.  After a completed
    preparation, the URL of every run request is the base URL, the
    profiles path, an identifier and [/run], and the identifier is that of
    a profile the registry returned for the name or, when it returned
    none, that of the profile in the response to the creation request the
    command has sent. *)
Theorem run_request_goes_to_resolved_profile `{Libraries} (w : World)
    (args : list string) (v0 : Vars) (baseURL : string) (v1 : Vars)
    (t1 : list Event) (url : string) (q : gmap string (list string)) :
  prepare w args v0 = (Done baseURL v1, t1) →
  Sent (GET url q) ∈ trace (RunE w args v0) →
  ∃ p,
    url = baseURL ++ "/api/user/performance/profiles/" ++ models.ID p
          ++ "/run"
    ∧ ((∃ profiles,
          fetchPerformanceProfiles w baseURL (profileName v1) (pageSize w)
            (pageNumber w - 1) = inr profiles
          ∧ p ∈ profiles)
       ∨ (fetchPerformanceProfiles w baseURL (profileName v1) (pageSize w)
            (pageNumber w - 1) = inr []
          ∧ ∃ req, Sent req ∈ trace (RunE w args v0) ∧ created w req p)).
Proof.
  intros Hprep Hin.
  destruct (RunE_event w args v0 baseURL v1 t1 _ Hprep Hin)
    as [[=] | [[=] | [[=] | [(req' & [= <-] & Hsent & _)
                            | (v2 & q' & Hres & [= -> ->] & _)]]]].
  { by destruct Hsent as (? & ? & _ & _ & _ & _ & _ & _ & [=]). }
  destruct (resolveProfile_done w baseURL v1 v2 Hres)
    as [(profiles & p & Hfetch & Hp & Hafter & _)
       | (req & response & Hfetch & _ & Hcreated & Hreq & ->)].
  - exists p. split; [| left; eauto].
    destruct (afterMatch_fields _ _ _ Hafter) as (Hid & _).
    unfold runURL. by rewrite Hid.
  - exists response. split; [done |]. right. split; [done |].
    exists req. split; [| done].
    destruct (RunE_trace w args v0 baseURL v1 t1 Hprep) as (runs & -> & _).
    apply elem_of_app. by left.
Qed.

Lemma run_request_goes_to_resolved_profile_witness :
  ∃ p,
    "http://localhost:9081/api/user/performance/profiles/1b4e28ba/run"
    = "http://localhost:9081" ++ "/api/user/performance/profiles/"
      ++ models.ID p ++ "/run"
    ∧ p ∈ [Sample.stored].
Proof.
  destruct flags_overwritten_by_profile as (url & q & Htrace & _).
  assert (Hurl : url = "http://localhost:9081/api/user/performance/profiles/1b4e28ba/run").
  { vm_compute in Htrace. by injection Htrace as ->. }
  subst url.
  destruct (run_request_goes_to_resolved_profile (H := Sample.libraries)
              (Sample.world [Sample.stored] false false Sample.ok)
              ["nightly"] (Sample.allFlags "") "http://localhost:9081"
              (set_profileName "nightly" (Sample.allFlags "")) []
              "http://localhost:9081/api/user/performance/profiles/1b4e28ba/run"
              q eq_refl)
    as (p & Hp & [(profiles & Hfetch & Hmem) | (Hfetch & _)]).
  - rewrite Htrace. apply list_elem_of_further, list_elem_of_here.
  - exists p. split; [exact Hp |]. by injection Hfetch as <-.
  - discriminate Hfetch.
Defined.


(** ** Creation and what follows it *)

Lemma orDefault_nonempty (x d : string) : d ≠ "" → orDefault x d ≠ "".
Proof. intros Hd. unfold orDefault. by destruct (String.eqb_spec x ""). Qed.

(** X8: a number that does not convert stops creation.  Past the checks of
    name and URL, a concurrent-requests value (after its default) that is
    not a decimal integer makes profile creation fail with its conversion
    error, and then a QPS value that is not one with the other; nothing is
    sent in either case, and a creation request that is sent carries the
    two numbers as converted. *)
Theorem creation_converts_before_sending `{Libraries} (w : World)
    (baseURL : string) (v : Vars) :
  profileName v ≠ "" →
  testURL v ≠ "" →
  IsURL (testURL v) = true →
  (strconv.Atoi (orDefault (concurrentRequests v) "1") = None →
   createPerformanceProfile w baseURL v
   = (Failed ErrConvConcurrentRequest, []))
  ∧ (is_Some (strconv.Atoi (orDefault (concurrentRequests v) "1")) →
     strconv.Atoi (orDefault (qps v) "0") = None →
     createPerformanceProfile w baseURL v = (Failed ErrConvQPS, []))
  ∧ (∀ url body,
       Sent (POST url body) ∈ trace (createPerformanceProfile w baseURL v) →
       ∃ convReq convQPS,
         strconv.Atoi (orDefault (concurrentRequests v) "1") = Some convReq
         ∧ strconv.Atoi (orDefault (qps v) "0") = Some convQPS
         ∧ body !! "concurrent_request" = Some (JInt convReq)
         ∧ body !! "qps" = Some (JInt convQPS)).
Proof.
  intros Hname%String.eqb_neq Hurl%String.eqb_neq Hvalid.
  rewrite createPerformanceProfile_run, Hname, Hurl, Hvalid. simpl.
  split; [by intros -> |]. split; [by intros [c ->] -> |].
  intros url body.
  destruct (strconv.Atoi (orDefault (concurrentRequests v) "1"))
    as [convReq|]; [| by intros ?%elem_of_nil].
  destruct (strconv.Atoi (orDefault (qps v) "0")) as [convQPS|];
    [| by intros ?%elem_of_nil].
  destruct (NewRequest w "POST" _); [by intros ?%elem_of_nil |].
  pose proof (creationValues_lookup convReq convQPS (withDefaults v))
    as Hlookup.
  cbv zeta in Hlookup. destruct Hlookup as (_ & ? & ? & _).
  simpl. intros [= _ ->]%list_elem_of_singleton.
  by exists convReq, convQPS.
Qed.

Lemma creation_converts_before_sending_witness :
  createPerformanceProfile (H := Sample.libraries)
    (Sample.world [] false true Sample.ok) "http://localhost:9081"
    (set_qps "fast" (set_profileName "fresh"
                       (set_testURL "https://example.org/" Sample.noFlags)))
  = (Failed ErrConvQPS, []).
Proof.
  refine (proj1 (proj2
    (creation_converts_before_sending (H := Sample.libraries)
       (Sample.world [] false true Sample.ok) "http://localhost:9081"
       (set_qps "fast" (set_profileName "fresh"
                          (set_testURL "https://example.org/"
                             Sample.noFlags)))
       _ _ _)) _ _);
    [discriminate | discriminate | reflexivity | by eexists | reflexivity].
Defined.

(** X9: the response to the creation request.  Once the creation request
    is sent, a transport failure is the failed-request error, a status
    other than 200 the failed-status error with that status, an unreadable
    body or a body that does not decode their own errors; and a 200
    response that decodes to a profile completes creation with that
    profile's identifier and name, returned and stored in the variables,
    the other variables being the defaulted ones. *)
Theorem creation_response_decides `{Libraries} (w : World)
    (baseURL : string) (v : Vars) (req : Request) :
  Sent req ∈ trace (createPerformanceProfile w baseURL v) →
  trace (createPerformanceProfile w baseURL v) = [Sent req]
  ∧ (Do w req = None →
     outcome (createPerformanceProfile w baseURL v) = Failed ErrFailRequest)
  ∧ (∀ resp,
       Do w req = Some resp →
       (StatusCode resp ≠ 200 →
        outcome (createPerformanceProfile w baseURL v)
        = Failed (ErrFailReqStatus (StatusCode resp)))
       ∧ (StatusCode resp = 200 → Body resp = None →
          outcome (createPerformanceProfile w baseURL v)
          = Failed ErrReadBody)
       ∧ (∀ body,
            StatusCode resp = 200 → Body resp = Some body →
            (json_Unmarshal body = None →
             outcome (createPerformanceProfile w baseURL v)
             = Failed ErrFailUnmarshal)
            ∧ (∀ response,
                 json_Unmarshal body = Some (Some response) →
                 outcome (createPerformanceProfile w baseURL v)
                 = Done (models.ID response, models.Name response)
                     (set_profileName (models.Name response)
                        (set_profileID (models.ID response)
                           (withDefaults v)))))).
Proof.
  rewrite createPerformanceProfile_run.
  destruct (String.eqb (profileName v) ""); [by intros ?%elem_of_nil |].
  destruct (String.eqb (testURL v) ""); [by intros ?%elem_of_nil |].
  destruct (negb (IsURL (testURL v))); [by intros ?%elem_of_nil |].
  cbv zeta.
  destruct (strconv.Atoi (concurrentRequests (withDefaults v)))
    as [convReq|]; [| by intros ?%elem_of_nil].
  destruct (strconv.Atoi (qps (withDefaults v))) as [convQPS|];
    [| by intros ?%elem_of_nil].
  destruct (NewRequest w "POST" _); [by intros ?%elem_of_nil |].
  unfold trace, outcome. simpl. intros [= ->]%list_elem_of_singleton.
  split; [done |]. split; [by intros -> |].
  intros resp ->. split; [| split].
  - intros Hcode. by destruct (Z.eqb_spec (StatusCode resp) 200).
  - intros -> ->. done.
  - intros body -> ->. simpl. split; [by intros -> | by intros response ->].
Qed.

Lemma creation_response_decides_witness :
  outcome
    (createPerformanceProfile (H := Sample.libraries)
       (Sample.world [] false true
          {| StatusCode := 503; ContentType := "text/plain";
             Body := Some "unavailable" |})
       "http://localhost:9081"
       (set_profileName "fresh"
          (set_testURL "https://example.org/" Sample.noFlags)))
  = Failed (ErrFailReqStatus 503).
Proof.
  refine (proj1 (proj2 (proj2
    (creation_response_decides (H := Sample.libraries)
       (Sample.world [] false true
          {| StatusCode := 503; ContentType := "text/plain";
             Body := Some "unavailable" |})
       "http://localhost:9081"
       (set_profileName "fresh"
          (set_testURL "https://example.org/" Sample.noFlags))
       (POST "http://localhost:9081/api/user/performance/profiles"
          (creationValues 1 0
             (withDefaults
                (set_profileName "fresh"
                   (set_testURL "https://example.org/" Sample.noFlags)))))
       _))
    {| StatusCode := 503; ContentType := "text/plain";
       Body := Some "unavailable" |} eq_refl) _);
    [vm_compute; apply list_elem_of_here | discriminate].
Defined.

Section Agreement.

Context `{Libraries} (w : World).

(** The variables of a run request that follows a creation request. *)
Lemma run_after_creation (args : list string) (v0 : Vars)
    (baseURL : string) (v1 : Vars) (t1 : list Event)
    (url url' : string) (body : gmap string JSON)
    (q : gmap string (list string)) :
  prepare w args v0 = (Done baseURL v1, t1) →
  Sent (POST url body) ∈ trace (RunE w args v0) →
  Sent (GET url' q) ∈ trace (RunE w args v0) →
  sentCreation w baseURL v1 (POST url body)
  ∧ ∃ response,
      buildQuery (URL_Query url')
        (set_profileName (models.Name response)
           (set_profileID (models.ID response) (withDefaults v1)))
      = Some q.
Proof.
  intros Hprep Hpost Hget.
  destruct (RunE_event w args v0 baseURL v1 t1 _ Hprep Hpost)
    as [[=] | [[=] | [[=] | [(req' & [= <-] & Hsent & Hin)
                            | (? & ? & _ & [=] & _)]]]].
  split; [done |].
  destruct (RunE_event w args v0 baseURL v1 t1 _ Hprep Hget)
    as [[=] | [[=] | [[=] | [(req' & [= <-] & Hsent' & _)
                            | (v2 & q' & Hres & [= -> <-] & Hq & _)]]]].
  { by destruct Hsent' as (? & ? & _ & _ & _ & _ & _ & _ & [=]). }
  destruct (resolveProfile_done w baseURL v1 v2 Hres)
    as [(profiles & p & _ & _ & _ & Hquiet)
       | (req & response & _ & _ & _ & _ & Hv2)].
  - rewrite Forall_forall in Hquiet. by apply Hquiet in Hin.
  - exists response. by rewrite <- Hv2.
Qed.

End Agreement.

(** X10: the run request repeats the creation request.  When the command
    has sent both, the values that the command adds to the query of the
    run request are the load generator, service mesh and test URL of the
    values marshalled into the creation body, concurrency and QPS as the
    strings whose conversions these values have, and their duration split
    into t and dur; the command always adds the service mesh on this
    path.  Each is added after the values that the query of the request
    URL has for the parameter, so it is the parameter's last value, and
    its only one when the URL has no such parameter. *)
Theorem run_request_repeats_creation `{Libraries} (w : World)
    (args : list string) (v0 : Vars) (baseURL : string) (v1 : Vars)
    (t1 : list Event) (url url' : string) (body : gmap string JSON)
    (q : gmap string (list string)) :
  prepare w args v0 = (Done baseURL v1, t1) →
  Sent (POST url body) ∈ trace (RunE w args v0) →
  Sent (GET url' q) ∈ trace (RunE w args v0) →
  ∃ lg mesh u conc nconc rate nrate D pre ch,
    body !! "load_generators" = Some (JStrings [lg])
    ∧ added (URL_Query url') q "loadGenerator" lg
    ∧ body !! "service_mesh" = Some (JString mesh)
    ∧ added (URL_Query url') q "mesh" mesh
    ∧ body !! "endpoints" = Some (JStrings [u])
    ∧ added (URL_Query url') q "url" u
    ∧ body !! "concurrent_request" = Some (JInt nconc)
    ∧ added (URL_Query url') q "c" conc ∧ strconv.Atoi conc = Some nconc
    ∧ body !! "qps" = Some (JInt nrate)
    ∧ added (URL_Query url') q "qps" rate ∧ strconv.Atoi rate = Some nrate
    ∧ body !! "duration" = Some (JString D)
    ∧ D = pre ++ String ch ""
    ∧ added (URL_Query url') q "t" pre
    ∧ added (URL_Query url') q "dur" (GoString.of_byte ch).
Proof.
  intros Hprep Hpost Hget.
  destruct (run_after_creation w args v0 baseURL v1 t1 url url' body q
              Hprep Hpost Hget)
    as ((c & r & _ & _ & _ & Hc & Hr & _ & [= _ ->]) & response & Hq).
  destruct (buildQuery_fields _ _ _ Hq)
    as (_ & Hlg & Hconc & Hurl & Hqps & (pre & ch & Hd & Ht & Hdur)
        & Hmesh & _).
  simpl in *.
  pose proof (creationValues_lookup c r (withDefaults v1)) as Hlookup.
  cbv zeta in Hlookup. destruct Hlookup as (? & ? & ? & ? & ? & _ & ?).
  assert (Hm : String.eqb (orDefault (testMesh v1) "None") "" = false)
    by by apply String.eqb_neq, orDefault_nonempty.
  rewrite Hm in Hmesh.
  exists (orDefault (loadGenerator v1) "fortio"),
    (orDefault (testMesh v1) "None"), (testURL v1),
    (orDefault (concurrentRequests v1) "1"), c,
    (orDefault (qps v1) "0"), r,
    (orDefault (testDuration v1) "30s"), pre, ch.
  by repeat split.
Qed.

Lemma run_request_repeats_creation_witness :
  ∃ url url' body q,
    trace (RunE (H := Sample.libraries)
             (Sample.world [] true false Sample.ok) ["fresh"]
             (set_testURL "https://example.org/" Sample.noFlags))
    = [Fetched "fresh"; Sent (POST url body); Sent (GET url' q)]
    ∧ body !! "load_generators" = Some (JStrings ["fortio"])
    ∧ q !! "loadGenerator" = Some ["fortio"]
    ∧ ∃ mesh, body !! "service_mesh" = Some (JString mesh)
              ∧ added (Sample.query url') q "mesh" mesh.
Proof.
  assert (Htrace : ∃ url url' body q,
            trace (RunE (H := Sample.libraries)
                     (Sample.world [] true false Sample.ok) ["fresh"]
                     (set_testURL "https://example.org/" Sample.noFlags))
            = [Fetched "fresh"; Sent (POST url body); Sent (GET url' q)]
            ∧ body !! "load_generators" = Some (JStrings ["fortio"])
            ∧ q !! "loadGenerator" = Some ["fortio"]).
  { eexists _, _, _, _. split; [vm_compute; reflexivity | by split]. }
  destruct Htrace as (url & url' & body & q & Htrace & Hbody & Hq).
  exists url, url', body, q. split; [exact Htrace |].
  split; [exact Hbody |]. split; [exact Hq |].
  destruct (run_request_repeats_creation (H := Sample.libraries)
              (Sample.world [] true false Sample.ok) ["fresh"]
              (set_testURL "https://example.org/" Sample.noFlags)
              "http://localhost:9081"
              (set_profileName "fresh"
                 (set_testName "qwertyui"
                    (set_testURL "https://example.org/" Sample.noFlags)))
              [] url url' body q eq_refl)
    as (lg & mesh & u & conc & nconc & rate & nrate & D & pre & ch
        & _ & _ & Hmesh & Hqmesh & _).
  - rewrite Htrace. apply list_elem_of_further, list_elem_of_here.
  - rewrite Htrace.
    apply list_elem_of_further, list_elem_of_further, list_elem_of_here.
  - by exists mesh.
Defined.


(** ** Decimal numerals: printing and reading back *)

Lemma digits_string_of_uint (d : Decimal.uint) (acc : Z) :
  strconv.digits (NilEmpty.string_of_uint d) acc = Some (horner d acc).
Proof.
  revert acc. induction d; intros acc; simpl; [done | apply IHd..].
Qed.

Lemma of_uint_acc_horner (d : Decimal.uint) (acc : positive) :
  Z.pos (Pos.of_uint_acc d acc) = horner d (Z.pos acc).
Proof.
  revert acc. induction d; intros acc; simpl; [done | rewrite IHd; f_equal; lia..].
Qed.

Lemma of_uint_horner (d : Decimal.uint) :
  Z.of_N (Pos.of_uint d) = horner d 0.
Proof.
  induction d; simpl; [done | done | apply of_uint_acc_horner..].
Qed.

(** The numeral of a positive number starts with a digit and reads back
    as the number. *)
Lemma numeral_of_positive (p : positive) :
  ∃ c rest,
    NilZero.string_of_uint (Pos.to_uint p) = String c rest
    ∧ Ascii.eqb c "-"%char = false ∧ Ascii.eqb c "+"%char = false
    ∧ strconv.digits (String c rest) 0 = Some (Z.pos p).
Proof.
  pose proof (DecimalPos.Unsigned.to_uint_nonnil p) as Hnil.
  pose proof (DecimalPos.Unsigned.of_to p) as Hof.
  assert (Hval : horner (Pos.to_uint p) 0 = Z.pos p)
    by (rewrite <- of_uint_horner, Hof; done).
  assert (Hstr : NilZero.string_of_uint (Pos.to_uint p)
                 = NilEmpty.string_of_uint (Pos.to_uint p))
    by by destruct (Pos.to_uint p).
  rewrite Hstr. rewrite <- Hval, <- digits_string_of_uint.
  destruct (Pos.to_uint p); [done | by eexists _, _..].
Qed.

(** [strconv.Atoi] reads back what [strconv.Itoa] prints, for every
    number of the range of [int]. *)
Lemma Atoi_Itoa (i : Z) :
  strconv.minInt ≤ i ≤ strconv.maxInt →
  strconv.Atoi (strconv.Itoa i) = Some i.
Proof.
  intros Hrange. unfold strconv.Itoa.
  destruct i as [|p|p]; [done | |].
  - destruct (numeral_of_positive p) as (c & rest & Hs & Hminus & Hplus & Hd).
    simpl. rewrite Hs. unfold strconv.Atoi.
    rewrite Hminus, Hplus. simpl orb. cbv iota. rewrite Hd.
    by rewrite bool_decide_eq_true_2.
  - destruct (numeral_of_positive p) as (c & rest & Hs & Hminus & Hplus & Hd).
    simpl. rewrite Hs. unfold strconv.Atoi. cbv zeta.
    change (Ascii.eqb "-"%char "-"%char) with true. simpl orb. cbv iota.
    rewrite Hd. simpl. by rewrite bool_decide_eq_true_2.
Qed.

Lemma Itoa_nonempty (i : Z) : strconv.Itoa i ≠ "".
Proof.
  unfold strconv.Itoa. destruct i as [|p|p]; [done | | done].
  destruct (numeral_of_positive p) as (c & rest & Hs & _).
  simpl. by rewrite Hs.
Qed.


(** ** The preparation, step by step *)

Section Preparation.

Context `{Libraries} (w : World).

Lemma importFile_trace (v : Vars) : trace (importFile w v) = [].
Proof.
  assert (Hquiet : keeps (λ _, True) (λ _, False) (importFile w))
    by (unfold importFile; keeps_auto).
  destruct (Hquiet v I) as [Ht _].
  destruct (trace (importFile w v)) as [|ev t]; [done |].
  by apply Forall_cons in Ht as [[] _].
Qed.

(** A completed preparation has loaded the base URL, completed the
    import, named the test where it had no name, and named the profile
    after the arguments, of which there is at least one. *)
Lemma prepare_steps (args : list string) (v0 : Vars) (baseURL : string)
    (v1 : Vars) :
  outcome (prepare w args v0) = Done baseURL v1 →
  GetMesheryCtl w = Some baseURL
  ∧ args ≠ []
  ∧ ∃ va,
      importFile w v0 = (Done tt va, [])
      ∧ v1 = set_profileName
               (GoString.Join (map GoString.ReplaceAll_space args) "%20")
               (if String.eqb (testName va) ""
                then set_testName (StringWithCharset w) va else va).
Proof.
  unfold prepare. intros Hrun.
  apply bind_Done_inv in Hrun as (b & v0' & Hload & Hrun).
  assert (GetMesheryCtl w = Some b ∧ v0' = v0) as [Hcfg ->].
  { unfold loadConfig, outcome in Hload.
    destruct (GetMesheryCtl w); simpl in Hload; [| done].
    by injection Hload as -> ->. }
  apply bind_Done_inv in Hrun as ([] & va & Himport & Hrun).
  apply bind_Done_inv in Hrun as ([] & vb & Hname & Hrun).
  apply bind_Done_inv in Hrun as ([] & vc & Hprofile & Hrun).
  injection Hrun as -> ->.
  split; [done |].
  assert (Hvb : vb = if String.eqb (testName va) ""
                     then set_testName (StringWithCharset w) va else va).
  { revert Hname. unfold nameTest, whenEmpty, bind, get, modify, ret, outcome.
    destruct (String.eqb (testName va) ""); simpl; by intros [= <-]. }
  revert Hprofile. unfold nameProfile, outcome.
  destruct args as [|arg args]; [done |]. simpl. intros [= <-].
  split; [done |]. exists va. split; [| by rewrite Hvb].
  pose proof (importFile_trace v0) as Ht.
  destruct (importFile w v0) as [o t]. simpl in *. by subst.
Qed.

End Preparation.

(** ** The profile name *)

Lemma ReplaceAll_space_app (a b : string) :
  GoString.ReplaceAll_space (a ++ b)
  = GoString.ReplaceAll_space a ++ GoString.ReplaceAll_space b.
Proof.
  induction a as [|c a IH]; simpl; [done |].
  destruct (Ascii.eqb c " "); simpl; by rewrite IH.
Qed.

Lemma hasSpace_app (a b : string) :
  hasSpace (a ++ b) = hasSpace a || hasSpace b.
Proof.
  induction a as [|c a IH]; simpl; [done |].
  by rewrite IH, orb_assoc.
Qed.

Lemma hasSpace_ReplaceAll_space (s : string) :
  hasSpace (GoString.ReplaceAll_space s) = false.
Proof.
  induction s as [|c s IH]; simpl; [done |].
  destruct (Ascii.eqb c " ") eqn:Hc; simpl; [done |].
  by rewrite Hc.
Qed.

(** Replacing the spaces and joining with [%20] is replacing the spaces
    of the arguments joined with spaces. *)
Lemma Join_ReplaceAll_space (args : list string) :
  GoString.Join (map GoString.ReplaceAll_space args) "%20"
  = GoString.ReplaceAll_space (GoString.Join args " ").
Proof.
  unfold GoString.Join.
  induction args as [|arg [|arg' args] IH]; simpl; [done | done |].
  simpl in IH. by rewrite ReplaceAll_space_app, IH.
Qed.

(** X11: the profile name.  After a completed preparation the profile name
    is the arguments joined by single spaces with every space replaced by
    [%20], so one quoted argument with spaces and the same words as
    separate arguments name the same profile; it contains no space; and
    it is the only name the registry is asked for. *)
Theorem profile_name_is_the_joined_arguments `{Libraries} (w : World)
    (args : list string) (v0 : Vars) (baseURL : string) (v1 : Vars)
    (t1 : list Event) :
  prepare w args v0 = (Done baseURL v1, t1) →
  profileName v1 = GoString.ReplaceAll_space (GoString.Join args " ")
  ∧ hasSpace (profileName v1) = false
  ∧ ∀ name, Fetched name ∈ trace (RunE w args v0) → name = profileName v1.
Proof.
  intros Hprep.
  destruct (prepare_steps w args v0 baseURL v1) as (_ & _ & va & _ & Hv1);
    [by rewrite Hprep |].
  assert (Hname : profileName v1
                  = GoString.ReplaceAll_space (GoString.Join args " ")).
  { rewrite Hv1. simpl. apply Join_ReplaceAll_space. }
  split; [done |]. split.
  - rewrite Hname. apply hasSpace_ReplaceAll_space.
  - intros name Hin.
    destruct (RunE_event w args v0 baseURL v1 t1 _ Hprep Hin)
      as [[= ->] | [[=] | [[=] | [(? & [=] & _) | (? & ? & _ & [=] & _)]]]].
    done.
Qed.

Lemma profile_name_is_the_joined_arguments_witness :
  ∃ v1,
    prepare (H := Sample.libraries)
      (Sample.world [] false false Sample.ok) ["load test"; "a"]
      Sample.noFlags
    = (Done "http://localhost:9081" v1, [])
    ∧ profileName v1 = "load%20test%20a"
    ∧ prepare (H := Sample.libraries)
        (Sample.world [] false false Sample.ok) ["load"; "test"; "a"]
        Sample.noFlags
      = (Done "http://localhost:9081" v1, []).
Proof.
  eexists. split; [reflexivity |]. split; [| reflexivity].
  exact (proj1
    (profile_name_is_the_joined_arguments (H := Sample.libraries)
       (Sample.world [] false false Sample.ok) ["load test"; "a"]
       Sample.noFlags "http://localhost:9081" _ [] eq_refl)).
Defined.


(** ** Before the registry *)

(** X12: no argument, no run.  Without a positional argument the command
    emits nothing and never completes, whatever flags and file it is
    given; where the configuration loads and the import of the file (or
    its absence) goes through, the error is the missing profile name. *)
Theorem without_profile_name_nothing_happens `{Libraries} (w : World)
    (v0 : Vars) :
  trace (RunE w [] v0) = []
  ∧ (∀ v', outcome (RunE w [] v0) ≠ Done tt v')
  ∧ (∀ baseURL va t,
       GetMesheryCtl w = Some baseURL →
       importFile w v0 = (Done tt va, t) →
       RunE w [] v0 = (Failed ErrNoProfileName, [])).
Proof.
  destruct (RunE_cases w [] v0)
    as [(Hnil & Hnot & Hout & _) | (baseURL & v1 & Hprep & _)].
  - split; [done |]. split; [done |].
    intros baseURL va t Hcfg Himport.
    assert (Hprep : outcome (prepare w [] v0) = Failed ErrNoProfileName).
    { unfold prepare, loadConfig, nameTest, nameProfile, whenEmpty, bind,
        get, modify, orFail, ret, fail, outcome.
      rewrite Hcfg. simpl. rewrite Himport. simpl.
      by destruct (String.eqb (testName va) ""). }
    rewrite Hprep in Hout.
    destruct (RunE w [] v0) as [o t']. simpl in *. by subst.
  - destruct (prepare_steps w [] v0 baseURL v1) as (_ & Hargs & _);
      [by rewrite Hprep | done].
Qed.

Lemma without_profile_name_nothing_happens_witness :
  RunE (H := Sample.libraries)
    (Sample.world [Sample.stored] false false Sample.ok) []
    (Sample.fileOnly "duration: 2m")
  = (Failed ErrNoProfileName, []).
Proof.
  refine (proj2 (proj2
    (without_profile_name_nothing_happens (H := Sample.libraries)
       (Sample.world [Sample.stored] false false Sample.ok)
       (Sample.fileOnly "duration: 2m")))
    "http://localhost:9081" _ [] eq_refl _).
  reflexivity.
Defined.

(** X13: the errors before the registry.  A configuration that does not
    load is the first error.  After it, a file that is given and cannot be
    read, cannot be decoded, or lacks the test configuration or the mesh
    descriptor is the error of the command, each with its own kind,
    whatever the arguments are and before anything is emitted. *)
Theorem early_errors_come_first `{Libraries} (w : World)
    (args : list string) (v0 : Vars) :
  (GetMesheryCtl w = None →
   RunE w args v0 = (Failed ErrMesheryConfig, []))
  ∧ (GetMesheryCtl w ≠ None →
     filePath v0 ≠ "" →
     (ReadFile w (filePath v0) = None →
      RunE w args v0 = (Failed ErrReadFilepath, []))
     ∧ (∀ text,
          ReadFile w (filePath v0) = Some text →
          (yaml_Unmarshal text = None →
           RunE w args v0 = (Failed ErrFailUnmarshalFile, []))
          ∧ (∀ file,
               yaml_Unmarshal text = Some file →
               models.Config file = None
               ∨ models.ServiceMesh_ file = None →
               RunE w args v0 = (Failed ErrInvalidTestConfigFile, [])))).
Proof.
  assert (Hfail : ∀ e,
            outcome (prepare w args v0) = Failed e →
            RunE w args v0 = (Failed e, [])).
  { intros e He.
    destruct (RunE_cases w args v0)
      as [(Hnil & _ & Hout & _) | (baseURL & v1 & Hprep & _)].
    - rewrite He in Hout.
      destruct (RunE w args v0) as [o t]. simpl in *. by subst.
    - by rewrite Hprep in He. }
  split.
  - intros Hcfg. apply Hfail.
    unfold prepare, loadConfig, bind, orFail, fail, outcome.
    by rewrite Hcfg.
  - intros Hcfg Hpath%String.eqb_neq.
    destruct (GetMesheryCtl w) as [baseURL|] eqn:Hbase; [| done].
    assert (Himport : ∀ e,
              importFile w v0 = (Failed e, []) →
              RunE w args v0 = (Failed e, [])).
    { intros e He. apply Hfail.
      unfold prepare, loadConfig, bind, orFail, ret, outcome.
      rewrite Hbase. simpl. by rewrite He. }
    split; [| intros text Hread; split; [| intros file Hparse Hmissing]];
      [intros Hread | intros Hparse |]; apply Himport;
      unfold importFile, bind, get, orFail, ret, fail;
      rewrite Hpath, Hread; simpl; [done | |]; rewrite Hparse; simpl;
      [done |].
    destruct Hmissing as [-> | Hmesh]; [done |]. rewrite Hmesh.
    by destruct (models.Config file).
Qed.

Lemma early_errors_come_first_witness :
  RunE (H := Sample.libraries)
    (Sample.world [Sample.stored] false false Sample.ok) []
    (Sample.fileOnly "mesh absent")
  = (Failed ErrInvalidTestConfigFile, []).
Proof.
  refine (proj2 (proj2 (proj2
    (early_errors_come_first (H := Sample.libraries)
       (Sample.world [Sample.stored] false false Sample.ok) []
       (Sample.fileOnly "mesh absent")) _ _) "mesh absent" eq_refl)
    _ eq_refl _);
    [discriminate | discriminate | by right].
Defined.


(** ** Variables that are set *)

(** A guard that the invariant makes false leaves the state alone. *)
Lemma keeps_whenEmpty_set {I : Vars → Prop} {T : Event → Prop}
    (x : Vars → string) (m : M unit) :
  (∀ v, I v → x v ≠ "") → keeps I T (whenEmpty x m).
Proof.
  intros Hx v Hv. unfold whenEmpty, bind, get, trace, outcome. simpl.
  pose proof (Hx v Hv) as Hne. apply String.eqb_neq in Hne.
  rewrite Hne. simpl.
  split; [by try apply Forall_nil | by intros ? ? [= _ <-]].
Qed.

(** [keeps_step], with a guard on a variable that the invariant fixes to
    a non-empty value skipped. *)
Ltac keeps_set_step :=
  lazymatch goal with
  | |- keeps _ _ (whenEmpty _ _) =>
      first [ by (apply keeps_whenEmpty_set; intros ? ?; simpl; congruence)
            | apply keeps_whenEmpty ]
  | _ => keeps_step
  end.

Section SetURL.

Context `{Libraries} (w : World).

(** A test URL that is set gets through the preparation. *)
Lemma prepare_keeps_testURL (args : list string) (u : string) :
  u ≠ "" → keeps (λ v, testURL v = u) (λ _, True) (prepare w args).
Proof.
  intros Hu.
  unfold prepare, loadConfig, importFile, nameTest, nameProfile.
  repeat keeps_set_step.
Qed.

End SetURL.

(** X14: a test URL that is set stays.  A URL given by flag gets through
    the preparation untouched, the file's URL being taken only when there
    is none; and once the prepared URL is not empty, it is the test URL of
    every request of the command, the endpoints of the creation request
    and the value that the command adds to the url parameter of the run
    request (after the values that the query of the request URL has for
    it), whatever the matched or chosen profile has as its endpoint: the
    profile's endpoint is the last resort. *)
Theorem test_url_that_is_set_stays `{Libraries} (w : World)
    (args : list string) (v0 : Vars) (baseURL : string) (v1 : Vars)
    (t1 : list Event) :
  prepare w args v0 = (Done baseURL v1, t1) →
  (testURL v0 ≠ "" → testURL v1 = testURL v0)
  ∧ (testURL v1 ≠ "" →
     ∀ req,
       Sent req ∈ trace (RunE w args v0) →
       match req with
       | POST _ body => body !! "endpoints" = Some (JStrings [testURL v1])
       | GET url q => added (URL_Query url) q "url" (testURL v1)
       end).
Proof.
  intros Hprep. split.
  - intros Hu.
    destruct (prepare_keeps_testURL w args (testURL v0) Hu v0 eq_refl)
      as [_ Hkeep].
    apply (Hkeep baseURL). by rewrite Hprep.
  - intros Hu req Hin.
    destruct (RunE_event w args v0 baseURL v1 t1 _ Hprep Hin)
      as [[=] | [[=] | [[=] | [(req' & [= <-] & Hsent & _)
                              | (v2 & q & Hres & [= ->] & Hq & _)]]]].
    + destruct req as [url body|url q].
      * by destruct (sentCreation_endpoints _ _ _ _ _ Hsent) as (_ & _ & _ & ?).
      * by destruct Hsent as (? & ? & _ & _ & _ & _ & _ & _ & [=]).
    + destruct (buildQuery_fields _ v2 q Hq) as (_ & _ & _ & Hurl & _).
      assert (Hv2 : testURL v2 = testURL v1).
      { destruct (resolveProfile_done w baseURL v1 v2 Hres)
          as [(profiles & p & _ & _ & Hafter & _)
             | (req & response & _ & _ & _ & _ & Hv2)];
          [| by rewrite Hv2].
        destruct (afterMatch_fields _ _ _ Hafter)
          as (_ & _ & _ & Hkeep & _).
        by apply Hkeep. }
      by rewrite <- Hv2.
Qed.

Lemma test_url_that_is_set_stays_witness :
  ∃ q,
    Sent (GET "http://localhost:9081/api/user/performance/profiles/1b4e28ba/run"
            q)
      ∈ trace (RunE (H := Sample.libraries)
                 (Sample.world [Sample.stored] false false Sample.ok)
                 ["nightly"] (Sample.allFlags ""))
    ∧ q !! "url" = Some ["https://flag.example/"].
Proof.
  destruct matched_run_request as (q & Htrace).
  assert (Hsent : Sent (GET "http://localhost:9081/api/user/performance/profiles/1b4e28ba/run"
                          q)
                    ∈ trace (RunE (H := Sample.libraries)
                               (Sample.world [Sample.stored] false false
                                  Sample.ok)
                               ["nightly"] (Sample.allFlags ""))).
  { rewrite Htrace. apply list_elem_of_further, list_elem_of_here. }
  exists q. split; [exact Hsent |].
  apply (added_alone (Sample.query "http://localhost:9081/api/user/performance/profiles/1b4e28ba/run"));
    [| reflexivity].
  refine (proj2
    (test_url_that_is_set_stays (H := Sample.libraries)
       (Sample.world [Sample.stored] false false Sample.ok)
       ["nightly"] (Sample.allFlags "") "http://localhost:9081"
       (set_profileName "nightly" (Sample.allFlags "")) [] eq_refl)
    _ (GET _ q) Hsent).
  discriminate.
Defined.

(** ** Numbers of the file *)

(** X15: the numbers of the file reach the creation request.  With a file
    and no flag for QPS, the requests-per-second of the file's first
    client, printed in decimal by the import and read back by profile
    creation, is the [qps] of every creation request the command sends,
    provided it is in the range of [int]; likewise its connection count
    and [concurrent_request]. *)
Theorem file_numbers_reach_creation `{Libraries} (w : World)
    (args : list string) (v0 : Vars) (baseURL : string) (v1 : Vars)
    (t1 : list Event) (text : string) (config : SMP.PerformanceTestConfig)
    (mesh : SMP.ServiceMesh)
    (testClient : SMP.PerformanceTestConfig_Client)
    (rest : list SMP.PerformanceTestConfig_Client)
    (url : string) (body : gmap string JSON) :
  prepare w args v0 = (Done baseURL v1, t1) →
  filePath v0 ≠ "" →
  ReadFile w (filePath v0) = Some text →
  yaml_Unmarshal text
  = Some {| models.Config := Some config;
            models.ServiceMesh_ := Some mesh |} →
  SMP.Clients config = testClient :: rest →
  Sent (POST url body) ∈ trace (RunE w args v0) →
  (qps v0 = "" →
   strconv.minInt ≤ SMP.Rps testClient ≤ strconv.maxInt →
   body !! "qps" = Some (JInt (SMP.Rps testClient)))
  ∧ (concurrentRequests v0 = "" →
     strconv.minInt ≤ SMP.Connections testClient ≤ strconv.maxInt →
     body !! "concurrent_request"
     = Some (JInt (SMP.Connections testClient))).
Proof.
  intros Hprep Hpath Hread Hparse Hclients Hin.
  destruct (prepare_steps w args v0 baseURL v1)
    as (_ & _ & va & Himport & Hv1); [by rewrite Hprep |].
  assert (Hva : flagWins (qps v0) (strconv.FormatInt10 (SMP.Rps testClient))
                  (qps va)
                ∧ flagWins (concurrentRequests v0)
                    (strconv.Itoa (SMP.Connections testClient))
                    (concurrentRequests va)).
  { destruct (decide (testURL v0 = "")) as [Hu|Hu].
    - destruct (SMP.EndpointUrls testClient) as [|u us] eqn:Hends.
      + by rewrite (importFile_no_endpoint w v0 text config mesh Hpath Hread
                      Hparse testClient rest Hclients Hu Hends) in Himport.
      + destruct (importFile_merges w v0 text config mesh Hpath Hread Hparse
                    testClient rest u us Hclients (λ _, Hends))
          as (va' & Hrun & _ & _ & _ & ? & ? & _).
        rewrite Hrun in Himport. by injection Himport as ->.
    - destruct (importFile_merges w v0 text config mesh Hpath Hread Hparse
                  testClient rest "" [] Hclients)
        as (va' & Hrun & _ & _ & _ & ? & ? & _); [done |].
      rewrite Hrun in Himport. by injection Himport as ->. }
  assert (Hfields : qps v1 = qps va
                    ∧ concurrentRequests v1 = concurrentRequests va).
  { rewrite Hv1. by destruct (String.eqb (testName va) ""). }
  destruct Hfields as [Hq Hc]. destruct Hva as [[_ Hrps] [_ Hconn]].
  destruct (RunE_event w args v0 baseURL v1 t1 _ Hprep Hin)
    as [[=] | [[=] | [[=] | [(req' & [= <-] & Hsent & _)
                            | (? & ? & _ & [=] & _)]]]].
  destruct Hsent as (c & r & _ & _ & _ & Hconv & Hrate & _ & [= _ ->]).
  pose proof (creationValues_lookup c r (withDefaults v1)) as Hlookup.
  cbv zeta in Hlookup. destruct Hlookup as (_ & Hbq & Hbc & _).
  split.
  - intros Hempty Hrange. rewrite Hbq. do 2 f_equal.
    rewrite Hq, (Hrps Hempty) in Hrate. unfold strconv.FormatInt10 in Hrate.
    unfold orDefault in Hrate.
    destruct (String.eqb_spec (strconv.Itoa (SMP.Rps testClient)) "")
      as [He|_]; [by apply Itoa_nonempty in He |].
    rewrite (Atoi_Itoa _ Hrange) in Hrate. by injection Hrate.
  - intros Hempty Hrange. rewrite Hbc. do 2 f_equal.
    rewrite Hc, (Hconn Hempty) in Hconv. unfold orDefault in Hconv.
    destruct (String.eqb_spec (strconv.Itoa (SMP.Connections testClient)) "")
      as [He|_]; [by apply Itoa_nonempty in He |].
    rewrite (Atoi_Itoa _ Hrange) in Hconv. by injection Hconv.
Qed.

Lemma file_numbers_reach_creation_witness :
  ∃ url body,
    Sent (POST url body)
      ∈ trace (RunE (H := Sample.libraries)
                 (Sample.world [] true false Sample.ok) ["fresh"]
                 (Sample.fileOnly "duration: 2m"))
    ∧ body !! "qps" = Some (JInt 7)
    ∧ body !! "concurrent_request" = Some (JInt 3).
Proof.
  assert (Htrace : ∃ url body,
            Sent (POST url body)
              ∈ trace (RunE (H := Sample.libraries)
                         (Sample.world [] true false Sample.ok) ["fresh"]
                         (Sample.fileOnly "duration: 2m"))).
  { eexists _, _. vm_compute.
    apply list_elem_of_further, list_elem_of_here. }
  destruct Htrace as (url & body & Hin). exists url, body.
  split; [exact Hin |].
  destruct (file_numbers_reach_creation (H := Sample.libraries)
              (Sample.world [] true false Sample.ok) ["fresh"]
              (Sample.fileOnly "duration: 2m") "http://localhost:9081"
              _ [] "duration: 2m"
              {| SMP.Name := "smp-test"; SMP.Duration := "2m";
                 SMP.Clients := [Sample.client] |}
              {| SMP.Type_ := 3 |} Sample.client [] url body
              eq_refl ltac:(discriminate) eq_refl eq_refl eq_refl Hin)
    as [Hqps Hconc].
  split; [apply Hqps | apply Hconc]; first [reflexivity | by vm_compute].
Defined.


(** ** The run request after a match *)

(** X16: the run request carries the matched profile.  After a completed
    preparation with no file, when the registry has profiles of the name,
    the values that the command adds to the query of every run request
    are the first load generator, the concurrency and QPS in decimal, and
    the duration, split, of one of these profiles, each after the values
    that the query of the request URL has for the parameter; its service
    mesh is added exactly when it is not empty, and the mesh parameter is
    as the URL has it otherwise. *)
Theorem run_request_carries_matched_profile `{Libraries} (w : World)
    (args : list string) (v0 : Vars) (baseURL : string) (v1 : Vars)
    (t1 : list Event) (profiles : list models.PerformanceProfile)
    (url : string) (q : gmap string (list string)) :
  prepare w args v0 = (Done baseURL v1, t1) →
  filePath v1 = "" →
  fetchPerformanceProfiles w baseURL (profileName v1) (pageSize w)
    (pageNumber w - 1) = inr profiles →
  profiles ≠ [] →
  Sent (GET url q) ∈ trace (RunE w args v0) →
  ∃ p lg pre ch,
    p ∈ profiles
    ∧ head (models.LoadGenerators p) = Some lg
    ∧ added (URL_Query url) q "loadGenerator" lg
    ∧ added (URL_Query url) q "c"
        (strconv.Itoa (models.ConcurrentRequest p))
    ∧ added (URL_Query url) q "qps" (strconv.Itoa (models.QPS p))
    ∧ models.Duration p = pre ++ String ch ""
    ∧ added (URL_Query url) q "t" pre
    ∧ added (URL_Query url) q "dur" (GoString.of_byte ch)
    ∧ (if String.eqb (models.ServiceMesh p) ""
       then q !! "mesh" = URL_Query url !! "mesh"
       else added (URL_Query url) q "mesh" (models.ServiceMesh p)).
Proof.
  intros Hprep Hfile Hfetch Hne Hin.
  destruct (RunE_event w args v0 baseURL v1 t1 _ Hprep Hin)
    as [[=] | [[=] | [[=] | [(req' & [= <-] & Hsent & _)
                            | (v2 & q' & Hres & [= -> <-] & Hq & _)]]]].
  { by destruct Hsent as (? & ? & _ & _ & _ & _ & _ & _ & [=]). }
  destruct (resolveProfile_done w baseURL v1 v2 Hres)
    as [(profiles' & p & Hfetch' & Hp & Hafter & _)
       | (req & response & Hnone & _)]; [| congruence].
  rewrite Hfetch in Hfetch'. injection Hfetch' as <-.
  destruct (afterMatch_fields _ _ _ Hafter) as (_ & _ & _ & _ & _ & Hpull & _).
  destruct (Hpull Hfile) as (_ & Hlg & Hc & Hqps & Hd & Hm).
  destruct (buildQuery_fields _ v2 q Hq)
    as (_ & Hqlg & Hqc & _ & Hqqps & (pre & ch & Hsplit & Ht & Hdur)
        & Hmesh & _).
  exists p, (loadGenerator v2), pre, ch.
  rewrite Hc in Hqc. rewrite Hqps in Hqqps. rewrite Hd in Hsplit.
  rewrite Hm in Hmesh. done.
Qed.

Lemma run_request_carries_matched_profile_witness :
  ∃ q,
    Sent (GET "http://localhost:9081/api/user/performance/profiles/1b4e28ba/run"
            q)
      ∈ trace (RunE (H := Sample.libraries)
                 (Sample.world [Sample.stored] false false Sample.ok)
                 ["nightly"] (Sample.allFlags ""))
    ∧ q !! "c" = Some ["4"] ∧ q !! "qps" = Some ["9"].
Proof.
  destruct matched_run_request as (q & Htrace).
  assert (Hsent : Sent (GET "http://localhost:9081/api/user/performance/profiles/1b4e28ba/run"
                          q)
                    ∈ trace (RunE (H := Sample.libraries)
                               (Sample.world [Sample.stored] false false
                                  Sample.ok)
                               ["nightly"] (Sample.allFlags ""))).
  { rewrite Htrace. apply list_elem_of_further, list_elem_of_here. }
  exists q. split; [exact Hsent |].
  destruct (run_request_carries_matched_profile (H := Sample.libraries)
              (Sample.world [Sample.stored] false false Sample.ok)
              ["nightly"] (Sample.allFlags "") "http://localhost:9081"
              (set_profileName "nightly" (Sample.allFlags "")) []
              [Sample.stored] _ q eq_refl eq_refl eq_refl
              ltac:(discriminate) Hsent)
    as (p & lg & pre & ch & Hp & _ & _ & Hc & Hqps & _).
  apply list_elem_of_singleton in Hp as ->.
  split; [exact (added_alone _ _ _ _ Hc eq_refl)
         | exact (added_alone _ _ _ _ Hqps eq_refl)].
Defined.

(** ** When the run completes *)

(** X17: submission.  What follows profile resolution completes exactly
    when the test URL is there and valid, the request can be made, the
    query can be built, and the response to the run request is not HTML,
    has status 200 and a body that can be read; it leaves every variable
    as resolution left it. *)
Theorem submission_completes_exactly_when `{Libraries} (w : World)
    (baseURL : string) (v v' : Vars) :
  outcome (submit w baseURL v) = Done tt v'
  ↔ v' = v
    ∧ testURL v ≠ "" ∧ IsURL (testURL v) = true
    ∧ NewRequest w "GET" (runURL baseURL v) = None
    ∧ ∃ q resp data,
        buildQuery (URL_Query (runURL baseURL v)) v = Some q
        ∧ Do w (GET (runURL baseURL v) q) = Some resp
        ∧ ContentTypeIsHTML resp = false
        ∧ StatusCode resp = 200
        ∧ Body resp = Some data.
Proof.
  rewrite submit_run. split.
  - destruct (String.eqb_spec (testURL v) ""); [done |].
    destruct (IsURL (testURL v)); simpl; [| done].
    destruct (NewRequest w "GET" _); [done |].
    destruct (buildQuery _ v) as [q|] eqn:Hq; [| done].
    rewrite execute_run. unfold outcome. simpl.
    destruct (Do w _) as [resp|] eqn:Hdo; [| done].
    destruct (ContentTypeIsHTML resp) eqn:Hhtml; [done |].
    destruct (Z.eqb_spec (StatusCode resp) 200); simpl; [| done].
    destruct (Body resp) as [data|] eqn:Hbody; [| done].
    intros [= <-]. repeat split; try done. by exists q, resp, data.
  - intros (-> & Hu%String.eqb_neq & Hvalid & Hreq
            & q & resp & data & Hq & Hdo & Hhtml & Hcode & Hbody).
    rewrite Hu, Hvalid, Hreq, Hq. simpl.
    rewrite execute_run, Hdo, Hhtml, Hcode, Hbody. done.
Qed.

Lemma submission_completes_exactly_when_witness :
  outcome
    (submit (H := Sample.libraries)
       (Sample.world [Sample.stored] false false Sample.ok)
       "http://localhost:9081" (Sample.allFlags ""))
  = Done tt (Sample.allFlags "").
Proof.
  apply (submission_completes_exactly_when (H := Sample.libraries)
           (Sample.world [Sample.stored] false false Sample.ok)
           "http://localhost:9081" (Sample.allFlags "")
           (Sample.allFlags "")).
  split; [reflexivity |]. split; [discriminate |].
  split; [reflexivity |]. split; [reflexivity |].
  eexists _, Sample.ok, "{}".
  repeat split; reflexivity.
Defined.
